(** * Todocalmenu: the todo record model and the menu-driven edit loop

  A shallow embedding of [todocalmenu.go].  The Go program keeps its tasks
  as [*Todo] objects shared between the store's slice and the editor, talks
  to the user through a launcher subprocess, and keeps one calendar file per
  task.  The embedding therefore has
  - a heap of [Todo] objects addressed by pointers, and the store's slice of
    pointers ([todoList.Todos]);
  - the launcher as a script of replies consumed by [display];
  - the directory as a finite map from paths to decoded calendars;
  - the Go library functions the program calls ([strings], [strconv],
    [time], [fmt.Sscanf], the calendar codec) as executable models. *)

From Stdlib Require Import ZArith Lia String Ascii List Bool.
From stdpp Require Import gmap strings list pretty.

(** ** Package [strings] (byte strings; the program's separators are ASCII) *)

Module GoStrings.

Definition HasPrefix (s pre : string) : bool := String.prefix pre s.

Fixpoint rev_string (acc s : string) : string :=
  match s with
  | EmptyString => acc
  | String c r => rev_string (String c acc) r
  end.

Definition reverse (s : string) : string := rev_string EmptyString s.

Definition HasSuffix (s suf : string) : bool :=
  String.prefix (reverse suf) (reverse s).

(** [strings.Contains]: some suffix of [s] starts with [sub]. *)
Fixpoint Contains (s sub : string) : bool :=
  String.prefix sub s ||
  match s with
  | EmptyString => false
  | String _ r => Contains r sub
  end.

Definition lower_ascii (c : ascii) : ascii :=
  let n := nat_of_ascii c in
  if (65 <=? n)%nat && (n <=? 90)%nat then ascii_of_nat (n + 32) else c.

Fixpoint ToLower (s : string) : string :=
  match s with
  | EmptyString => EmptyString
  | String c r => String (lower_ascii c) (ToLower r)
  end.

(** The white space [strings.TrimSpace] removes, as far as it is ASCII:
    tab, line feed, vertical tab, form feed, carriage return, space. *)
Definition is_space (c : ascii) : bool :=
  let n := nat_of_ascii c in
  ((9 <=? n)%nat && (n <=? 13)%nat) || (n =? 32)%nat.

Fixpoint trim_left (p : ascii -> bool) (s : string) : string :=
  match s with
  | EmptyString => EmptyString
  | String c r => if p c then trim_left p r else s
  end.

Definition trim_right (p : ascii -> bool) (s : string) : string :=
  reverse (trim_left p (reverse s)).

Definition TrimSpace (s : string) : string :=
  trim_right is_space (trim_left is_space s).

(** [strings.TrimRight(s, "\n")]. *)
Definition TrimRightNewlines (s : string) : string :=
  trim_right (fun c => (nat_of_ascii c =? 10)%nat) s.

(** [strings.Split(s, sep)] for a one-byte separator: always at least one
    piece, [Split("", ",") = [""]]. *)
Fixpoint Split (s : string) (sep : ascii) : list string :=
  match s with
  | EmptyString => [EmptyString]
  | String c r =>
      if Ascii.eqb c sep then EmptyString :: Split r sep
      else match Split r sep with
           | [] => [String c EmptyString]
           | piece :: rest => String c piece :: rest
           end
  end.

(** [strings.SplitN(s, sep, 2)]: cut at the first separator only. *)
Fixpoint SplitN2 (s : string) (sep : ascii) : list string :=
  match s with
  | EmptyString => [EmptyString]
  | String c r =>
      if Ascii.eqb c sep then [EmptyString; r]
      else match SplitN2 r sep with
           | [] => [String c EmptyString]
           | piece :: rest => String c piece :: rest
           end
  end.

Fixpoint Join (l : list string) (sep : string) : string :=
  match l with
  | [] => EmptyString
  | [x] => x
  | x :: r => x +:+ sep +:+ Join r sep
  end.

End GoStrings.

(** ** Decimal digits, [strconv.Atoi] and [strconv.Itoa] *)

Module GoStrconv.
Local Open Scope Z_scope.

Definition digit_of (c : ascii) : option Z :=
  let n := Z.of_nat (nat_of_ascii c) in
  if (48 <=? n) && (n <=? 57) then Some (n - 48) else None.

Definition digit_char (d : Z) : ascii := ascii_of_nat (Z.to_nat (48 + d)).

(** The value of a string of decimal digits, most significant first;
    [None] when a byte is not a digit. *)
Fixpoint digits_from (acc : Z) (s : string) : option Z :=
  match s with
  | EmptyString => Some acc
  | String c r =>
      match digit_of c with
      | Some d => digits_from (10 * acc + d) r
      | None => None
      end
  end.

Definition maxInt : Z := 9223372036854775807.
Definition minInt : Z := -9223372036854775808.

(** [strconv.Atoi(s)]: an optional sign and at least one decimal digit.
    The second component is [err != nil].  On a syntax error the value is
    0; on a range error it is the nearest 64-bit integer. *)
Definition Atoi (s : string) : Z * bool :=
  let '(neg, body) :=
    match s with
    | String "-"%char r => (true, r)
    | String "+"%char r => (false, r)
    | _ => (false, s)
    end in
  match body with
  | EmptyString => (0, true)
  | _ =>
      match digits_from 0 body with
      | None => (0, true)
      | Some n =>
          let v := if neg then - n else n in
          if v <? minInt then (minInt, true)
          else if maxInt <? v then (maxInt, true)
          else (v, false)
      end
  end.

(** [strconv.Itoa] and the verb [%d]. *)
Definition Itoa (n : Z) : string := pretty n.

End GoStrconv.

(** ** Package [time]: the calendar and the layouts the program uses

    A [Time] is an instant (seconds and nanoseconds since 0001-01-01 00:00:00
    UTC, as in Go's representation) and a location.  Below are the parts that
    do not depend on the zone: the proleptic Gregorian calendar and the
    formatting and parsing of the program's five layouts. *)

Module GoCalendar.
Local Open Scope Z_scope.

Definition isLeap (y : Z) : bool :=
  ((y mod 4 =? 0) && negb (y mod 100 =? 0)) || (y mod 400 =? 0).

Definition daysIn (m y : Z) : Z :=
  if m =? 2 then (if isLeap y then 29 else 28)
  else if (m =? 4) || (m =? 6) || (m =? 9) || (m =? 11) then 30
  else 31.

Definition yearLength (y : Z) : Z := if isLeap y then 366 else 365.

(** Days from 0001-01-01 to 1 January of year [y]. *)
Definition daysBeforeYear (y : Z) : Z :=
  let y' := y - 1 in 365 * y' + y' / 4 - y' / 100 + y' / 400.

(** Days of the year before month [m]. *)
Definition daysBefore (leap : bool) (m : Z) : Z :=
  match m with
  | 1 => 0 | 2 => 31 | 3 => 59 | 4 => 90 | 5 => 120 | 6 => 151
  | 7 => 181 | 8 => 212 | 9 => 243 | 10 => 273 | 11 => 304 | _ => 334
  end + (if leap && (2 <? m) then 1 else 0).

(** Days from 0001-01-01 to the date [y]-[m]-[d]; linear in [d], so a day
    outside the month carries over as [time.Date] normalises it. *)
Definition daysFromCivil (y m d : Z) : Z :=
  daysBeforeYear y + daysBefore (isLeap y) m + d - 1.

(** The year and the day of the year of a day count, by cycles of 400, 100,
    4 and 1 years as in [absDate]. *)
Definition yearDay (z : Z) : Z * Z :=
  let n400 := z / 146097 in
  let r := z - n400 * 146097 in
  let n100 := Z.min (r / 36524) 3 in
  let r := r - n100 * 36524 in
  let n4 := r / 1461 in
  let r := r - n4 * 1461 in
  let n1 := Z.min (r / 365) 3 in
  (400 * n400 + 100 * n100 + 4 * n4 + n1 + 1, r - n1 * 365).

(** The month and the day of the month of a day of the year. *)
Definition monthDay (leap : bool) (yd : Z) : Z * Z :=
  if yd <? daysBefore leap 2 then (1, yd - daysBefore leap 1 + 1)
  else if yd <? daysBefore leap 3 then (2, yd - daysBefore leap 2 + 1)
  else if yd <? daysBefore leap 4 then (3, yd - daysBefore leap 3 + 1)
  else if yd <? daysBefore leap 5 then (4, yd - daysBefore leap 4 + 1)
  else if yd <? daysBefore leap 6 then (5, yd - daysBefore leap 5 + 1)
  else if yd <? daysBefore leap 7 then (6, yd - daysBefore leap 6 + 1)
  else if yd <? daysBefore leap 8 then (7, yd - daysBefore leap 7 + 1)
  else if yd <? daysBefore leap 9 then (8, yd - daysBefore leap 8 + 1)
  else if yd <? daysBefore leap 10 then (9, yd - daysBefore leap 9 + 1)
  else if yd <? daysBefore leap 11 then (10, yd - daysBefore leap 10 + 1)
  else if yd <? daysBefore leap 12 then (11, yd - daysBefore leap 11 + 1)
  else (12, yd - daysBefore leap 12 + 1).

Definition civilFromDays (z : Z) : Z * Z * Z :=
  let '(y, yd) := yearDay z in
  let '(m, d) := monthDay (isLeap y) yd in
  (y, m, d).

Definition validDate (y m d : Z) : Prop := 1 <= m <= 12 /\ 1 <= d <= daysIn m y.

(** The fields a layout reads or writes. *)
Record Civil := mkCivil {
  cYear : Z; cMonth : Z; cDay : Z;
  cHour : Z; cMin : Z; cSec : Z; cNsec : Z
}.

(** The pieces of a layout string: ["2006"], ["01"], ["02"], ["15"], ["04"],
    ["05"] and literal bytes. *)
Inductive Item := Year4 | Month2 | Day2 | Hour2 | Minute2 | Second2 | Lit (c : ascii).

(** "20060102T150405Z" *)
Definition layoutStampZ : list Item :=
  [Year4; Month2; Day2; Lit "T"; Hour2; Minute2; Second2; Lit "Z"].
(** "20060102T150405" *)
Definition layoutStamp : list Item :=
  [Year4; Month2; Day2; Lit "T"; Hour2; Minute2; Second2].
(** "20060102" *)
Definition layoutCompactDate : list Item := [Year4; Month2; Day2].
(** "2006-01-02" *)
Definition layoutDate : list Item := [Year4; Lit "-"; Month2; Lit "-"; Day2].
(** "15:04" *)
Definition layoutClock : list Item := [Hour2; Lit ":"; Minute2].

(** The [w] low decimal digits of [n], most significant first. *)
Fixpoint padded (w : nat) (n : Z) (acc : string) : string :=
  match w with
  | O => acc
  | S k => padded k (n / 10) (String (GoStrconv.digit_char (n mod 10)) acc)
  end.

(** [appendInt(b, x, width)]: a sign for a negative number, then the decimal
    digits padded with zeros to [width]. *)
Definition appendInt (x : Z) (width : nat) : string :=
  let u := Z.abs x in
  (if x <? 0 then "-" else "")
  +:+ (if u <? 10 ^ Z.of_nat width then padded width u "" else pretty u).

Definition formatItem (c : Civil) (i : Item) : string :=
  match i with
  | Year4 => appendInt (cYear c) 4
  | Month2 => appendInt (cMonth c) 2
  | Day2 => appendInt (cDay c) 2
  | Hour2 => appendInt (cHour c) 2
  | Minute2 => appendInt (cMin c) 2
  | Second2 => appendInt (cSec c) 2
  | Lit ch => String ch EmptyString
  end.

Fixpoint formatItems (c : Civil) (l : list Item) : string :=
  match l with
  | [] => EmptyString
  | i :: r => formatItem c i +:+ formatItems c r
  end.

(** [getnum(s, fixed)]: one or two leading digits; exactly two when [fixed]. *)
Definition getnum (s : string) (fixed : bool) : option (Z * string) :=
  match s with
  | String a r =>
      match GoStrconv.digit_of a with
      | None => None
      | Some x =>
          match r with
          | String b r' =>
              match GoStrconv.digit_of b with
              | Some y => Some (10 * x + y, r')
              | None => if fixed then None else Some (x, r)
              end
          | EmptyString => if fixed then None else Some (x, r)
          end
      end
  | EmptyString => None
  end.

(** The four digits of ["2006"]. *)
Definition getyear (s : string) : option (Z * string) :=
  match s with
  | String a (String b (String c (String d r))) =>
      match GoStrconv.digit_of a, GoStrconv.digit_of b,
            GoStrconv.digit_of c, GoStrconv.digit_of d with
      | Some x, Some y, Some z, Some w => Some (1000 * x + 100 * y + 10 * z + w, r)
      | _, _, _, _ => None
      end
  | _ => None
  end.

Fixpoint leading_digits (s : string) : string * string :=
  match s with
  | String a r =>
      match GoStrconv.digit_of a with
      | Some _ => let '(ds, rest) := leading_digits r in (String a ds, rest)
      | None => (EmptyString, s)
      end
  | EmptyString => (EmptyString, EmptyString)
  end.

Fixpoint take_string (n : nat) (s : string) : string :=
  match n, s with
  | S k, String a r => String a (take_string k r)
  | _, _ => EmptyString
  end.

(** When parsing, a fractional second may follow the seconds field although
    the layout has none: a comma or a point and a maximal run of digits,
    truncated to nanoseconds ([parseNanoseconds]). *)
Definition fraction (s : string) : Z * string :=
  match s with
  | String p r =>
      if (Ascii.eqb p "." || Ascii.eqb p ",")%bool then
        match leading_digits r with
        | (EmptyString, _) => (0, s)
        | (ds, rest) =>
            let ds9 := take_string 9 ds in
            match GoStrconv.digits_from 0 ds9 with
            | Some n => (n * 10 ^ Z.of_nat (9 - String.length ds9), rest)
            | None => (0, s)
            end
        end
      else (0, s)
  | EmptyString => (0, s)
  end.

Definition parseItem (i : Item) (c : Civil) (s : string) : option (Civil * string) :=
  match i with
  | Year4 =>
      match getyear s with
      | Some (y, r) =>
          Some (mkCivil y (cMonth c) (cDay c) (cHour c) (cMin c) (cSec c) (cNsec c), r)
      | None => None
      end
  | Month2 =>
      match getnum s true with
      | Some (m, r) =>
          if (1 <=? m) && (m <=? 12)
          then Some (mkCivil (cYear c) m (cDay c) (cHour c) (cMin c) (cSec c) (cNsec c), r)
          else None
      | None => None
      end
  | Day2 =>
      match getnum s true with
      | Some (d, r) =>
          Some (mkCivil (cYear c) (cMonth c) d (cHour c) (cMin c) (cSec c) (cNsec c), r)
      | None => None
      end
  | Hour2 =>
      match getnum s false with
      | Some (h, r) =>
          if h <? 24
          then Some (mkCivil (cYear c) (cMonth c) (cDay c) h (cMin c) (cSec c) (cNsec c), r)
          else None
      | None => None
      end
  | Minute2 =>
      match getnum s true with
      | Some (m, r) =>
          if m <? 60
          then Some (mkCivil (cYear c) (cMonth c) (cDay c) (cHour c) m (cSec c) (cNsec c), r)
          else None
      | None => None
      end
  | Second2 =>
      match getnum s true with
      | Some (x, r) =>
          if x <? 60
          then let '(ns, r') := fraction r in
               Some (mkCivil (cYear c) (cMonth c) (cDay c) (cHour c) (cMin c) x ns, r')
          else None
      | None => None
      end
  | Lit ch =>
      match s with
      | String a r => if Ascii.eqb a ch then Some (c, r) else None
      | EmptyString => None
      end
  end.

Fixpoint parseItems (l : list Item) (c : Civil) (s : string) : option Civil :=
  match l with
  | [] => match s with EmptyString => Some c | _ => None end
  | i :: r =>
      match parseItem i c s with
      | Some (c', s') => parseItems r c' s'
      | None => None
      end
  end.

(** The fields of a value parsed with a layout: missing fields default to
    year 0, month 1, day 1 and midnight; the day must exist in its month. *)
Definition parseCivil (l : list Item) (value : string) : option Civil :=
  match parseItems l (mkCivil 0 1 1 0 0 0 0) value with
  | Some c =>
      if (1 <=? cDay c) && (cDay c <=? daysIn (cMonth c) (cYear c)) then Some c else None
  | None => None
  end.

End GoCalendar.

(** ** [fmt.Sscanf] with the two formats of the start-time prompt *)

Module GoScan.
Local Open Scope Z_scope.

(** Blanks skipped before a [%d]; a line feed in the input is an error. *)
Fixpoint skip_blanks (s : string) : string :=
  match s with
  | String c r =>
      let n := nat_of_ascii c in
      if ((n =? 32) || (n =? 9) || (n =? 13))%nat then skip_blanks r else s
  | EmptyString => s
  end.

(** A width: [None] when the verb has none. *)
Definition width_left (w : option nat) : bool :=
  match w with Some O => false | _ => true end.

Definition width_pred (w : option nat) : option nat :=
  match w with Some n => Some (Nat.pred n) | None => None end.

(** The leading bytes of [s] that are digits or underscores, at most [w]. *)
Fixpoint number_token (w : option nat) (s : string) : string * string :=
  match s with
  | String c r =>
      if (width_left w &&
          (match GoStrconv.digit_of c with Some _ => true | None => false end
           || Ascii.eqb c "_"))%bool
      then let '(tok, rest) := number_token (width_pred w) r in (String c tok, rest)
      else (EmptyString, s)
  | EmptyString => (EmptyString, s)
  end.

(** One [%d] of width [w]: blanks, an optional sign (it counts in the width),
    then digits; an underscore is taken into the token and refused by the
    conversion, as is a value outside 64 bits. *)
Definition scanInt (w : option nat) (s : string) : option (Z * string) :=
  let s := skip_blanks s in
  let '(neg, w, s) :=
    match s with
    | String "-"%char r => if width_left w then (true, width_pred w, r) else (false, w, s)
    | String "+"%char r => if width_left w then (false, width_pred w, r) else (false, w, s)
    | _ => (false, w, s)
    end in
  match number_token w s with
  | (EmptyString, _) => None
  | (tok, rest) =>
      match GoStrconv.digits_from 0 tok with
      | Some n =>
          let v := if neg then - n else n in
          if (GoStrconv.minInt <=? v) && (v <=? GoStrconv.maxInt)
          then Some (v, rest) else None
      | None => None
      end
  end.

(** [fmt.Sscanf(s, "%d:%d", &hour, &min)]; input left over is not an error. *)
Definition Sscanf_colon (s : string) : option (Z * Z) :=
  match scanInt None s with
  | Some (h, String ":"%char r) =>
      match scanInt None r with
      | Some (m, _) => Some (h, m)
      | None => None
      end
  | _ => None
  end.

(** [fmt.Sscanf(s, "%02d%02d", &hour, &min)]. *)
Definition Sscanf_packed (s : string) : option (Z * Z) :=
  match scanInt (Some 2%nat) s with
  | Some (h, r) =>
      match scanInt (Some 2%nat) r with
      | Some (m, _) => Some (h, m)
      | None => None
      end
  | None => None
  end.

End GoScan.

(** ** The process environment *)

(** What the program reads from its environment: the offset of [time.Local]
    in seconds east of UTC, the zone database behind [time.LoadLocation]
    (the offset of a named zone), and the flags [-todo], [-threshold] and
    [-hide-created-date].  Zones are modelled with one fixed offset each;
    daylight-saving transitions are outside the model. *)
Declare Scope prog_scope.
Delimit Scope prog_scope with prog.

Class Env := mkEnv {
  localOffset : Z;
  LoadLocation : string -> option Z;
  todoPtr : string;
  thresholdPtr : bool;
  hideCreatedDatePtr : bool
}.

Section Todocalmenu.

Context {env : Env}.

Import GoCalendar.

(** ** Package [time]: instants and locations *)

Inductive Location := UTC | LocalZone | FixedZone (offset : Z).

Record Time := mkTime { wallSec : Z; nsec : Z; loc : Location }.

(** [time.Time{}] *)
Definition zeroTime : Time := mkTime 0 0 UTC.

Definition offsetOf (l : Location) : Z :=
  match l with
  | UTC => 0
  | LocalZone => localOffset
  | FixedZone o => o
  end.

Definition IsZero (t : Time) : bool := ((wallSec t =? 0) && (nsec t =? 0))%Z.

Definition toLocal (t : Time) : Time := mkTime (wallSec t) (nsec t) LocalZone.
Definition toUTC (t : Time) : Time := mkTime (wallSec t) (nsec t) UTC.
Definition inLocation (t : Time) (l : Location) : Time := mkTime (wallSec t) (nsec t) l.

Definition Before (t u : Time) : bool :=
  ((wallSec t <? wallSec u) || ((wallSec t =? wallSec u) && (nsec t <? nsec u)))%Z.
Definition After (t u : Time) : bool := Before u t.

(** The calendar fields of [t] in its own location. *)
Definition civilOf (t : Time) : Civil :=
  let abs := (wallSec t + offsetOf (loc t))%Z in
  let '(y, m, d) := civilFromDays (abs / 86400) in
  let sod := (abs mod 86400)%Z in
  mkCivil y m d (sod / 3600) (sod mod 3600 / 60) (sod mod 60) (nsec t).

Definition Year (t : Time) : Z := cYear (civilOf t).
Definition Month (t : Time) : Z := cMonth (civilOf t).
Definition Day (t : Time) : Z := cDay (civilOf t).
Definition Hour (t : Time) : Z := cHour (civilOf t).
Definition Minute (t : Time) : Z := cMin (civilOf t).
Definition Second (t : Time) : Z := cSec (civilOf t).
Definition Nanosecond (t : Time) : Z := nsec t.

Definition Format (t : Time) (layout : list Item) : string :=
  formatItems (civilOf t) layout.

(** Seconds between 0001-01-01 and 1970-01-01. *)
Definition unixEpoch : Z := 62135596800.
Definition UnixNano (t : Time) : Z := ((wallSec t - unixEpoch) * 1000000000 + nsec t)%Z.

(** [time.Date]: a month outside 1..12 moves the year, every other field
    outside its range carries over linearly. *)
Definition time_Date (y m d h mi s ns : Z) (l : Location) : Time :=
  let y' := (y + (m - 1) / 12)%Z in
  let m' := ((m - 1) mod 12 + 1)%Z in
  mkTime (daysFromCivil y' m' d * 86400 + h * 3600 + mi * 60 + s
          + ns / 1000000000 - offsetOf l)%Z
         (ns mod 1000000000) l.

(** [time.ParseInLocation(layout, value, loc)]; the second component is
    [err != nil], and the time is [time.Time{}] then. *)
Definition time_ParseInLocation (layout : list Item) (value : string) (l : Location)
  : Time * bool :=
  match parseCivil layout value with
  | Some c =>
      (time_Date (cYear c) (cMonth c) (cDay c) (cHour c) (cMin c) (cSec c) (cNsec c) l,
       false)
  | None => (zeroTime, true)
  end.

Definition time_Parse (layout : list Item) (value : string) : Time * bool :=
  time_ParseInLocation layout value UTC.

(** ** The calendar codec (golang-ical), as the program uses it *)

Record Property := mkProperty {
  IANAToken : string;
  ICalParameters : list (string * list string);
  Value : string
}.

Inductive Component :=
| VTodo (Properties : list Property)
| OtherComponent (kind : string) (Properties : list Property).

Record Calendar := mkCalendar {
  CalendarProperties : list Property;
  Components : list Component
}.

Definition ComponentPropertyUniqueId := "UID"%string.
Definition ComponentPropertySummary := "SUMMARY"%string.
Definition ComponentPropertyDescription := "DESCRIPTION"%string.
Definition ComponentPropertyStatus := "STATUS"%string.
Definition ComponentPropertyCreated := "CREATED"%string.
Definition ComponentPropertyLastModified := "LAST-MODIFIED"%string.
Definition ComponentPropertyDue := "DUE"%string.
Definition ComponentPropertyPriority := "PRIORITY"%string.
Definition ComponentPropertyCategories := "CATEGORIES"%string.
Definition ComponentPropertyDtStart := "DTSTART"%string.

(** [GetProperty]: the first property of that name, [None] for [nil]. *)
Definition GetProperty (props : list Property) (name : string) : option Property :=
  List.find (fun p => String.eqb (IANAToken p) name) props.

(** [SetProperty]: overwrite the first property of that name (its parameters
    are dropped), or append one. *)
Fixpoint SetProperty (props : list Property) (name value : string) : list Property :=
  match props with
  | [] => [mkProperty name [] value]
  | p :: r =>
      if String.eqb (IANAToken p) name then mkProperty (IANAToken p) [] value :: r
      else p :: SetProperty r name value
  end.

(** [Id()]: the value of the UID property, empty when there is none. *)
Definition Id (props : list Property) : string :=
  match GetProperty props ComponentPropertyUniqueId with
  | Some p => Value p
  | None => EmptyString
  end.

Definition NewCalendar : Calendar :=
  mkCalendar [mkProperty "VERSION" [] "2.0";
              mkProperty "PRODID" [] "-//arran4//Golang ICS Library"] [].

(** ** The todo directory *)

(** A file holds a calendar the codec can decode, or bytes it cannot. *)
Inductive FileData := Ics (cal : Calendar) | Undecodable.

(** A path is a directory and a file name ([filepath.Join(dir, name)]);
    [locked] are the paths the process may neither create nor remove. *)
Record FS := mkFS {
  dirs : gset string;
  files : gmap (string * string) FileData;
  locked : gset (string * string)
}.

Definition os_Stat (fs : FS) (path : string * string) : bool :=
  match files fs !! path with Some _ => true | None => false end.

(** [loadICSFile]: [os.ReadFile] then [ics.ParseCalendar]. *)
Definition loadICSFile (fs : FS) (filePath : string * string) : option Calendar :=
  match files fs !! filePath with
  | Some (Ics cal) => Some cal
  | _ => None
  end.

(** [os.Create(path)] followed by [cal.SerializeTo(file)]. *)
Definition writeCalendar (fs : FS) (path : string * string) (cal : Calendar)
  : option FS :=
  if bool_decide (path.1 ∈ dirs fs) && negb (bool_decide (path ∈ locked fs))
  then Some (mkFS (dirs fs) (<[path := Ics cal]> (files fs)) (locked fs))
  else None.

(** [os.Remove(path)]: fails on a missing or locked file. *)
Definition os_Remove (fs : FS) (path : string * string) : option FS :=
  match files fs !! path with
  | Some _ =>
      if bool_decide (path ∈ locked fs) then None
      else Some (mkFS (dirs fs) (delete path (files fs)) (locked fs))
  | None => None
  end.

(** ** The task record *)

Record Todo := mkTodo {
  UID : string;
  Summary : string;
  Description : string;
  Categories : list string;
  Status : string;
  Created : Time;
  LastMod : Time;
  DueDate : Time;
  Priority : Z;
  StartDate : Time;
  Modified : bool
}.

Definition setSummary (v : string) (t : Todo) : Todo :=
  mkTodo (UID t) v (Description t) (Categories t) (Status t) (Created t)
         (LastMod t) (DueDate t) (Priority t) (StartDate t) (Modified t).
Definition setDescription (v : string) (t : Todo) : Todo :=
  mkTodo (UID t) (Summary t) v (Categories t) (Status t) (Created t)
         (LastMod t) (DueDate t) (Priority t) (StartDate t) (Modified t).
Definition setCategories (v : list string) (t : Todo) : Todo :=
  mkTodo (UID t) (Summary t) (Description t) v (Status t) (Created t)
         (LastMod t) (DueDate t) (Priority t) (StartDate t) (Modified t).
Definition setStatus (v : string) (t : Todo) : Todo :=
  mkTodo (UID t) (Summary t) (Description t) (Categories t) v (Created t)
         (LastMod t) (DueDate t) (Priority t) (StartDate t) (Modified t).
Definition setCreated (v : Time) (t : Todo) : Todo :=
  mkTodo (UID t) (Summary t) (Description t) (Categories t) (Status t) v
         (LastMod t) (DueDate t) (Priority t) (StartDate t) (Modified t).
Definition setLastMod (v : Time) (t : Todo) : Todo :=
  mkTodo (UID t) (Summary t) (Description t) (Categories t) (Status t) (Created t)
         v (DueDate t) (Priority t) (StartDate t) (Modified t).
Definition setDueDate (v : Time) (t : Todo) : Todo :=
  mkTodo (UID t) (Summary t) (Description t) (Categories t) (Status t) (Created t)
         (LastMod t) v (Priority t) (StartDate t) (Modified t).
Definition setPriority (v : Z) (t : Todo) : Todo :=
  mkTodo (UID t) (Summary t) (Description t) (Categories t) (Status t) (Created t)
         (LastMod t) (DueDate t) v (StartDate t) (Modified t).
Definition setStartDate (v : Time) (t : Todo) : Todo :=
  mkTodo (UID t) (Summary t) (Description t) (Categories t) (Status t) (Created t)
         (LastMod t) (DueDate t) (Priority t) v (Modified t).
Definition setModified (v : bool) (t : Todo) : Todo :=
  mkTodo (UID t) (Summary t) (Description t) (Categories t) (Status t) (Created t)
         (LastMod t) (DueDate t) (Priority t) (StartDate t) v.

(** [&Todo{UID: uid}] *)
Definition emptyTodo (uid : string) : Todo :=
  mkTodo uid "" "" [] "" zeroTime zeroTime zeroTime 0 zeroTime false.

(** ** Date/time normaliser and record decoding *)

Definition parseDateTime (value : string) : Time :=
  if GoStrings.HasSuffix value "Z" then
    (* UTC time *)
    let '(t, err) := time_Parse layoutStampZ value in
    if err then zeroTime else toLocal t
  else if GoStrings.Contains value "TZID=" then
    (* TZID format; a failure in here leaves the outer [err] nil and [t] zero *)
    match GoStrings.SplitN2 value ":" with
    | [part0; dateTimeStr] =>
        match GoStrings.SplitN2 part0 "=" with
        | [_; tzName] =>
            match LoadLocation tzName with
            | Some off =>
                let '(t, err) := time_ParseInLocation layoutStamp dateTimeStr (FixedZone off) in
                if err then t else toLocal t
            | None => zeroTime
            end
        | _ => zeroTime
        end
    | _ => zeroTime
    end
  else
    let '(t, err) :=
      if (String.length value =? 8)%nat
      then time_ParseInLocation layoutCompactDate value LocalZone
      else if (String.length value =? 15)%nat
      then time_ParseInLocation layoutStamp value LocalZone
      else (zeroTime, false) in
    if err then zeroTime else t.

Definition convertVTodoToTodo (vtodo : list Property) : Todo :=
  let todo := emptyTodo (Id vtodo) in
  let todo := match GetProperty vtodo ComponentPropertySummary with
              | Some prop => setSummary (Value prop) todo
              | None => todo
              end in
  let todo := match GetProperty vtodo ComponentPropertyDescription with
              | Some prop => setDescription (Value prop) todo
              | None => todo
              end in
  let todo := match GetProperty vtodo ComponentPropertyStatus with
              | Some prop => setStatus (Value prop) todo
              | None => setStatus "NEEDS-ACTION" todo
              end in
  let todo := match GetProperty vtodo ComponentPropertyCreated with
              | Some created => setCreated (parseDateTime (Value created)) todo
              | None => todo
              end in
  let todo := match GetProperty vtodo ComponentPropertyLastModified with
              | Some lastMod => setLastMod (parseDateTime (Value lastMod)) todo
              | None => todo
              end in
  let todo := match GetProperty vtodo ComponentPropertyDue with
              | Some due => setDueDate (parseDateTime (Value due)) todo
              | None => todo
              end in
  let todo := match GetProperty vtodo ComponentPropertyPriority with
              | Some priority => setPriority (GoStrconv.Atoi (Value priority)).1 todo
              | None => todo
              end in
  let todo := match GetProperty vtodo ComponentPropertyCategories with
              | Some categories => setCategories (GoStrings.Split (Value categories) ",") todo
              | None => todo
              end in
  match GetProperty vtodo ComponentPropertyDtStart with
  | Some start => setStartDate (parseDateTime (Value start)) todo
  | None => todo
  end.

(** ** The running program: heap, store, disk, launcher and clock *)

(** What one run of the launcher produces: its standard output, exit status
    1 with nothing on standard error (the user pressed escape), or any other
    failure. *)
Inductive Reply := Output (stdout : string) | ExitStatus1 | LauncherError.

Record World := mkWorld {
  heap : list Todo;        (* the [Todo] objects; a [*Todo] is an index *)
  Todos : list nat;        (* [todoList.Todos] *)
  disk : FS;
  launcher : list Reply;   (* the replies still to come *)
  clock : nat -> Time;     (* the successive readings of [time.Now()] *)
  ticks : nat
}.

Definition setHeap (h : list Todo) (w : World) : World :=
  mkWorld h (Todos w) (disk w) (launcher w) (clock w) (ticks w).
Definition setTodos (l : list nat) (w : World) : World :=
  mkWorld (heap w) l (disk w) (launcher w) (clock w) (ticks w).
Definition setDisk (d : FS) (w : World) : World :=
  mkWorld (heap w) (Todos w) d (launcher w) (clock w) (ticks w).
Definition setLauncher (r : list Reply) (w : World) : World :=
  mkWorld (heap w) (Todos w) (disk w) r (clock w) (ticks w).

Inductive Result (A : Type) : Type :=
| Returns (a : A) (w : World)
| Exits        (* [log.Fatal] or a run-time panic *)
| Waits        (* blocked on a launcher that gives no further reply *)
| OutOfFuel.
#[global] Arguments Returns {A} a w.
#[global] Arguments Exits {A}.
#[global] Arguments Waits {A}.
#[global] Arguments OutOfFuel {A}.

Definition M (A : Type) : Type := World -> Result A.

Definition ret {A} (a : A) : M A := fun w => Returns a w.

Definition bind {A B} (c : M A) (k : A -> M B) : M B := fun w =>
  match c w with
  | Returns a w' => k a w'
  | Exits => Exits
  | Waits => Waits
  | OutOfFuel => OutOfFuel
  end.

Bind Scope prog_scope with M.
Notation "x ← y ; z" := (bind y (fun x => z))
  (at level 20, y at level 100, z at level 200, only parsing) : prog_scope.
Notation "' x ← y ; z" := (bind y (fun x => z))
  (at level 20, x pattern, y at level 100, z at level 200, only parsing) : prog_scope.
Notation "x ;; z" := (bind x (fun _ => z))
  (at level 100, z at level 200, only parsing, right associativity) : prog_scope.
Local Open Scope prog_scope.

Definition exit {A} : M A := fun _ => Exits.

(** Reading and updating the object a pointer refers to. *)
Definition deref (p : nat) : M Todo := fun w =>
  match heap w !! p with
  | Some t => Returns t w
  | None => Exits
  end.

Definition update (p : nat) (f : Todo -> Todo) : M unit := fun w =>
  match heap w !! p with
  | Some t => Returns tt (setHeap (<[p := f t]> (heap w)) w)
  | None => Exits
  end.

Definition alloc (t : Todo) : M nat := fun w =>
  Returns (length (heap w)) (setHeap (heap w ++ [t]) w).

Definition time_Now : M Time := fun w =>
  Returns (toLocal (clock w (ticks w)))
          (mkWorld (heap w) (Todos w) (disk w) (launcher w) (clock w) (S (ticks w))).

(** [display]: the launcher's answer without its trailing line feeds, and
    whether the error is non-nil (escape). *)
Definition display (list title : string) : M (string * bool) := fun w =>
  match launcher w with
  | [] => Waits
  | Output out :: r => Returns (GoStrings.TrimRightNewlines out, false) (setLauncher r w)
  | ExitStatus1 :: r => Returns (EmptyString, true) (setLauncher r w)
  | LauncherError :: _ => Exits
  end.

(** The task a pointer refers to once a computation has returned. *)
Definition taskAfter {A} (r : Result A) (p : nat) : option Todo :=
  match r with
  | Returns _ w => heap w !! p
  | _ => None
  end.

Definition generateUID : M string :=
  now ← time_Now; ret (GoStrconv.Itoa (UnixNano now)).

(** ** Task store: load, save *)

Definition nl : string := String "010" EmptyString.

Fixpoint insertString (x : string) (l : list string) : list string :=
  match l with
  | [] => [x]
  | y :: r => if String.leb x y then x :: l else y :: insertString x r
  end.

(** [sort.Strings] *)
Definition sortStrings (l : list string) : list string :=
  fold_right insertString [] l.

(** [os.ReadDir]: the names in the directory, sorted; [None] when the
    directory cannot be read. *)
Definition os_ReadDir (fs : FS) (dirPath : string) : option (list string) :=
  if bool_decide (dirPath ∈ dirs fs)
  then Some (sortStrings
               (omap (fun e : string * string * FileData =>
                        if String.eqb e.1.1 dirPath then Some e.1.2 else None)
                     (map_to_list (files fs))))
  else None.

Definition todosOf (cal : Calendar) : list Todo :=
  omap (fun c => match c with
                 | VTodo props => Some (convertVTodoToTodo props)
                 | OtherComponent _ _ => None
                 end) (Components cal).

(** The tasks [loadTodos] reads from the files of a directory: files with
    another extension and files the codec rejects are skipped. *)
Definition loadedTodos (fs : FS) (dirPath : string) (names : list string) : list Todo :=
  concat (List.map (fun name =>
                 if GoStrings.HasSuffix name ".ics" then
                   match loadICSFile fs (dirPath, name) with
                   | Some cal => todosOf cal
                   | None => []
                   end
                 else []) names).

(** [loadTodos]: the result is [true] for a non-nil error; on success the
    store holds the freshly allocated tasks. *)
Definition loadTodos (dirPath : string) : M bool := fun w =>
  match os_ReadDir (disk w) dirPath with
  | None => Returns true w
  | Some names =>
      let ts := loadedTodos (disk w) dirPath names in
      Returns false
        (setTodos (seq (length (heap w)) (length ts)) (setHeap (heap w ++ ts) w))
  end.

(** [removeProperty]: drop the first property of that name. *)
Fixpoint removeProperty (props : list Property) (property : string) : list Property :=
  match props with
  | [] => []
  | prop :: r =>
      if String.eqb (IANAToken prop) property then r
      else prop :: removeProperty r property
  end.

Definition setPropertyIfNotEmpty (props : list Property) (property value : string)
  : list Property :=
  if negb (String.eqb value "") then SetProperty props property value
  else removeProperty props property.

(** The stored form of a timestamp: [t.UTC().Format("20060102T150405Z")]. *)
Definition serialize (t : Time) : string := Format (toUTC t) layoutStampZ.

(** The managed fields of [todo] written into the properties of its VTODO. *)
Definition writeFields (todo : Todo) (vtodo : list Property) : list Property :=
  let vtodo := setPropertyIfNotEmpty vtodo ComponentPropertySummary (Summary todo) in
  let vtodo := setPropertyIfNotEmpty vtodo ComponentPropertyDescription (Description todo) in
  let vtodo := setPropertyIfNotEmpty vtodo ComponentPropertyStatus (Status todo) in
  let vtodo := setPropertyIfNotEmpty vtodo ComponentPropertyLastModified
                 (serialize (LastMod todo)) in
  let vtodo := if negb (IsZero (StartDate todo))
               then setPropertyIfNotEmpty vtodo ComponentPropertyDtStart
                      (serialize (StartDate todo))
               else removeProperty vtodo ComponentPropertyDtStart in
  let vtodo := if negb (IsZero (DueDate todo))
               then setPropertyIfNotEmpty vtodo ComponentPropertyDue
                      (serialize (DueDate todo))
               else removeProperty vtodo ComponentPropertyDue in
  let vtodo := if (0 <? Priority todo)%Z
               then setPropertyIfNotEmpty vtodo ComponentPropertyPriority
                      (GoStrconv.Itoa (Priority todo))
               else removeProperty vtodo ComponentPropertyPriority in
  let vtodo := if (0 <? length (Categories todo))%nat
               then setPropertyIfNotEmpty vtodo ComponentPropertyCategories
                      (GoStrings.Join (Categories todo) ",")
               else removeProperty vtodo ComponentPropertyCategories in
  match GetProperty vtodo ComponentPropertyCreated with
  | None => setPropertyIfNotEmpty vtodo ComponentPropertyCreated
              (serialize (Created todo))
  | Some _ => vtodo
  end.

(** Apply [f] to the first VTODO whose id is [uid]; [None] when there is
    none. *)
Fixpoint updateExisting (uid : string) (f : list Property -> list Property)
  (comps : list Component) : option (list Component) :=
  match comps with
  | [] => None
  | VTodo props :: r =>
      if String.eqb (Id props) uid then Some (VTodo (f props) :: r)
      else option_map (cons (VTodo props)) (updateExisting uid f r)
  | c :: r => option_map (cons c) (updateExisting uid f r)
  end.

(** Find the existing VTODO or add a new one ([cal.AddTodo]), and write the
    fields into it. *)
Definition updateCalendar (todo : Todo) (cal : Calendar) : Calendar :=
  match updateExisting (UID todo) (writeFields todo) (Components cal) with
  | Some comps => mkCalendar (CalendarProperties cal) comps
  | None =>
      mkCalendar (CalendarProperties cal)
        (Components cal ++
         [VTodo (writeFields todo [mkProperty ComponentPropertyUniqueId [] (UID todo)])])
  end.

Inductive SaveError :=
| ErrLoadingExisting (filePath : string * string)
| ErrCreate (filePath : string * string).

Definition todoPath (dirPath : string) (todo : Todo) : string * string :=
  (dirPath, UID todo +:+ ".ics").

(** The body of the loop of [saveTodos] for one modified task. *)
Definition saveOne (dirPath : string) (todo : Todo) (fs : FS) : SaveError + FS :=
  let filePath := todoPath dirPath todo in
  let existing :=
    if os_Stat fs filePath then
      match loadICSFile fs filePath with
      | Some cal => inr cal
      | None => inl (ErrLoadingExisting filePath)
      end
    else inr NewCalendar in
  match existing with
  | inl e => inl e
  | inr cal =>
      match writeCalendar fs filePath (updateCalendar todo cal) with
      | Some fs' => inr fs'
      | None => inl (ErrCreate filePath)
      end
  end.

Fixpoint saveLoop (dirPath : string) (ps : list nat) : M (option SaveError) :=
  match ps with
  | [] => ret None
  | p :: rest =>
      todo ← deref p;
      if negb (Modified todo) then saveLoop dirPath rest (* Skip unmodified todos *)
      else fun w =>
        match saveOne dirPath todo (disk w) with
        | inl e => Returns (Some e) w
        | inr fs' =>
            (update p (setModified false);; saveLoop dirPath rest) (setDisk fs' w)
        end
  end.

Definition saveTodos (dirPath : string) : M (option SaveError) := fun w =>
  saveLoop dirPath (Todos w) w.

(** ** Menu renderer *)

(** The comparator handed to [sort.Slice]. *)
Definition less (a b : Todo) : bool :=
  (* 1. Items with due date come first *)
  if negb (IsZero (DueDate a)) && IsZero (DueDate b) then true
  else if IsZero (DueDate a) && negb (IsZero (DueDate b)) then false
  (* 2. Sort by due date (ascending) *)
  else if negb (IsZero (DueDate a)) && negb (IsZero (DueDate b))
  then Before (DueDate a) (DueDate b)
  (* 3. Priority (lower number = higher priority, 0 means no priority) *)
  else if negb (Priority a =? Priority b)%Z then
    if (Priority a =? 0)%Z then false
    else if (Priority b =? 0)%Z then true
    else (Priority a <? Priority b)%Z
  (* 4. Created date (descending) *)
  else After (Created a) (Created b).

(** One pass of insertion sort: [x] moves left past every element it is
    less than; [rprefix] is the sorted prefix, last element first. *)
Fixpoint insertLeft {A} (lt : A -> A -> bool) (x : A) (rprefix : list A) : list A :=
  match rprefix with
  | [] => [x]
  | y :: r => if lt x y then y :: insertLeft lt x r else x :: rprefix
  end.

(** [sort.Slice]: insertion sort, which is what Go runs on a slice of at
    most 12 elements; on longer slices the order of elements the comparator
    does not separate may differ. *)
Definition sortSlice {A} (lt : A -> A -> bool) (l : list A) : list A :=
  rev (fold_left (fun rprefix x => insertLeft lt x rprefix) l []).

Definition lessPtr (h : list Todo) (p q : nat) : bool :=
  match h !! p, h !! q with
  | Some a, Some b => less a b
  | _, _ => false
  end.

(** One line of the menu: "(priority) created-date summary @category due:date" *)
Definition renderLine (todo : Todo) : string :=
  (if (0 <? Priority todo)%Z then "(" +:+ GoStrconv.Itoa (Priority todo) +:+ ") "
   else "    ")
  +:+ (if negb hideCreatedDatePtr then Format (Created todo) layoutDate +:+ " " else "")
  +:+ Summary todo
  +:+ String.concat "" (List.map (fun category => " @" +:+ category) (Categories todo))
  +:+ (if negb (IsZero (DueDate todo))
       then " due:" +:+ Format (inLocation (DueDate todo) LocalZone) layoutDate
       else "").

(** Whether the loop of [createMenu] shows the task. *)
Definition shown (showCompleted : bool) (now : Time) (todo : Todo) : bool :=
  if negb (eqb (String.eqb (Status todo) "COMPLETED") showCompleted) then false
  else if thresholdPtr && negb showCompleted && negb (IsZero (StartDate todo))
          && After (StartDate todo) (inLocation now (loc (StartDate todo)))
  then false (* Skip items with future start dates when threshold option is set *)
  else true.

Fixpoint renderFrom (showCompleted : bool) (now : Time) (h : list Todo)
  (i : nat) (ps : list nat) (acc : string * gmap string nat) : string * gmap string nat :=
  match ps with
  | [] => acc
  | p :: rest =>
      match h !! p with
      | Some todo =>
          renderFrom showCompleted now h (S i) rest
            (if shown showCompleted now todo
             then (acc.1 +:+ renderLine todo +:+ nl, <[renderLine todo := i]> acc.2)
             else acc)
      | None => acc
      end
  end.

Definition createMenu (showCompleted : bool) : M (string * gmap string nat) := fun w =>
  let header := if negb showCompleted then "Add Item" +:+ nl +:+ "View Completed Items" +:+ nl
                else "Delete All Completed" +:+ nl in
  let sorted := sortSlice (lessPtr (heap w)) (Todos w) in
  (now ← time_Now;
   ret (renderFrom showCompleted now (heap w) 0 sorted (header, ∅)))
    (setTodos sorted w).

(** [getExistingCategories]: the categories of every task of the store,
    without repeats, sorted. *)
Definition getExistingCategories : M (list string) := fun w =>
  Returns
    (sortStrings
       (elements (list_to_set (C := gset string)
          (concat (omap (fun p => Categories <$> heap w !! p) (Todos w))))))
    w.

(** ** Edit controller *)

Definition formatDate (t : Time) : string :=
  if IsZero t then "" else Format t layoutDate.

Definition formatTime (t : Time) : string :=
  if IsZero t then "" else Format t layoutClock.

Definition updateStartDate (p : nat) (dateStr : string) : M unit :=
  if String.eqb dateStr "" then update p (setStartDate zeroTime)
  else
    let '(date, err) := time_ParseInLocation layoutDate dateStr LocalZone in
    if err then ret tt
    else
      update p (fun todo =>
        setModified true
          (if negb (IsZero (StartDate todo))
           then setStartDate
                  (time_Date (Year date) (Month date) (Day date)
                     (Hour (StartDate todo)) (Minute (StartDate todo)) 0 0 LocalZone)
                  todo
           else setStartDate date todo)).

(** The two [Sscanf] calls of [updateStartTime]; [None] for a non-nil error. *)
Definition scanTime (timeStr : string) : option (Z * Z) :=
  if GoStrings.Contains timeStr ":"
  then GoScan.Sscanf_colon timeStr
  else GoScan.Sscanf_packed timeStr.

Definition updateStartTime (p : nat) (timeStr : string) : M unit :=
  if String.eqb timeStr "" then ret tt
  else
    match scanTime timeStr with
    | Some (hour, min) =>
        if ((0 <=? hour) && (hour <? 24) && (0 <=? min) && (min <? 60))%Z then
          todo ← deref p;
          (if IsZero (StartDate todo)
           then now ← time_Now; update p (setStartDate (toLocal now))
           else ret tt);;
          update p (fun todo =>
            setModified true
              (setStartDate
                 (time_Date (Year (StartDate todo)) (Month (StartDate todo))
                    (Day (StartDate todo)) hour min 0 0 LocalZone)
                 todo))
        else ret tt
    | None => ret tt
    end.

(** Remove from the slice the first entry whose UID is [uid]. *)
Fixpoint removeUID (h : list Todo) (uid : string) (l : list nat) : list nat :=
  match l with
  | [] => []
  | q :: r =>
      match h !! q with
      | Some t => if String.eqb (UID t) uid then r else q :: removeUID h uid r
      | None => q :: removeUID h uid r
      end
  end.

Definition getHeap : M (list Todo) := fun w => Returns (heap w) w.
Definition getTodos : M (list nat) := fun w => Returns (Todos w) w.
Definition putTodos (l : list nat) : M unit := fun w => Returns tt (setTodos l w).

(** [os.Remove] on the disk of the world; [true] when the file is gone. *)
Definition removeFile (path : string * string) : M bool := fun w =>
  match os_Remove (disk w) path with
  | None => Returns false w
  | Some fs' => Returns true (setDisk fs' w)
  end.

Definition deleteTodo (p : nat) : M bool :=
  todo ← deref p;
  (* Remove the todo from the todoList *)
  h ← getHeap;
  l ← getTodos;
  putTodos (removeUID h (UID todo) l);;
  (* Delete the corresponding .ics file; a failure is logged *)
  removeFile (todoPath todoPtr todo).

(** How the edit loop ends (the Go function returns nothing; the value
    records which of its exits was taken). *)
Inductive EditExit := Saved | Cancelled | Deleted.
Inductive Next := Continue | Stop (e : EditExit).

Definition editMenu (todo : Todo) (tdd : string) : string :=
  let comp := if (String.length (Summary todo) =? 0)%nat then ""
              else if String.eqb (Status todo) "COMPLETED"
              then "Restore item (uncomplete)" +:+ nl +:+ nl
              else "Complete item" +:+ nl +:+ nl in
  "Save item" +:+ nl +:+ comp
  +:+ "Title: " +:+ Summary todo +:+ nl
  +:+ "Priority: " +:+ GoStrconv.Itoa (Priority todo) +:+ nl
  +:+ "Categories (comma separated): " +:+ GoStrings.Join (Categories todo) "," +:+ nl
  +:+ "Due date yyyy-mm-dd: " +:+ tdd +:+ nl
  +:+ "Start date yyyy-mm-dd: " +:+ formatDate (StartDate todo) +:+ nl
  +:+ "Start time hh:mm: " +:+ formatTime (StartDate todo) +:+ nl
  +:+ "Description: " +:+ Description todo +:+ nl +:+ nl
  +:+ "Delete item".

Definition editTitle (p : nat) : M unit :=
  todo ← deref p;
  '(tn, e) ← display (Summary todo) "Todo Title: ";
  if e then ret tt
  else update p (fun todo => setModified true (setSummary tn todo)).

Definition editPriority (p : nat) : M unit :=
  todo ← deref p;
  '(s, e) ← display (GoStrconv.Itoa (Priority todo)) "Priority (0-9, 0 to unset):";
  if e then ret tt
  else
    let '(pn, err) := GoStrconv.Atoi s in
    if (negb err && (0 <=? pn) && (pn <=? 9))%Z then
      update p (fun todo =>
        setModified true (setPriority (if (pn =? 0)%Z then 0%Z else pn) todo))
    else
      display "" "Priority must be a number between 0 and 9";; ret tt.

(** Trimmed entries; a single empty entry clears the categories. *)
Definition normalizeCategories (raw : list string) : list string :=
  let cats := List.map GoStrings.TrimSpace raw in
  match cats with
  | [c] => if String.eqb c "" then [] else cats
  | _ => cats
  end.

Definition editCategories (p : nat) : M unit :=
  existingCats ← getExistingCategories;
  let catOptions := GoStrings.Join existingCats nl +:+ nl +:+ "<Enter new category>" in
  '(cats, e) ← display catOptions "Select or enter new category (comma separated):";
  if e then ret tt
  else
    raw ← (if String.eqb cats "<Enter new category>"
           then '(newCats, _) ← display "" "Enter new category (comma separated):";
                ret (GoStrings.Split newCats ",")
           else ret (GoStrings.Split cats ","));
    update p (fun todo => setModified true (setCategories (normalizeCategories raw) todo)).

Definition editDueDate (p : nat) (tdd : string) : M unit :=
  '(d, e) ← display tdd "Due Date (yyyy-mm-dd):";
  if e then ret tt
  else if String.eqb d "" then update p (setDueDate zeroTime) (* Clear the due date *)
  else
    let '(td, err) := time_ParseInLocation layoutDate d LocalZone in
    if err then display "" "Bad date format. Should be yyyy-mm-dd.";; ret tt
    else update p (fun todo => setModified true (setDueDate td todo)).

Definition editStartDate (p : nat) : M unit :=
  todo ← deref p;
  '(d, e) ← display (formatDate (StartDate todo)) "Start Date (yyyy-mm-dd):";
  if e then ret tt else updateStartDate p d.

Definition editStartTime (p : nat) : M unit :=
  todo ← deref p;
  '(t, e) ← display (formatTime (StartDate todo)) "Start Time (hh:mm or hhmm):";
  if e then ret tt else updateStartTime p t.

Definition editDescription (p : nat) : M unit :=
  todo ← deref p;
  '(desc, e) ← display (Description todo) "Description:";
  if e then ret tt
  else update p (fun todo => setModified true (setDescription desc todo)).

Definition editStatus (p : nat) (status : string) : M unit :=
  now ← time_Now;
  update p (fun todo => setModified true (setLastMod now (setStatus status todo))).

Definition editDelete (p : nat) : M Next :=
  todo ← deref p;
  '(confirm, _) ← display "" ("Delete item: " +:+ Summary todo +:+ ". y/N?");
  if String.eqb (GoStrings.ToLower confirm) "y" then
    ok ← deleteTodo p;
    ret (if ok then Stop Deleted else Continue)
  else ret Continue.

(** The [switch] of the edit loop on the selected line. *)
Definition editAction (p : nat) (tdd out : string) : M Next :=
  if String.eqb out "Save item" then
    now ← time_Now;
    update p (fun todo => setLastMod now (setModified true todo));;
    ret (Stop Saved)
  else if GoStrings.HasPrefix out "Title" then editTitle p;; ret Continue
  else if GoStrings.HasPrefix out "Priority" then editPriority p;; ret Continue
  else if GoStrings.HasPrefix out "Categories" then editCategories p;; ret Continue
  else if GoStrings.HasPrefix out "Due date" then editDueDate p tdd;; ret Continue
  else if GoStrings.HasPrefix out "Start date" then editStartDate p;; ret Continue
  else if GoStrings.HasPrefix out "Start time" then editStartTime p;; ret Continue
  else if GoStrings.HasPrefix out "Description" then editDescription p;; ret Continue
  else if GoStrings.HasPrefix out "Complete item" then editStatus p "COMPLETED";; ret Continue
  else if GoStrings.HasPrefix out "Restore item" then editStatus p "NEEDS-ACTION";; ret Continue
  else if GoStrings.HasPrefix out "Delete item" then editDelete p
  else ret Continue.

Fixpoint editLoop (fuel : nat) (p : nat) (originalTodo : Todo) (isNew : bool)
  : M EditExit :=
  match fuel with
  | O => fun _ => OutOfFuel
  | S fuel' =>
      todo ← deref p;
      let tdd := if IsZero (DueDate todo) then "" else Format (DueDate todo) layoutDate in
      '(out, e) ← display (editMenu todo tdd) (Summary todo);
      if e then
        (* Cancel: a new item is left as it is, an existing one is reverted *)
        if isNew then ret Cancelled
        else update p (fun _ => originalTodo);; ret Cancelled
      else
        next ← editAction p tdd out;
        match next with
        | Stop how => ret how
        | Continue => editLoop fuel' p originalTodo isNew
        end
  end.

(** [editItem]: every turn of the loop takes at least one reply, so one
    more unit of fuel than there are replies is never used up. *)
Definition editItem (p : nat) : M EditExit := fun w =>
  (originalTodo ← deref p;
   editLoop (S (length (launcher w))) p originalTodo (String.eqb (UID originalTodo) ""))
    w.

Definition addItem : M unit :=
  (* Add new todo item *)
  uid ← generateUID;
  created ← time_Now;
  lastMod ← time_Now;
  p ← alloc (setStatus "NEEDS-ACTION" (setLastMod lastMod (setCreated created (emptyTodo uid))));
  '(title, e) ← display "" "Todo Title: ";
  update p (setSummary title);;
  if e then ret tt
  else if negb (String.eqb title "") then
    editItem p;;
    todo ← deref p;
    if negb (String.eqb (Summary todo) "") && Modified todo then
      now ← time_Now;
      update p (setLastMod now);; (* Update LastMod when adding *)
      l ← getTodos;
      putTodos (l ++ [p])
    else ret tt
  else ret tt.

(** The bulk deletion of [viewCompletedItems]: every completed task is
    deleted; one whose deletion fails is kept at the end of the slice. *)
Fixpoint deleteCompleted (completedTodos remainingTodos : list nat) : M (list nat) :=
  match completedTodos with
  | [] => ret remainingTodos
  | p :: rest =>
      ok ← deleteTodo p;
      (* If deletion failed, keep the todo in the list *)
      deleteCompleted rest (if ok then remainingTodos else remainingTodos ++ [p])
  end.

Definition isCompleted (h : list Todo) (p : nat) : bool :=
  match h !! p with
  | Some todo => String.eqb (Status todo) "COMPLETED"
  | None => false
  end.

Definition selectedTodo (m : gmap string nat) (out : string) : M nat := fun w =>
  match Todos w !! default 0 (m !! out) with
  | Some p => Returns p w
  | None => Exits (* index out of range *)
  end.

Fixpoint viewCompletedLoop (fuel : nat) : M unit :=
  match fuel with
  | O => fun _ => OutOfFuel
  | S fuel' =>
      '(displayList, m) ← createMenu true;
      '(out, _) ← display displayList "Completed Items";
      if String.eqb out "Delete All Completed" then
        '(confirm, _) ← display "" "Delete ALL Completed Items? (y/N)";
        if String.eqb (GoStrings.ToLower confirm) "y" then
          h ← getHeap;
          l ← getTodos;
          (* First, separate completed and non-completed todos *)
          remainingTodos ← deleteCompleted
              (List.filter (isCompleted h) l)
              (List.filter (fun p => negb (isCompleted h p)) l);
          putTodos remainingTodos
        else ret tt
      else if negb (String.eqb out "") then
        t ← selectedTodo m out;
        editItem t;;
        viewCompletedLoop fuel'
      else ret tt
  end.

Definition viewCompletedItems : M unit := fun w =>
  viewCompletedLoop (S (length (launcher w))) w.

(** ** Application loop *)

Fixpoint mainLoop (fuel : nat) : M unit :=
  match fuel with
  | O => fun _ => OutOfFuel
  | S fuel' =>
      '(displayList, m) ← createMenu false;
      '(out, _) ← display displayList todoPtr;
      if String.eqb out "Add Item" then addItem;; mainLoop fuel'
      else if String.eqb out "View Completed Items" then viewCompletedItems;; mainLoop fuel'
      else if negb (String.eqb out "") then
        t ← selectedTodo m out;
        editItem t;;
        mainLoop fuel'
      else ret tt
  end.

Definition main : M unit := fun w =>
  (* Ensure the todo directory exists *)
  let w := setDisk (mkFS ({[todoPtr]} ∪ dirs (disk w)) (files (disk w)) (locked (disk w))) w in
  (err ← loadTodos todoPtr;
   if err then exit
   else
     mainLoop (S (length (launcher w)));;
     failed ← saveTodos todoPtr;
     match failed with
     | Some _ => exit
     | None => ret tt
     end) w.

(** ** Vocabulary of the properties *)

(** Calendar fields in their ranges. *)
(** ** Instants and their calendar fields *)

Definition wellFormedCivil (c : Civil) : Prop :=
  validDate (cYear c) (cMonth c) (cDay c) /\
  (0 <= cHour c < 24)%Z /\ (0 <= cMin c < 60)%Z /\ (0 <= cSec c < 60)%Z.

(** [behaves R c]: whenever [c] returns, the worlds before and after are
    related by [R], and [c] never runs out of fuel. *)
Definition behaves {A} (R : World -> World -> Prop) (c : M A) : Prop :=
  forall w, match c w with
            | Returns _ w' => R w w'
            | OutOfFuel => False
            | _ => True
            end.

(** Every step of the edit controller: no reply is put back, no entry is
    added to the store, no object is freed. *)
Definition shrinks (w w' : World) : Prop :=
  length (launcher w') <= length (launcher w) /\
  incl (Todos w') (Todos w) /\
  length (heap w') = length (heap w).

(** Every step but a successful deletion: the disk and every task but [p]
    are as before. *)
Definition keeps (p : nat) (w w' : World) : Prop :=
  shrinks w w' /\ disk w' = disk w /\ forall q, q <> p -> heap w' !! q = heap w !! q.

(** One turn of the [switch]: unless the task was deleted, the disk and the
    other tasks are untouched. *)
Definition actionSpec (p : nat) (w : World) (r : Result Next) : Prop :=
  match r with
  | Returns Continue w' | Returns (Stop Saved) w' => keeps p w w'
  | Returns (Stop Deleted) w' => shrinks w w'
  | Returns (Stop Cancelled) _ => False
  | OutOfFuel => False
  | _ => True
  end.

(** The edit loop with enough fuel: it never runs out; until a deletion it
    touches only its task; on cancel an existing task is the snapshot again. *)
Definition loopSpec (p : nat) (originalTodo : Todo) (isNew : bool) (w : World)
  (r : Result EditExit) : Prop :=
  match r with
  | Returns Cancelled w' =>
      keeps p w w' /\ (isNew = false -> heap w' !! p = Some originalTodo)
  | Returns _ w' => shrinks w w'
  | OutOfFuel => False
  | _ => True
  end.

(** Every pointer of the store refers to an object. *)
Definition wfStore (w : World) : Prop :=
  Forall (fun q => is_Some (heap w !! q)) (Todos w).

(** What the loop of [saveTodos] over the pointers [ps] does. *)
Definition saveSpec (dirPath : string) (ps : list nat) (w : World)
  (e : option SaveError) (w' : World) : Prop :=
  Todos w' = Todos w /\
  length (heap w') = length (heap w) /\
  (forall q t, heap w !! q = Some t ->
     heap w' !! q = Some t \/
     (In q ps /\ Modified t = true /\ heap w' !! q = Some (setModified false t))) /\
  (forall path,
     (forall q t, In q ps -> heap w !! q = Some t -> Modified t = true ->
                  todoPath dirPath t <> path) ->
     files (disk w') !! path = files (disk w) !! path) /\
  (forall path, is_Some (files (disk w) !! path) -> is_Some (files (disk w') !! path)) /\
  (e = None ->
   forall q t, In q ps -> heap w !! q = Some t -> heap w' !! q = Some (setModified false t)).

(** What a save leaves behind: its error and the disk ([None] when the
    process exits instead). *)
Definition saveOutcome (dirPath : string) (w : World) : option (option SaveError * FS) :=
  match saveTodos dirPath w with
  | Returns e w' => Some (e, disk w')
  | _ => None
  end.

(** ** Adding a task *)

Definition loopOutcome (r : Result (option SaveError)) : option (option SaveError * FS) :=
  match r with
  | Returns e w' => Some (e, disk w')
  | _ => None
  end.

(** The state of [addItem] once the title prompt has answered [title]. *)
Definition afterTitle (w : World) (rest : list Reply) (title : string) : World :=
  mkWorld
    (heap w ++
     [setSummary title
        (setStatus "NEEDS-ACTION"
           (setLastMod (toLocal (clock w (S (S (ticks w)))))
              (setCreated (toLocal (clock w (S (ticks w))))
                 (emptyTodo (GoStrconv.Itoa (UnixNano (toLocal (clock w (ticks w)))))))))])
    (Todos w) (disk w) rest (clock w) (S (S (S (ticks w)))).

(** ** Vocabulary of the storage and menu properties *)




(** No element is less than one that follows it in the list (the sorted
    prefix of an insertion sort, last element first). *)
Fixpoint descending {A} (lt : A -> A -> bool) (l : list A) : Prop :=
  match l with
  | [] => True
  | x :: r => List.Forall (fun b => lt x b = false) r /\ descending lt r
  end.

End Todocalmenu.

(** ** Example data *)

(** A machine seven hours west of UTC that knows one named zone, run with
    [-todo todos] and without [-threshold] or [-hide-created-date]. *)
Definition exZones (name : string) : option Z :=
  if String.eqb name "America/New_York" then Some (-14400)%Z else None.

Definition exEnv : Env := mkEnv (-25200) exZones "todos" false false.

(** 2024-09-15 05:26:40, 2024-10-02 00:00:00 and 2024-10-02 01:00:30, local
    time. *)
Definition exCreated : Time := mkTime 63862000000 0 LocalZone.
Definition exDue : Time := mkTime 63863449200 0 LocalZone.
Definition exStart : Time := mkTime 63863452830 0 LocalZone.

(** A loaded task that is not dirty, and a dirty one. *)
Definition exTask : Todo :=
  mkTodo "u1" "Buy milk" "" ["home"] "NEEDS-ACTION" exCreated zeroTime exDue 3 exStart false.

Definition exDirty : Todo :=
  mkTodo "u2" "Call Ann" "" [] "NEEDS-ACTION" exCreated exCreated zeroTime 0 zeroTime true.

(** The directory with no file in it, and with the file of [exTask]. *)
Definition exEmptyDisk : FS := mkFS {["todos"]} ∅ ∅.

Definition exCalendar : Calendar :=
  mkCalendar []
    [VTodo [mkProperty "UID" [] "u1"; mkProperty "SUMMARY" [] "Buy milk";
            mkProperty "PRIORITY" [] "42"]].

Definition exDisk : FS := mkFS {["todos"]} {[("todos", "u1.ics") := Ics exCalendar]} ∅.

(** The clock reads 2024-09-15 05:26:40 local time and one nanosecond more
    at each reading. *)
Definition exClock (n : nat) : Time := mkTime 63862000000 (Z.of_nat n) UTC.

(** [exTask] alone in the store, its file missing, with the replies to come. *)
Definition exWorld (replies : list Reply) : World :=
  mkWorld [exTask] [0] exEmptyDisk replies exClock 0.

(** [exTask] and [exDirty] in the store, the file of [exTask] on disk. *)
Definition exWorld2 : World :=
  mkWorld [exTask; exDirty] [0; 1] exDisk [] exClock 0.

(** Two tasks due the same day, priority 5 before priority 1 in the store. *)
Definition exFive : Todo :=
  mkTodo "a" "five" "" [] "NEEDS-ACTION" exCreated zeroTime exDue 5 zeroTime false.
Definition exOne : Todo :=
  mkTodo "b" "one" "" [] "NEEDS-ACTION" exCreated zeroTime exDue 1 zeroTime false.

(** The four tasks of the sort example: due dates A < B, then no due date
    with priority 1 and with priority 0. *)
Definition exSortHeap : list Todo :=
  [ mkTodo "A" "A" "" [] "NEEDS-ACTION" exCreated zeroTime (mkTime 63863362800 0 LocalZone) 0 zeroTime false;
    mkTodo "B" "B" "" [] "NEEDS-ACTION" exCreated zeroTime exDue 0 zeroTime false;
    mkTodo "P1" "P1" "" [] "NEEDS-ACTION" exCreated zeroTime zeroTime 1 zeroTime false;
    mkTodo "P0" "P0" "" [] "NEEDS-ACTION" exCreated zeroTime zeroTime 0 zeroTime false ].

(** The text of a rendered menu. *)
Definition menuText (r : Result (string * gmap string nat)) : option string :=
  match r with
  | Returns (text, _) _ => Some text
  | _ => None
  end.

(** A completed task, and the store of [exTask] and it with both files on
    disk. *)
Definition exDone : Todo :=
  mkTodo "u3" "Pay rent" "" [] "COMPLETED" exCreated exCreated zeroTime 0 zeroTime false.

Definition exDisk3 : FS :=
  mkFS {["todos"]}
       {[("todos", "u1.ics") := Ics exCalendar; ("todos", "u3.ics") := Undecodable]} ∅.

Definition exWorld3 (replies : list Reply) : World :=
  mkWorld [exTask; exDone] [0; 1] exDisk3 replies exClock 0.

(** A task loaded from a VTODO without UID. *)
Definition exAnonymous : Todo :=
  mkTodo "" "Old title" "" [] "NEEDS-ACTION" exCreated zeroTime zeroTime 0 zeroTime false.

(** A stored VTODO with a CREATED property and a property the program does
    not manage. *)
Definition exStored : list Property :=
  [mkProperty "UID" [] "u2"; mkProperty "CREATED" [] "20240101T120000Z";
   mkProperty "LOCATION" [] "Office"; mkProperty "DUE" [] "2024-09-18"].

(** The properties of the first VTODO of a calendar. *)
Definition exStoredOf (cal : Calendar) : list Property :=
  match Components cal with
  | VTodo props :: _ => props
  | _ => []
  end.

(** The world a computation returns ([w] when it does not return). *)
Definition worldOf {A} (r : Result A) (w : World) : World :=
  match r with Returns _ w' => w' | _ => w end.



(** * Properties *)

Section Properties.

Context {env : Env}.

Import GoCalendar.

Notation "x ← y ; z" := (bind y (fun x => z))
  (at level 20, y at level 100, z at level 200, only parsing) : prog_scope.
Notation "x ;; z" := (bind x (fun _ => z))
  (at level 100, z at level 200, only parsing, right associativity) : prog_scope.
Local Open Scope prog_scope.

(** ** The calendar *)

Local Open Scope Z_scope.

Ltac zlia := Z.to_euclidean_division_equations; lia.

Ltac month_cases m :=
  let H := fresh in
  assert (H : m = 1 \/ m = 2 \/ m = 3 \/ m = 4 \/ m = 5 \/ m = 6 \/ m = 7 \/ m = 8
              \/ m = 9 \/ m = 10 \/ m = 11 \/ m = 12) by lia;
  destruct H as [->|[->|[->|[->|[->|[->|[->|[->|[->|[->|[->| ->]]]]]]]]]]].

Lemma isLeap_spec y :
  isLeap y = true <-> (y mod 4 = 0 /\ y mod 100 <> 0) \/ y mod 400 = 0.
Proof.
  unfold isLeap. rewrite orb_true_iff, andb_true_iff, negb_true_iff.
  rewrite !Z.eqb_eq, Z.eqb_neq. reflexivity.
Qed.

Lemma isLeap_false y :
  isLeap y = false -> ~ (y mod 4 = 0 /\ y mod 100 <> 0) /\ y mod 400 <> 0.
Proof.
  intros E.
  split; intro H; assert (isLeap y = true) by (apply isLeap_spec; auto); congruence.
Qed.

(** The cycles of [yearDay] find the year that contains the day. *)
Lemma yearDay_sound z :
  let '(y, yd) := yearDay z in
  daysBeforeYear y + yd = z /\ 0 <= yd < yearLength y.
Proof.
  unfold yearDay.
  set (n400 := z / 146097).
  set (r := z - n400 * 146097).
  assert (Hr : 0 <= r < 146097) by (subst r n400; zlia).
  assert (Hz0 : z = 146097 * n400 + r) by (subst r; lia).
  clearbody r.
  set (n100 := Z.min (r / 36524) 3).
  assert (Hn100 : 0 <= n100 <= 3) by (subst n100; zlia).
  set (r2 := r - n100 * 36524).
  assert (Hr2 : 0 <= r2 < 36525 /\ (n100 < 3 -> r2 < 36524)) by (subst r2 n100; zlia).
  set (n4 := r2 / 1461).
  assert (Hn4 : 0 <= n4 <= 24) by (subst n4; zlia).
  set (r3 := r2 - n4 * 1461).
  assert (Hr3 : 0 <= r3 < 1461 /\ (n4 = 24 -> n100 < 3 -> r3 < 1460))
    by (subst r3 n4; zlia).
  set (n1 := Z.min (r3 / 365) 3).
  assert (Hn1 : 0 <= n1 <= 3) by (subst n1; zlia).
  set (yd := r3 - n1 * 365).
  assert (Hyd : 0 <= yd < 366 /\ (n1 < 3 -> yd < 365)
                /\ (n4 = 24 -> n100 < 3 -> yd < 365)) by (subst yd n1; zlia).
  assert (Hz : z = 146097 * n400 + 36524 * n100 + 1461 * n4 + 365 * n1 + yd)
    by (subst yd r3 r2; lia).
  clearbody yd n1 r3 n4 r2 n100.
  split.
  - unfold daysBeforeYear. zlia.
  - unfold yearLength.
    destruct (isLeap _) eqn:E; [lia|].
    apply isLeap_false in E as [H1 H2]. zlia.
Qed.

Lemma daysBeforeYear_succ y : daysBeforeYear (y + 1) = daysBeforeYear y + yearLength y.
Proof.
  unfold daysBeforeYear, yearLength.
  destruct (isLeap y) eqn:E.
  - apply isLeap_spec in E. zlia.
  - apply isLeap_false in E as [H1 H2]. zlia.
Qed.

Lemma daysBeforeYear_mono a b : a <= b -> daysBeforeYear a <= daysBeforeYear b.
Proof. unfold daysBeforeYear. intros. zlia. Qed.

Lemma yearDay_complete y yd :
  0 <= yd < yearLength y -> yearDay (daysBeforeYear y + yd) = (y, yd).
Proof.
  intros H.
  pose proof (yearDay_sound (daysBeforeYear y + yd)) as S.
  destruct (yearDay (daysBeforeYear y + yd)) as [Y YD]. destruct S as [S1 S2].
  assert (Y = y).
  { destruct (Z.lt_trichotomy Y y) as [Hlt|[Heq|Hgt]]; [|exact Heq|].
    - pose proof (daysBeforeYear_succ Y). pose proof (daysBeforeYear_mono (Y + 1) y). lia.
    - pose proof (daysBeforeYear_succ y). pose proof (daysBeforeYear_mono (y + 1) Y). lia. }
  subst Y. f_equal. lia.
Qed.

Lemma monthDay_sound leap yd :
  let '(m, d) := monthDay leap yd in
  daysBefore leap m + d - 1 = yd /\ 1 <= m <= 12.
Proof.
  unfold monthDay.
  repeat match goal with |- context [if ?c then _ else _] => destruct c end.
  all: split.
  all: lia.
Qed.

Lemma monthDay_valid y yd :
  0 <= yd < yearLength y ->
  let '(m, d) := monthDay (isLeap y) yd in 1 <= d <= daysIn m y.
Proof.
  unfold yearLength, monthDay, daysIn, daysBefore. intros H.
  destruct (isLeap y); cbn -[Z.add Z.sub] in *;
  repeat match goal with
         | |- context [if ?a <? ?b then _ else _] => destruct (Z.ltb_spec a b)
         end;
  cbn -[Z.add Z.sub] in *; lia.
Qed.

Lemma yearDay_range y m d :
  validDate y m d -> 0 <= daysBefore (isLeap y) m + d - 1 < yearLength y.
Proof.
  unfold validDate, daysIn, yearLength, daysBefore. intros [Hm Hd].
  destruct (isLeap y); month_cases m; cbn -[Z.add Z.sub] in *; lia.
Qed.

Lemma monthDay_complete y m d :
  validDate y m d -> monthDay (isLeap y) (daysBefore (isLeap y) m + d - 1) = (m, d).
Proof.
  intros V.
  pose proof (yearDay_range y m d V) as R.
  pose proof (monthDay_sound (isLeap y) (daysBefore (isLeap y) m + d - 1)) as S.
  pose proof (monthDay_valid y _ R) as W.
  destruct (monthDay _ _) as [M D]. destruct S as [S1 S2].
  destruct V as [V1 V2].
  assert (M = m).
  { unfold daysIn, daysBefore in *.
    destruct (isLeap y); month_cases m; month_cases M; cbn -[Z.add Z.sub] in *; lia. }
  subst M. f_equal. lia.
Qed.

(** A date that exists is found again from its day count. *)
Lemma civil_days_civil y m d :
  validDate y m d -> civilFromDays (daysFromCivil y m d) = (y, m, d).
Proof.
  intros V. unfold civilFromDays, daysFromCivil.
  replace (daysBeforeYear y + daysBefore (isLeap y) m + d - 1)
    with (daysBeforeYear y + (daysBefore (isLeap y) m + d - 1)) by lia.
  rewrite yearDay_complete by (apply yearDay_range; exact V).
  rewrite monthDay_complete by exact V. reflexivity.
Qed.

(** Every day count is the count of the date computed from it, and that
    date exists. *)
Lemma days_civil_days z :
  let '(y, m, d) := civilFromDays z in daysFromCivil y m d = z /\ validDate y m d.
Proof.
  unfold civilFromDays, daysFromCivil.
  pose proof (yearDay_sound z) as S. destruct (yearDay z) as [y yd]. destruct S as [S1 S2].
  pose proof (monthDay_sound (isLeap y) yd) as MS.
  pose proof (monthDay_valid y yd S2) as MV.
  destruct (monthDay (isLeap y) yd) as [m d]. destruct MS as [M1 M2].
  split; [lia|split; assumption].
Qed.

Lemma civilOf_wellFormed t : wellFormedCivil (civilOf t).
Proof.
  unfold wellFormedCivil, civilOf.
  pose proof (days_civil_days ((wallSec t + offsetOf (loc t)) / 86400)) as D.
  destruct (civilFromDays _) as [[y m] d]. destruct D as [_ V]. simpl.
  split; [exact V|]. zlia.
Qed.

(** [time.Date] on fields in their ranges yields a time with those fields. *)
Lemma civilOf_time_Date l y m d h mi s ns :
  validDate y m d -> 0 <= h < 24 -> 0 <= mi < 60 -> 0 <= s < 60 ->
  0 <= ns < 1000000000 ->
  civilOf (time_Date y m d h mi s ns l) = mkCivil y m d h mi s ns.
Proof.
  intros V Hh Hmi Hs Hns. unfold civilOf, time_Date. cbn [wallSec nsec loc].
  assert (Hm : (m - 1) / 12 = 0 /\ (m - 1) mod 12 + 1 = m) by (destruct V; zlia).
  destruct Hm as [-> ->]. rewrite Z.add_0_r.
  replace (ns / 1000000000) with 0 by zlia.
  replace (ns mod 1000000000) with ns by zlia.
  set (days := daysFromCivil y m d).
  replace ((days * 86400 + h * 3600 + mi * 60 + s + 0 - offsetOf l + offsetOf l) / 86400)
    with days by zlia.
  replace ((days * 86400 + h * 3600 + mi * 60 + s + 0 - offsetOf l + offsetOf l) mod 86400)
    with (h * 3600 + mi * 60 + s) by zlia.
  subst days. rewrite civil_days_civil by exact V.
  f_equal; zlia.
Qed.

(** [time.Date] on the fields of a time gives the time back. *)
Lemma time_Date_civilOf t :
  0 <= nsec t < 1000000000 ->
  time_Date (cYear (civilOf t)) (cMonth (civilOf t)) (cDay (civilOf t))
            (cHour (civilOf t)) (cMin (civilOf t)) (cSec (civilOf t))
            (cNsec (civilOf t)) (loc t) = t.
Proof.
  intros Hns. unfold civilOf, time_Date.
  pose proof (days_civil_days ((wallSec t + offsetOf (loc t)) / 86400)) as D.
  destruct (civilFromDays _) as [[y m] d]. destruct D as [D V].
  cbn [cYear cMonth cDay cHour cMin cSec cNsec].
  assert (Hm : (m - 1) / 12 = 0 /\ (m - 1) mod 12 + 1 = m) by (destruct V; zlia).
  destruct Hm as [-> ->]. rewrite Z.add_0_r, D.
  destruct t as [ws ns l]. cbn [wallSec nsec loc] in *.
  f_equal; zlia.
Qed.

(** ** Digits and layouts *)

Lemma digit_of_char d :
  0 <= d <= 9 -> GoStrconv.digit_of (GoStrconv.digit_char d) = Some d.
Proof.
  intros H.
  assert (C : d = 0 \/ d = 1 \/ d = 2 \/ d = 3 \/ d = 4 \/ d = 5 \/ d = 6 \/ d = 7
              \/ d = 8 \/ d = 9) by lia.
  destruct C as [->|[->|[->|[->|[->|[->|[->|[->|[->| ->]]]]]]]]]; reflexivity.
Qed.

Lemma appendInt_2 n :
  0 <= n < 100 ->
  appendInt n 2 = String (GoStrconv.digit_char (n / 10))
                    (String (GoStrconv.digit_char (n mod 10)) EmptyString).
Proof.
  intros H. unfold appendInt.
  replace (n <? 0) with false by (symmetry; apply Z.ltb_ge; lia).
  rewrite Z.abs_eq by lia.
  change (10 ^ Z.of_nat 2) with 100.
  replace (n <? 100) with true by (symmetry; apply Z.ltb_lt; lia).
  simpl.
  replace (n / 10 mod 10) with (n / 10) by zlia. reflexivity.
Qed.

Lemma appendInt_4 y :
  0 <= y <= 9999 ->
  appendInt y 4 = String (GoStrconv.digit_char (y / 1000))
                    (String (GoStrconv.digit_char (y / 100 mod 10))
                       (String (GoStrconv.digit_char (y / 10 mod 10))
                          (String (GoStrconv.digit_char (y mod 10)) EmptyString))).
Proof.
  intros H. unfold appendInt.
  replace (y <? 0) with false by (symmetry; apply Z.ltb_ge; lia).
  rewrite Z.abs_eq by lia.
  change (10 ^ Z.of_nat 4) with 10000.
  replace (y <? 10000) with true by (symmetry; apply Z.ltb_lt; lia).
  simpl.
  replace (y / 10 / 10 / 10 mod 10) with (y / 1000) by zlia.
  replace (y / 10 / 10 mod 10) with (y / 100 mod 10) by zlia. reflexivity.
Qed.

Lemma getnum_appendInt n rest fixed :
  0 <= n < 100 -> getnum (appendInt n 2 +:+ rest) fixed = Some (n, rest).
Proof.
  intros H. rewrite appendInt_2 by exact H. simpl.
  rewrite !digit_of_char by zlia. do 2 f_equal. zlia.
Qed.

Lemma getyear_appendInt y rest :
  0 <= y <= 9999 -> getyear (appendInt y 4 +:+ rest) = Some (y, rest).
Proof.
  intros H. rewrite appendInt_4 by exact H. simpl.
  rewrite !digit_of_char by zlia. do 2 f_equal. zlia.
Qed.

(** What was formatted with "20060102T150405Z" parses to the same fields,
    the nanoseconds apart, which the layout does not write. *)
Lemma parse_format_stamp c :
  wellFormedCivil c -> 0 <= cYear c <= 9999 ->
  parseCivil layoutStampZ (formatItems c layoutStampZ)
  = Some (mkCivil (cYear c) (cMonth c) (cDay c) (cHour c) (cMin c) (cSec c) 0).
Proof.
  intros (V & Hh & Hmi & Hs) Hy. destruct V as [Vm Vd].
  assert (Hd : 0 <= cDay c < 100) by (unfold daysIn in Vd; repeat destruct (_ : bool) in Vd; lia).
  assert (B1 : (1 <=? cMonth c) && (cMonth c <=? 12) = true)
    by (apply andb_true_iff; split; apply Z.leb_le; lia).
  assert (B2 : (1 <=? cDay c) && (cDay c <=? daysIn (cMonth c) (cYear c)) = true)
    by (apply andb_true_iff; split; apply Z.leb_le; lia).
  assert (B3 : (cHour c <? 24) = true) by (apply Z.ltb_lt; lia).
  assert (B4 : (cMin c <? 60) = true) by (apply Z.ltb_lt; lia).
  assert (B5 : (cSec c <? 60) = true) by (apply Z.ltb_lt; lia).
  unfold parseCivil, layoutStampZ. simpl.
  rewrite getyear_appendInt by exact Hy.
  rewrite getnum_appendInt by lia. rewrite B1. simpl.
  rewrite getnum_appendInt by lia. simpl. cbv beta iota delta [String.append]. simpl.
  rewrite getnum_appendInt by lia. rewrite B3. simpl.
  rewrite getnum_appendInt by lia. rewrite B4. simpl.
  rewrite getnum_appendInt by lia. rewrite B5. simpl.
  rewrite B2. reflexivity.
Qed.

(** ** Serialisation of timestamps (Date/Time Normaliser) *)

Lemma rev_string_app acc a b :
  GoStrings.rev_string acc (a +:+ b) = GoStrings.rev_string (GoStrings.rev_string acc a) b.
Proof.
  revert acc. induction a as [|c a IH]; intros acc; cbv beta iota delta [String.append].
  - reflexivity.
  - fold String.append. simpl. apply IH.
Qed.

Lemma append_assoc (a b c : string) : (a +:+ b) +:+ c = a +:+ (b +:+ c).
Proof.
  induction a as [|x a IH]; cbv beta iota delta [String.append]; fold String.append.
  - reflexivity.
  - f_equal. exact IH.
Qed.

Lemma rev_string_acc acc s :
  GoStrings.rev_string acc s = GoStrings.rev_string EmptyString s +:+ acc.
Proof.
  revert acc. induction s as [|c s IH]; intros acc; simpl.
  - reflexivity.
  - rewrite (IH (String c acc)), (IH (String c EmptyString)), append_assoc.
    reflexivity.
Qed.

Lemma prefix_app p x y : String.prefix p x = true -> String.prefix p (x +:+ y) = true.
Proof.
  revert x. induction p as [|c p IH]; intros x H; [destruct (x +:+ y); reflexivity|].
  destruct x as [|d x]; [discriminate|].
  cbv beta iota delta [String.append]; fold String.append. simpl in *.
  destruct (ascii_dec c d); [apply IH; exact H|discriminate].
Qed.

Lemma HasSuffix_app a s suf :
  GoStrings.HasSuffix s suf = true -> GoStrings.HasSuffix (a +:+ s) suf = true.
Proof.
  unfold GoStrings.HasSuffix, GoStrings.reverse. intros H.
  rewrite rev_string_app, (rev_string_acc (GoStrings.rev_string EmptyString a) s).
  apply prefix_app. exact H.
Qed.

Lemma serialize_suffix t : GoStrings.HasSuffix (serialize t) "Z" = true.
Proof.
  unfold serialize, Format, layoutStampZ. simpl formatItems.
  do 7 apply HasSuffix_app. reflexivity.
Qed.

Lemma cNsec_civilOf t : cNsec (civilOf t) = nsec t.
Proof. unfold civilOf. destruct (civilFromDays _) as [[y m] d]. reflexivity. Qed.

Lemma serialize_toLocal t : serialize (toLocal t) = serialize t.
Proof.
  unfold serialize. replace (toUTC (toLocal t)) with (toUTC t); reflexivity.
Qed.

Lemma parse_serialize t :
  nsec t = 0 -> 0 <= Year (toUTC t) <= 9999 ->
  parseDateTime (serialize t) = toLocal t.
Proof.
  intros Hns Hy. unfold parseDateTime.
  rewrite serialize_suffix.
  unfold time_Parse, time_ParseInLocation, serialize, Format, Year in *.
  pose proof (civilOf_wellFormed (toUTC t)) as W.
  pose proof (time_Date_civilOf (toUTC t)) as R.
  rewrite cNsec_civilOf in R. cbn [nsec loc toUTC] in R. rewrite Hns in R.
  specialize (R ltac:(lia)).
  remember (civilOf (toUTC t)) as c eqn:Ec. clear Ec.
  rewrite (parse_format_stamp c W Hy).
  cbn [cYear cMonth cDay cHour cMin cSec cNsec].
  rewrite R. reflexivity.
Qed.

(** C7, as amended.  The stored form of a timestamp always ends in "Z".
    For a timestamp with whole seconds whose UTC year is within 0..9999,
    parsing the stored form yields the same instant (in local time), and
    serialising that parsed value again yields the same string, hence the
    same instant.  Nanoseconds are not written, and a year outside 0..9999
    is not read back. *)
Theorem serialize_round_trip (t : Time) :
  GoStrings.HasSuffix (serialize t) "Z" = true /\
  (nsec t = 0 -> 0 <= Year (toUTC t) <= 9999 ->
   parseDateTime (serialize t) = toLocal t /\
   wallSec (parseDateTime (serialize t)) = wallSec t /\
   nsec (parseDateTime (serialize t)) = nsec t /\
   serialize (parseDateTime (serialize t)) = serialize t).
Proof.
  split; [apply serialize_suffix|].
  intros Hns Hy. rewrite parse_serialize by assumption.
  split; [reflexivity|]. split; [reflexivity|]. split; [reflexivity|].
  apply serialize_toLocal.
Qed.

(** ** Start date and start time share one timestamp *)

(** Evaluation of a computation on a world whose task and next replies are
    known from hypotheses. *)
Ltac run :=
  repeat first
    [ progress unfold bind, ret, deref, update, display, time_Now, getHeap, getTodos,
        putTodos, removeFile
    | progress cbn [heap Todos disk launcher clock ticks
                    setHeap setTodos setDisk setLauncher fst snd]
    | match goal with
      | H : heap ?w !! ?p = Some _ |- context [heap ?w !! ?p] => rewrite H
      | H : launcher ?w = _ |- context [launcher ?w] => rewrite H
      end ].

Lemma parseCivil_layoutDate s c :
  parseCivil layoutDate s = Some c ->
  validDate (cYear c) (cMonth c) (cDay c) /\
  cHour c = 0 /\ cMin c = 0 /\ cSec c = 0 /\ cNsec c = 0.
Proof.
  unfold parseCivil, layoutDate. cbn [parseItems parseItem].
  destruct (getyear s) as [[y r1]|]; [|discriminate].
  destruct r1 as [|a1 r1]; [discriminate|].
  destruct (Ascii.eqb a1 "-"); [|discriminate].
  destruct (getnum r1 true) as [[m r2]|]; [|discriminate].
  destruct ((1 <=? m) && (m <=? 12)) eqn:Em; [|discriminate].
  destruct r2 as [|a2 r2]; [discriminate|].
  destruct (Ascii.eqb a2 "-"); [|discriminate].
  destruct (getnum r2 true) as [[d r3]|]; [|discriminate].
  destruct r3; [|discriminate].
  cbn [cYear cMonth cDay cHour cMin cSec cNsec].
  destruct ((1 <=? d) && (d <=? daysIn m y)) eqn:Ed; [|discriminate].
  intros [= <-]. cbn [cYear cMonth cDay cHour cMin cSec cNsec].
  apply andb_true_iff in Em as [Em1 Em2]. apply andb_true_iff in Ed as [Ed1 Ed2].
  unfold validDate. repeat split; lia.
Qed.

(** The date read by the date prompts is midnight, local time, of the day
    the string names. *)
Lemma civilOf_parsed_date s c :
  parseCivil layoutDate s = Some c ->
  time_ParseInLocation layoutDate s LocalZone
  = (time_Date (cYear c) (cMonth c) (cDay c) 0 0 0 0 LocalZone, false) /\
  civilOf (time_Date (cYear c) (cMonth c) (cDay c) 0 0 0 0 LocalZone)
  = mkCivil (cYear c) (cMonth c) (cDay c) 0 0 0 0.
Proof.
  intros P. destruct (parseCivil_layoutDate s c P) as (V & Hh & Hm & Hs & Hn).
  unfold time_ParseInLocation. rewrite P, Hh, Hm, Hs, Hn.
  split; [reflexivity|]. apply civilOf_time_Date; [exact V|lia..].
Qed.

Lemma parsed_nonempty s c : parseCivil layoutDate s = Some c -> String.eqb s "" = false.
Proof. destruct s; [discriminate|reflexivity]. Qed.

Lemma scanned_nonempty s r : scanTime s = Some r -> String.eqb s "" = false.
Proof. destruct s; [discriminate|reflexivity]. Qed.

Lemma in_range_true hour min :
  0 <= hour < 24 -> 0 <= min < 60 ->
  (0 <=? hour) && (hour <? 24) && (0 <=? min) && (min <? 60) = true.
Proof.
  intros Hh Hm. rewrite !andb_true_iff, !Z.leb_le, !Z.ltb_lt. lia.
Qed.

(** C8, as amended.  Start date and start time edit one timestamp:
    - a date set while the timestamp is non-zero keeps its hour and minute
      (seconds and nanoseconds become zero) and takes the day entered;
    - a time set while the timestamp is zero is put on the current local
      day;
    - an empty start date clears the timestamp to zero;
    - an empty start time changes nothing. *)
Theorem start_date_time_edits (p : nat) (w : World) (todo : Todo) :
  heap w !! p = Some todo ->
  (forall dateStr c,
      parseCivil layoutDate dateStr = Some c ->
      IsZero (StartDate todo) = false ->
      exists t',
        updateStartDate p dateStr w = Returns tt (setHeap (<[p := t']> (heap w)) w) /\
        civilOf (StartDate t')
        = mkCivil (cYear c) (cMonth c) (cDay c)
                  (Hour (StartDate todo)) (Minute (StartDate todo)) 0 0 /\
        Modified t' = true) /\
  (forall timeStr hour min,
      scanTime timeStr = Some (hour, min) ->
      0 <= hour < 24 -> 0 <= min < 60 ->
      IsZero (StartDate todo) = true ->
      exists w' t',
        updateStartTime p timeStr w = Returns tt w' /\
        heap w' !! p = Some t' /\
        civilOf (StartDate t')
        = mkCivil (Year (toLocal (clock w (ticks w)))) (Month (toLocal (clock w (ticks w))))
                  (Day (toLocal (clock w (ticks w)))) hour min 0 0 /\
        Modified t' = true) /\
  updateStartDate p "" w
  = Returns tt (setHeap (<[p := setStartDate zeroTime todo]> (heap w)) w) /\
  updateStartTime p "" w = Returns tt w.
Proof.
  intros Hp. repeat split.
  - intros dateStr c P Hz.
    destruct (civilOf_parsed_date dateStr c P) as [Pd Cd].
    unfold updateStartDate. rewrite (parsed_nonempty _ _ P), Pd. run.
    eexists. split; [reflexivity|]. rewrite Hz. cbn [negb StartDate setStartDate setModified Modified].
    split; [|reflexivity].
    unfold Year, Month, Day. rewrite Cd. cbn [cYear cMonth cDay].
    destruct (parseCivil_layoutDate _ _ P) as (V & _).
    destruct (civilOf_wellFormed (StartDate todo)) as (_ & Hh & Hm & _).
    apply civilOf_time_Date; [exact V|exact Hh|exact Hm|lia..].
  - intros timeStr hour min Sc Hh Hm Hz.
    unfold updateStartTime. rewrite (scanned_nonempty _ _ Sc), Sc, in_range_true by assumption.
    run. rewrite Hz. run.
    assert (Hlt : (p < length (heap w))%nat) by (eapply lookup_lt_Some; exact Hp).
    rewrite list_lookup_insert_eq by exact Hlt.
    eexists _, _. split; [reflexivity|]. run.
    rewrite list_lookup_insert_eq by (rewrite length_insert; exact Hlt).
    split; [reflexivity|].
    cbn [StartDate setStartDate setModified Modified]. split; [|reflexivity].
    destruct (civilOf_wellFormed (toLocal (toLocal (clock w (ticks w))))) as (V & _).
    apply civilOf_time_Date; [exact V|exact Hh|exact Hm|lia..].
  - unfold updateStartDate. change (String.eqb "" "") with true. cbv beta iota.
    run. reflexivity.
Qed.

(** ** The field sub-prompts of the edit loop *)


(** C10.  In the Categories sub-editor, cancelling the free-text prompt
    opened by "<Enter new category>" is not a cancel: the categories become
    empty and the task dirty, exactly as after submitting an empty entry. *)
Theorem cancelled_new_category_clears (p : nat) (w : World) (todo : Todo)
  (sel : string) (rest : list Reply) :
  heap w !! p = Some todo ->
  GoStrings.TrimRightNewlines sel = "<Enter new category>"%string ->
  launcher w = Output sel :: ExitStatus1 :: rest ->
  editCategories p w
  = Returns tt (setHeap (<[p := setModified true (setCategories [] todo)]> (heap w))
                        (setLauncher rest w)) /\
  editCategories p (setLauncher (Output sel :: Output "" :: rest) w)
  = editCategories p w.
Proof.
  intros Hp Hs Hl.
  assert (E : editCategories p w
              = Returns tt (setHeap (<[p := setModified true (setCategories [] todo)]> (heap w))
                                    (setLauncher rest w))).
  { unfold editCategories, getExistingCategories. run. rewrite Hs.
    change (String.eqb "<Enter new category>" "<Enter new category>") with true.
    cbv beta iota. run. reflexivity. }
  split; [exact E|]. rewrite E.
  unfold editCategories, getExistingCategories. run. rewrite Hs.
  change (String.eqb "<Enter new category>" "<Enter new category>") with true.
  cbv beta iota. run. reflexivity.
Qed.

(** ** What one run of the edit loop may touch *)

Local Close Scope Z_scope.

Lemma shrinks_refl w : shrinks w w.
Proof. unfold shrinks. split; [lia|]. split; [apply incl_refl|reflexivity]. Qed.

Lemma shrinks_trans w1 w2 w3 : shrinks w1 w2 -> shrinks w2 w3 -> shrinks w1 w3.
Proof.
  intros (A1 & B1 & C1) (A2 & B2 & C2). split; [lia|].
  split; [eapply incl_tran; eassumption|congruence].
Qed.

Lemma keeps_refl p w : keeps p w w.
Proof. split; [apply shrinks_refl|]. split; [reflexivity|]. intros; reflexivity. Qed.

Lemma keeps_trans p w1 w2 w3 : keeps p w1 w2 -> keeps p w2 w3 -> keeps p w1 w3.
Proof.
  intros (S1 & D1 & H1) (S2 & D2 & H2).
  split; [eapply shrinks_trans; eassumption|]. split; [congruence|].
  intros q Hq. rewrite H2, H1 by exact Hq. reflexivity.
Qed.

Lemma keeps_shrinks p w w' : keeps p w w' -> shrinks w w'.
Proof. intros [S _]; exact S. Qed.

Section Behaves.
Variable R : World -> World -> Prop.
Hypothesis R_refl : forall w, R w w.
Hypothesis R_trans : forall w1 w2 w3, R w1 w2 -> R w2 w3 -> R w1 w3.

Lemma behaves_ret {A} (a : A) : behaves R (ret a).
Proof. intros w. apply R_refl. Qed.

Lemma behaves_bind {A B} (c : M A) (k : A -> M B) :
  behaves R c -> (forall a, behaves R (k a)) -> behaves R (bind c k).
Proof.
  intros Hc Hk w. unfold bind. specialize (Hc w).
  destruct (c w) as [a w1| | |]; try exact I; [|exact Hc].
  specialize (Hk a w1). destruct (k a w1); try exact I; [|exact Hk].
  eapply R_trans; eassumption.
Qed.

Lemma behaves_deref p : behaves R (deref p).
Proof. intros w. unfold deref. destruct (heap w !! p); [apply R_refl|exact I]. Qed.

Lemma behaves_getHeap : behaves R getHeap.
Proof. intros w. apply R_refl. Qed.

Lemma behaves_getTodos : behaves R getTodos.
Proof. intros w. apply R_refl. Qed.

Lemma behaves_getExistingCategories : behaves R getExistingCategories.
Proof. intros w. apply R_refl. Qed.

End Behaves.

Lemma keeps_update p f : behaves (keeps p) (update p f).
Proof.
  intros w. unfold update. destruct (heap w !! p) eqn:E; [|exact I].
  split; [|split].
  - split; [reflexivity|]. split; [apply incl_refl|]. cbn [heap setHeap]. apply length_insert.
  - reflexivity.
  - intros q Hq. cbn [heap setHeap]. apply list_lookup_insert_ne. congruence.
Qed.

Lemma keeps_display p list title : behaves (keeps p) (display list title).
Proof.
  intros w. unfold display.
  destruct (launcher w) as [|[out| |] r] eqn:E; try exact I.
  all: split; [|split; [reflexivity|intros; reflexivity]].
  all: split; [cbn [launcher setLauncher]; rewrite E; simpl; lia|].
  all: split; [apply incl_refl|reflexivity].
Qed.

Lemma keeps_time_Now p : behaves (keeps p) time_Now.
Proof.
  intros w. unfold time_Now.
  split; [|split; [reflexivity|intros; reflexivity]].
  split; [reflexivity|]. split; [apply incl_refl|reflexivity].
Qed.

(** Composition of the rules above over a computation built from the
    primitives. *)
Ltac keeps_steps p :=
  repeat first
    [ apply behaves_ret; apply keeps_refl
    | apply behaves_deref; apply keeps_refl
    | apply behaves_getExistingCategories; apply keeps_refl
    | apply keeps_update
    | apply keeps_display
    | apply keeps_time_Now
    | apply behaves_bind; [apply keeps_trans| |intros]
    | match goal with
      | |- behaves _ (let '(_, _) := ?x in _) => destruct x
      | |- behaves _ (if ?b then _ else _) => destruct b
      | |- behaves _ (match ?x with _ => _ end) => destruct x
      end ].

Lemma keeps_editTitle p : behaves (keeps p) (editTitle p).
Proof. unfold editTitle. keeps_steps p. Qed.

Lemma keeps_editDescription p : behaves (keeps p) (editDescription p).
Proof. unfold editDescription. keeps_steps p. Qed.

Lemma keeps_editPriority p : behaves (keeps p) (editPriority p).
Proof. unfold editPriority. keeps_steps p. Qed.

Lemma keeps_editCategories p : behaves (keeps p) (editCategories p).
Proof. unfold editCategories. keeps_steps p. Qed.

Lemma keeps_editDueDate p tdd : behaves (keeps p) (editDueDate p tdd).
Proof. unfold editDueDate. keeps_steps p. Qed.

Lemma keeps_updateStartDate p s : behaves (keeps p) (updateStartDate p s).
Proof. unfold updateStartDate. keeps_steps p. Qed.

Lemma keeps_updateStartTime p s : behaves (keeps p) (updateStartTime p s).
Proof. unfold updateStartTime. keeps_steps p. Qed.

Lemma keeps_editStartDate p : behaves (keeps p) (editStartDate p).
Proof. unfold editStartDate. keeps_steps p. apply keeps_updateStartDate. Qed.

Lemma keeps_editStartTime p : behaves (keeps p) (editStartTime p).
Proof. unfold editStartTime. keeps_steps p. apply keeps_updateStartTime. Qed.

Lemma keeps_editStatus p s : behaves (keeps p) (editStatus p s).
Proof. unfold editStatus. keeps_steps p. Qed.

Lemma removeUID_incl h uid l : incl (removeUID h uid l) l.
Proof.
  induction l as [|q r IH]; simpl; [apply incl_refl|].
  destruct (h !! q) as [t|].
  - destruct (String.eqb (UID t) uid); [apply incl_tl, incl_refl|].
    apply incl_cons; [left; reflexivity|apply incl_tl; exact IH].
  - apply incl_cons; [left; reflexivity|apply incl_tl; exact IH].
Qed.

(** [deleteTodo]: the entry leaves the store whether or not the file could
    be removed; only a successful removal changes the disk. *)
Lemma deleteTodo_spec p w :
  match deleteTodo p w with
  | Returns ok w' =>
      shrinks w w' /\ heap w' = heap w /\
      (ok = false -> disk w' = disk w)
  | OutOfFuel => False
  | _ => True
  end.
Proof.
  unfold deleteTodo, bind, deref, getHeap, getTodos, putTodos, removeFile.
  destruct (heap w !! p) as [todo|]; [|exact I].
  cbn [heap Todos disk setTodos].
  destruct (os_Remove (disk w) (todoPath todoPtr todo)) as [fs'|].
  - split; [|split; [reflexivity|discriminate]].
    split; [reflexivity|]. split; [apply removeUID_incl|reflexivity].
  - split; [|split; reflexivity].
    split; [reflexivity|]. split; [apply removeUID_incl|reflexivity].
Qed.

Lemma keeps_of_same_heap p w w' :
  shrinks w w' -> heap w' = heap w -> disk w' = disk w -> keeps p w w'.
Proof. intros S H D. split; [exact S|]. split; [exact D|]. intros q _. rewrite H. reflexivity. Qed.

Lemma actionSpec_continue p (c : M unit) :
  behaves (keeps p) c -> forall w, actionSpec p w (bind c (fun _ => ret Continue) w).
Proof.
  intros H w. unfold bind, ret. specialize (H w).
  destruct (c w); simpl; exact H.
Qed.

Lemma editDelete_spec p w : actionSpec p w (editDelete p w).
Proof.
  unfold editDelete, bind, deref, ret.
  destruct (heap w !! p) as [todo|]; [|exact I].
  pose proof (keeps_display p "" ("Delete item: " +:+ Summary todo +:+ ". y/N?") w) as D.
  destruct (display _ _ w) as [[confirm e] w1| | |]; try exact I; [|exact D].
  destruct (String.eqb (GoStrings.ToLower confirm) "y"); [|exact D].
  pose proof (deleteTodo_spec p w1) as T.
  destruct (deleteTodo p w1) as [ok w2| | |]; try exact I; [|exact T].
  destruct T as (S & Hh & Hd). destruct ok; simpl.
  - eapply shrinks_trans; [apply (keeps_shrinks p); exact D|exact S].
  - eapply keeps_trans; [exact D|]. apply keeps_of_same_heap; auto.
Qed.

Lemma editAction_spec p tdd out w : actionSpec p w (editAction p tdd out w).
Proof.
  unfold editAction.
  destruct (String.eqb out "Save item").
  { assert (B : behaves (keeps p)
                  (bind time_Now (fun now =>
                     update p (fun todo => setLastMod now (setModified true todo)))))
      by keeps_steps p.
    specialize (B w). unfold bind, ret in *.
    destruct (time_Now w) as [now w1| | |]; try exact B.
    destruct (update p _ w1); simpl; exact B. }
  repeat match goal with
         | |- actionSpec _ _ ((if ?b then _ else _) _) => destruct b
         end.
  all: try (apply actionSpec_continue;
            first [ apply keeps_editTitle | apply keeps_editPriority
                  | apply keeps_editCategories | apply keeps_editDueDate
                  | apply keeps_editStartDate | apply keeps_editStartTime
                  | apply keeps_editDescription | apply keeps_editStatus ]).
  - apply editDelete_spec.
  - apply keeps_refl.
Qed.

Lemma loopSpec_weaken p o n w1 w2 r :
  keeps p w1 w2 -> loopSpec p o n w2 r -> loopSpec p o n w1 r.
Proof.
  intros K. destruct r as [[| |] w'| | |]; simpl; try tauto.
  - intros S. eapply shrinks_trans; [apply (keeps_shrinks p); exact K|exact S].
  - intros [K' H]. split; [eapply keeps_trans; eassumption|exact H].
  - intros S. eapply shrinks_trans; [apply (keeps_shrinks p); exact K|exact S].
Qed.

Lemma editLoop_spec p originalTodo isNew fuel :
  forall w, length (launcher w) < fuel ->
            loopSpec p originalTodo isNew w (editLoop fuel p originalTodo isNew w).
Proof.
  induction fuel as [|fuel IH]; intros w Hf; [lia|].
  cbn [editLoop]. unfold bind at 1. unfold deref at 1.
  destruct (heap w !! p) as [todo|] eqn:Hp; [|exact I].
  unfold bind at 1.
  set (menu := editMenu todo _).
  pose proof (keeps_display p menu (Summary todo) w) as D.
  assert (L : match display menu (Summary todo) w with
              | Returns _ w1 => length (launcher w1) < length (launcher w)
              | _ => True
              end).
  { unfold display. destruct (launcher w) as [|[| |] r]; simpl; try exact I; lia. }
  destruct (display menu (Summary todo) w) as [[out e] w1| | |]; try exact I; [|exact D].
  destruct e.
  - (* cancelled *)
    destruct isNew.
    + simpl. split; [exact D|discriminate].
    + pose proof (keeps_update p (fun _ => originalTodo) w1) as U.
      unfold bind, ret. unfold update in *.
      destruct (heap w1 !! p) as [t1|] eqn:Hp1; [|exact I].
      simpl. split; [eapply keeps_trans; eassumption|].
      intros _. cbn [heap setHeap]. apply list_lookup_insert_eq.
      eapply lookup_lt_Some; exact Hp1.
  - unfold bind at 1.
    pose proof (editAction_spec p
                  (if IsZero (DueDate todo) then ""%string else Format (DueDate todo) layoutDate)
                  out w1) as A.
    destruct (editAction p _ out w1) as [[|how] w2| | |]; try exact I; [| |exact A].
    + (* the loop goes on *)
      simpl in A. eapply loopSpec_weaken; [eapply keeps_trans; eassumption|].
      apply IH. destruct A as ((A1 & _) & _). lia.
    + unfold ret. destruct how; simpl in *.
      * eapply shrinks_trans; [apply (keeps_shrinks p); exact D|apply (keeps_shrinks p); exact A].
      * contradiction.
      * eapply shrinks_trans; [apply (keeps_shrinks p); exact D|exact A].
Qed.


(** ** Deletion *)

Lemma removeUID_length h todo p l :
  h !! p = Some todo -> In p l -> length (removeUID h (UID todo) l) < length l.
Proof.
  intros Hp. induction l as [|q r IH]; simpl; [tauto|].
  intros [->|Hin].
  - rewrite Hp, String.eqb_refl. lia.
  - destruct (h !! q) as [t|]; [destruct (String.eqb (UID t) (UID todo))|];
      simpl; try lia; specialize (IH Hin); lia.
Qed.

Lemma removeUID_gone h todo p l :
  h !! p = Some todo -> List.NoDup l ->
  (forall q t, In q l -> h !! q = Some t -> UID t = UID todo -> q = p) ->
  ~ In p (removeUID h (UID todo) l).
Proof.
  intros Hp. induction l as [|q r IH]; simpl; intros ND U; [tauto|].
  apply NoDup_cons_iff in ND as [Hq ND].
  destruct (h !! q) as [t|] eqn:Hhq.
  - destruct (String.eqb (UID t) (UID todo)) eqn:E.
    + apply String.eqb_eq in E.
      assert (q = p) by (eapply U; [left; reflexivity|exact Hhq|exact E]).
      subst q. exact Hq.
    + intros [->|Hin].
      * rewrite Hp in Hhq. injection Hhq as <-. rewrite String.eqb_refl in E. discriminate.
      * revert Hin. apply IH; [exact ND|]. intros q' t' Hin'. apply U. right. exact Hin'.
  - intros [->|Hin]; [congruence|].
    revert Hin. apply IH; [exact ND|]. intros q' t' Hin'. apply U. right. exact Hin'.
Qed.

(** C2, what the code does.  When the file of a task cannot be removed,
    [deleteTodo] reports failure, yet an entry has already left the store:
    the slice is shorter, and with unique UIDs the task itself is gone.
    The bulk deletion of [viewCompletedItems] puts such a task back. *)
Theorem delete_failure_drops_entry (p : nat) (w : World) (todo : Todo) :
  heap w !! p = Some todo ->
  In p (Todos w) ->
  os_Remove (disk w) (todoPath todoPtr todo) = None ->
  exists w',
    deleteTodo p w = Returns false w' /\
    disk w' = disk w /\
    Todos w' = removeUID (heap w) (UID todo) (Todos w) /\
    length (Todos w') < length (Todos w) /\
    (List.NoDup (Todos w) ->
     (forall q t, In q (Todos w) -> heap w !! q = Some t -> UID t = UID todo -> q = p) ->
     ~ In p (Todos w')) /\
    forall remainingTodos,
      exists w'', deleteCompleted [p] remainingTodos w
                  = Returns (remainingTodos ++ [p]) w''.
Proof.
  intros Hp Hin Hrm.
  assert (E : deleteTodo p w
              = Returns false (setTodos (removeUID (heap w) (UID todo) (Todos w)) w)).
  { unfold deleteTodo. run. rewrite Hrm. reflexivity. }
  eexists. split; [exact E|]. cbn [disk Todos setTodos].
  split; [reflexivity|]. split; [reflexivity|].
  split; [eapply removeUID_length; eassumption|].
  split; [intros ND U; apply removeUID_gone; assumption|].
  intros remainingTodos. cbn [deleteCompleted]. unfold bind at 1. rewrite E.
  eexists. reflexivity.
Qed.

(** ** Saving *)

Lemma saveOne_writes dirPath todo fs fs' :
  saveOne dirPath todo fs = inr fs' ->
  exists cal,
    fs' = mkFS (dirs fs) (<[todoPath dirPath todo := Ics cal]> (files fs)) (locked fs).
Proof.
  unfold saveOne, writeCalendar.
  destruct (if os_Stat fs (todoPath dirPath todo) then _ else _) as [e|cal]; [discriminate|].
  destruct (_ && _); [|discriminate].
  intros [= <-]. eexists. reflexivity.
Qed.

Lemma setModified_clean t : Modified t = false -> setModified false t = t.
Proof. destruct t. simpl. intros ->. reflexivity. Qed.

Lemma saveLoop_spec dirPath ps :
  forall w, Forall (fun q => is_Some (heap w !! q)) ps ->
            exists e w', saveLoop dirPath ps w = Returns e w' /\ saveSpec dirPath ps w e w'.
Proof.
  induction ps as [|p rest IH]; intros w Hwf.
  { exists None, w. split; [reflexivity|].
    unfold saveSpec. repeat split; auto. intros _ q t []. }
  apply Forall_cons_iff in Hwf as [[todo Hp] Hrest].
  cbn [saveLoop]. unfold bind at 1. unfold deref. rewrite Hp.
  destruct (Modified todo) eqn:Hm; cbn [negb].
  - (* a modified task *)
    destruct (saveOne dirPath todo (disk w)) as [err|fs'] eqn:Hs.
    { exists (Some err), w. split; [reflexivity|].
      unfold saveSpec. repeat split; auto. discriminate. }
    destruct (saveOne_writes _ _ _ _ Hs) as [cal ->].
    unfold bind, update. cbn [heap setDisk]. rewrite Hp.
    set (w2 := setHeap _ _).
    assert (Hlt : p < length (heap w)) by (eapply lookup_lt_Some; exact Hp).
    assert (Hwf2 : Forall (fun q => is_Some (heap w2 !! q)) rest).
    { eapply Forall_impl; [exact Hrest|]. intros q [t Hq]. subst w2. cbn [heap setHeap setDisk].
      destruct (decide (q = p)) as [->|Hne].
      - rewrite list_lookup_insert_eq by exact Hlt. eauto.
      - rewrite list_lookup_insert_ne by congruence. eauto. }
    destruct (IH w2 Hwf2) as (e & w' & E & ST & SL & SH & SD & SM & SS).
    exists e, w'. split; [exact E|].
    assert (H2p : heap w2 !! p = Some (setModified false todo))
      by (subst w2; cbn [heap setHeap setDisk]; apply list_lookup_insert_eq; exact Hlt).
    assert (H2q : forall q, q <> p -> heap w2 !! q = heap w !! q)
      by (intros q Hq; subst w2; cbn [heap setHeap setDisk];
          apply list_lookup_insert_ne; congruence).
    assert (Hp' : heap w' !! p = Some (setModified false todo)).
    { destruct (SH p _ H2p) as [H|(_ & Hc & _)]; [exact H|discriminate Hc]. }
    unfold saveSpec. split; [exact ST|].
    split; [rewrite SL; subst w2; cbn [heap setHeap setDisk]; apply length_insert|].
    split; [|split; [|split]].
    + intros q t Hq. destruct (decide (q = p)) as [->|Hne].
      * rewrite Hp in Hq. injection Hq as <-. right.
        split; [left; reflexivity|]. split; [exact Hm|exact Hp'].
      * rewrite <- H2q in Hq by exact Hne.
        destruct (SH q t Hq) as [H|(Hin & Hmt & H)]; [left; exact H|].
        right. split; [right; exact Hin|]. split; assumption.
    + intros path Hpath. rewrite SD.
      * subst w2. cbn [disk setHeap setDisk files]. apply lookup_insert_ne.
        eapply Hpath; [left; reflexivity|exact Hp|exact Hm].
      * intros q t Hin Hq Hmt. destruct (decide (q = p)) as [->|Hne].
        -- rewrite H2p in Hq. injection Hq as <-. discriminate Hmt.
        -- rewrite H2q in Hq by exact Hne. eapply Hpath; [right; exact Hin|exact Hq|exact Hmt].
    + intros path Hpath. apply SM. subst w2. cbn [disk setHeap setDisk files].
      destruct (decide (todoPath dirPath todo = path)) as [->|Hne].
      * rewrite lookup_insert_eq. eauto.
      * rewrite lookup_insert_ne by exact Hne. exact Hpath.
    + intros He q t Hin Hq. destruct (decide (q = p)) as [->|Hne].
      * rewrite Hp in Hq. injection Hq as <-. exact Hp'.
      * destruct Hin as [->|Hin]; [congruence|].
        apply SS; [exact He|exact Hin|]. rewrite H2q by exact Hne. exact Hq.
  - (* Skip unmodified todos *)
    destruct (IH w Hrest) as (e & w' & E & ST & SL & SH & SD & SM & SS).
    exists e, w'. split; [exact E|].
    unfold saveSpec. split; [exact ST|]. split; [exact SL|].
    split; [|split; [|split]].
    + intros q t Hq. destruct (SH q t Hq) as [H|(Hin & Hmt & H)]; [left; exact H|].
      right. split; [right; exact Hin|]. split; assumption.
    + intros path Hpath. apply SD. intros q t Hin. apply Hpath. right. exact Hin.
    + exact SM.
    + intros He q t [Heq|Hin] Hq.
      * subst q. rewrite Hp in Hq. injection Hq as <-.
        rewrite setModified_clean by exact Hm.
        destruct (SH p _ Hp) as [H|(_ & Hc & _)]; [exact H|congruence].
      * apply SS; assumption.
Qed.


(** A save depends on the disk and on the tasks of the store only. *)
Lemma saveLoop_agree dirPath ps :
  forall w1 w2,
    disk w1 = disk w2 ->
    (forall q, In q ps -> heap w1 !! q = heap w2 !! q) ->
    loopOutcome (saveLoop dirPath ps w1) = loopOutcome (saveLoop dirPath ps w2).
Proof.
  induction ps as [|p rest IH]; intros w1 w2 Hd Hh.
  { simpl. unfold ret. simpl. rewrite Hd. reflexivity. }
  cbn [saveLoop]. unfold bind at 1 3. unfold deref.
  rewrite <- (Hh p (or_introl eq_refl)).
  destruct (heap w1 !! p) as [todo|] eqn:Hp; [|reflexivity].
  assert (Hp2 : heap w2 !! p = Some todo) by (rewrite <- (Hh p (or_introl eq_refl)); exact Hp).
  destruct (Modified todo); cbn [negb].
  - rewrite <- Hd. destruct (saveOne dirPath todo (disk w1)) as [err|fs'].
    + simpl. rewrite Hd. reflexivity.
    + unfold bind, update. cbn [heap setDisk]. rewrite Hp, Hp2.
      apply IH; [reflexivity|].
      intros q Hq. cbn [heap setHeap setDisk].
      destruct (decide (q = p)) as [->|Hne].
      * rewrite !list_lookup_insert_eq by (eapply lookup_lt_Some; eassumption). reflexivity.
      * rewrite !list_lookup_insert_ne by congruence. apply Hh. right. exact Hq.
  - apply IH; [exact Hd|]. intros q Hq. apply Hh. right. exact Hq.
Qed.

Lemma editItem_shrinks p w :
  match editItem p w with
  | Returns _ w' => shrinks w w'
  | OutOfFuel => False
  | _ => True
  end.
Proof.
  unfold editItem, bind, deref.
  destruct (heap w !! p) as [todo|]; [|exact I].
  pose proof (editLoop_spec p todo (String.eqb (UID todo) "") (S (length (launcher w))) w
                ltac:(lia)) as L.
  destruct (editLoop _ _ _ _ w) as [[| |] w'| | |]; simpl in L; try exact L.
  destruct L as [K _]. apply (keeps_shrinks p). exact K.
Qed.

Lemma addItem_begin w r rest :
  launcher w = r :: rest ->
  addItem w =
  match r with
  | Output out =>
      let title := GoStrings.TrimRightNewlines out in
      if negb (String.eqb title "") then
        (editItem (length (heap w));;
         todo ← deref (length (heap w));
         if negb (String.eqb (Summary todo) "") && Modified todo then
           now ← time_Now;
           update (length (heap w)) (setLastMod now);;
           l ← getTodos;
           putTodos (l ++ [length (heap w)])
         else ret tt) (afterTitle w rest title)
      else Returns tt (afterTitle w rest title)
  | ExitStatus1 => Returns tt (afterTitle w rest "")
  | LauncherError => Exits
  end.
Proof.
  intros Hl. unfold addItem, generateUID.
  unfold bind at 1. unfold bind at 1. unfold time_Now at 1. unfold ret at 1.
  unfold bind at 1. unfold time_Now at 1.
  unfold bind at 1. unfold time_Now at 1.
  unfold bind at 1. unfold alloc.
  unfold bind at 1. unfold display. cbn [launcher heap Todos disk clock ticks setHeap].
  rewrite Hl.
  assert (U :
             (heap w ++ [setStatus "NEEDS-ACTION"
                (setLastMod (toLocal (clock w (S (S (ticks w)))))
                   (setCreated (toLocal (clock w (S (ticks w))))
                      (emptyTodo (GoStrconv.Itoa (UnixNano (toLocal (clock w (ticks w))))))))])
               !! length (heap w) = Some (setStatus "NEEDS-ACTION"
                (setLastMod (toLocal (clock w (S (S (ticks w)))))
                   (setCreated (toLocal (clock w (S (ticks w))))
                      (emptyTodo (GoStrconv.Itoa (UnixNano (toLocal (clock w (ticks w)))))))))).
  { rewrite lookup_app_r by lia. rewrite Nat.sub_diag. reflexivity. }
  destruct r as [out| |]; [| |reflexivity].
  - unfold bind at 1. unfold update. cbn [heap setLauncher setHeap]. rewrite U.
    unfold afterTitle.
    rewrite (insert_app_r_alt (heap w)) by lia. rewrite Nat.sub_diag. cbn [list_insert insert].
    destruct (negb (String.eqb (GoStrings.TrimRightNewlines out) "")); reflexivity.
  - unfold bind at 1. unfold update. cbn [heap setLauncher setHeap]. rewrite U.
    unfold afterTitle.
    rewrite (insert_app_r_alt (heap w)) by lia. rewrite Nat.sub_diag. reflexivity.
Qed.

Lemma addItem_waits w : launcher w = [] -> addItem w = Waits.
Proof.
  intros Hl. unfold addItem, generateUID, bind, time_Now, ret, alloc, display.
  cbn [launcher]. rewrite Hl. reflexivity.
Qed.

(** C9.  When the title prompt of an add is cancelled or answers the empty
    string, no task is appended and the disk is untouched, so a save
    afterwards does exactly what it would have done before; and whatever the
    interaction, a task that [addItem] has appended has a non-empty
    summary. *)
Theorem add_needs_title (w : World) :
  (forall r rest,
     launcher w = r :: rest ->
     r = ExitStatus1 \/ (exists out, r = Output out /\ GoStrings.TrimRightNewlines out = ""%string) ->
     exists w',
       addItem w = Returns tt w' /\ Todos w' = Todos w /\ disk w' = disk w /\
       (wfStore w -> forall dirPath, saveOutcome dirPath w' = saveOutcome dirPath w)) /\
  (forall w',
     addItem w = Returns tt w' ->
     forall q, In q (Todos w') ->
               In q (Todos w) \/ exists t, heap w' !! q = Some t /\ Summary t <> ""%string).
Proof.
  split.
  - intros r rest Hl Hr. rewrite (addItem_begin w r rest Hl).
    assert (S : forall title,
               wfStore w -> forall dirPath,
                 saveOutcome dirPath (afterTitle w rest title) = saveOutcome dirPath w).
    { intros title Hwf dirPath. unfold saveOutcome, saveTodos.
      change (Todos (afterTitle w rest title)) with (Todos w).
      apply (saveLoop_agree dirPath (Todos w)); [reflexivity|].
      intros q Hq. unfold afterTitle. cbn [heap].
      apply lookup_app_l. unfold wfStore in Hwf.
      rewrite Forall_forall in Hwf. destruct (Hwf q) as [t Ht].
      - apply list_elem_of_In. exact Hq.
      - eapply lookup_lt_Some. exact Ht. }
    destruct Hr as [->|(out & -> & Ho)].
    + eexists. split; [reflexivity|]. repeat split. apply S.
    + cbv zeta. rewrite Ho. change (negb (String.eqb "" "")) with false. cbv iota.
      eexists. split; [reflexivity|]. repeat split. apply S.
  - intros w' E q Hq.
    destruct (launcher w) as [|r rest] eqn:Hl.
    { rewrite (addItem_waits w Hl) in E. discriminate. }
    rewrite (addItem_begin w r rest Hl) in E.
    destruct r as [out| |]; [| |discriminate].
    2: { injection E as <-. left. exact Hq. }
    cbv zeta in E. set (title := GoStrings.TrimRightNewlines out) in *.
    destruct (negb (String.eqb title "")).
    2: { injection E as <-. left. exact Hq. }
    unfold bind at 1 in E.
    pose proof (editItem_shrinks (length (heap w)) (afterTitle w rest title)) as Sh.
    destruct (editItem _ _) as [how w2| | |]; try discriminate.
    destruct Sh as (_ & Incl & _).
    unfold bind at 1 in E. unfold deref in E.
    destruct (heap w2 !! length (heap w)) as [todo2|] eqn:Hp2; [|discriminate].
    destruct (negb (String.eqb (Summary todo2) "")) eqn:Hs; cbn [andb] in E.
    2: { injection E as <-. left. apply Incl. exact Hq. }
    destruct (Modified todo2).
    2: { injection E as <-. left. apply Incl. exact Hq. }
    unfold bind, time_Now, update, getTodos, putTodos in E.
    cbn [heap Todos setHeap setTodos] in E. rewrite Hp2 in E.
    injection E as <-. cbn [heap Todos setHeap setTodos] in *.
    apply in_app_or in Hq as [Hq|[<-|[]]].
    + left. apply Incl. exact Hq.
    + right. eexists. split.
      * apply list_lookup_insert_eq. eapply lookup_lt_Some. exact Hp2.
      * cbn [Summary setLastMod]. intros Hc. rewrite Hc in Hs. discriminate.
Qed.

(** ** Priority *)

Local Open Scope Z_scope.

(** C6, as amended.  After the priority sub-prompt a task has either the
    priority it had (the prompt was cancelled or the input rejected) or an
    accepted value between 0 and 9, so the sub-prompt preserves
    [0 <= priority <= 9].  A loaded task has the integer [strconv.Atoi]
    reads from the stored PRIORITY property, 0 when there is none; loading
    checks no range. *)
Theorem priority_after_prompt_and_load :
  (forall p w todo w',
     heap w !! p = Some todo ->
     editPriority p w = Returns tt w' ->
     exists todo',
       heap w' !! p = Some todo' /\
       (Priority todo' = Priority todo \/ 0 <= Priority todo' <= 9) /\
       (0 <= Priority todo <= 9 -> 0 <= Priority todo' <= 9)) /\
  (forall vtodo,
     Priority (convertVTodoToTodo vtodo)
     = match GetProperty vtodo ComponentPropertyPriority with
       | Some priority => (GoStrconv.Atoi (Value priority)).1
       | None => 0
       end).
Proof.
  split.
  - intros p w todo w' Hp E.
    assert (Hlt : (p < length (heap w))%nat) by (eapply lookup_lt_Some; exact Hp).
    unfold editPriority, bind, deref, display in E. rewrite Hp in E.
    destruct (launcher w) as [|[out| |] rest]; try discriminate.
    + cbn [heap setLauncher] in E.
      destruct (GoStrconv.Atoi (GoStrings.TrimRightNewlines out)) as [pn err].
      destruct (negb err && (0 <=? pn) && (pn <=? 9)) eqn:C.
      * unfold update in E. cbn [heap setLauncher] in E. rewrite Hp in E.
        injection E as <-. cbn [heap setHeap].
        rewrite list_lookup_insert_eq by exact Hlt.
        eexists. split; [reflexivity|]. cbn [Priority setPriority setModified].
        apply andb_true_iff in C as [C C2]. apply andb_true_iff in C as [_ C1].
        apply Z.leb_le in C1, C2.
        destruct (Z.eqb_spec pn 0); split; try (right; lia); intros _; lia.
      * cbn [launcher setLauncher] in E.
        destruct rest as [|[out2| |] rest2]; try discriminate;
          unfold ret in E; injection E as <-; cbn [heap setLauncher];
          (eexists; split; [exact Hp|]; split; [left; reflexivity|tauto]).
    + unfold ret in E. injection E as <-. cbn [heap setLauncher].
      eexists. split; [exact Hp|]. split; [left; reflexivity|tauto].
  - intros vtodo. unfold convertVTodoToTodo.
    repeat match goal with
           | |- context [match GetProperty vtodo ?n with _ => _ end] =>
               destruct (GetProperty vtodo n)
           end; reflexivity.
Qed.

(** ** The sort comparator *)

Lemma Before_irrefl t : Before t t = false.
Proof.
  unfold Before. rewrite !Z.ltb_irrefl, andb_false_r. reflexivity.
Qed.

(** C3, what the comparator does.  A task with a due date comes before one
    without; two tasks with due dates are ordered by due date alone; two
    tasks without due dates are ordered by priority, 0 last, and at equal
    priority the one created later comes first.  Two tasks with the same due
    date are therefore separated in neither direction, whatever their
    priorities: step 2 returns before the priority is looked at. *)
Theorem equal_due_dates_ignore_priority (a b : Todo) :
  (IsZero (DueDate a) = false -> IsZero (DueDate b) = true ->
   less a b = true /\ less b a = false) /\
  (IsZero (DueDate a) = false -> IsZero (DueDate b) = false ->
   less a b = Before (DueDate a) (DueDate b)) /\
  (IsZero (DueDate a) = true -> IsZero (DueDate b) = true ->
   less a b = if negb (Priority a =? Priority b)%Z
              then if (Priority a =? 0)%Z then false
                   else if (Priority b =? 0)%Z then true
                   else (Priority a <? Priority b)%Z
              else After (Created a) (Created b)) /\
  (IsZero (DueDate a) = false -> DueDate b = DueDate a ->
   less a b = false /\ less b a = false).
Proof.
  split; [|split; [|split]].
  - intros Ha Hb. unfold less. rewrite Ha, Hb. split; reflexivity.
  - intros Ha Hb. unfold less. rewrite Ha, Hb. reflexivity.
  - intros Ha Hb. unfold less. rewrite Ha, Hb. reflexivity.
  - intros Hz Hd. unfold less. rewrite Hd, Hz. simpl.
    rewrite Before_irrefl. split; reflexivity.
Qed.

Local Close Scope Z_scope.

(** ** Further properties of the storage, the menu and the editors *)

(** ** Properties of a VTODO *)

Lemma GetProperty_SetProperty_eq props name value :
  Value <$> GetProperty (SetProperty props name value) name = Some value.
Proof.
  unfold GetProperty. induction props as [|p r IH]; simpl.
  - rewrite String.eqb_refl. reflexivity.
  - destruct (String.eqb (IANAToken p) name) eqn:E; simpl; rewrite E; [reflexivity|exact IH].
Qed.

Lemma GetProperty_SetProperty_ne props name value other :
  other <> name ->
  GetProperty (SetProperty props name value) other = GetProperty props other.
Proof.
  intros Hne. unfold GetProperty. induction props as [|p r IH]; simpl.
  - replace (String.eqb name other) with false; [reflexivity|].
    symmetry. apply String.eqb_neq. congruence.
  - destruct (String.eqb (IANAToken p) name) eqn:E; simpl.
    + apply String.eqb_eq in E.
      replace (String.eqb (IANAToken p) other) with false; [reflexivity|].
      symmetry. apply String.eqb_neq. congruence.
    + destruct (String.eqb (IANAToken p) other); [reflexivity|exact IH].
Qed.

Lemma GetProperty_removeProperty_ne props name other :
  other <> name ->
  GetProperty (removeProperty props name) other = GetProperty props other.
Proof.
  intros Hne. unfold GetProperty. induction props as [|p r IH]; simpl; [reflexivity|].
  destruct (String.eqb (IANAToken p) name) eqn:E; simpl.
  - apply String.eqb_eq in E.
    replace (String.eqb (IANAToken p) other) with false; [reflexivity|].
    symmetry. apply String.eqb_neq. congruence.
  - destruct (String.eqb (IANAToken p) other); [reflexivity|exact IH].
Qed.

Lemma GetProperty_None props name :
  GetProperty props name = None <-> ~ In name (List.map IANAToken props).
Proof.
  unfold GetProperty. induction props as [|p r IH]; simpl; [tauto|].
  destruct (String.eqb (IANAToken p) name) eqn:E.
  - apply String.eqb_eq in E. split; [discriminate|]. intros H. exfalso. apply H. left. exact E.
  - apply String.eqb_neq in E. rewrite IH. tauto.
Qed.

Lemma GetProperty_removeProperty_eq props name :
  List.NoDup (List.map IANAToken props) ->
  GetProperty (removeProperty props name) name = None.
Proof.
  intros ND. apply GetProperty_None.
  induction props as [|p r IH]; simpl; [tauto|].
  simpl in ND. apply NoDup_cons_iff in ND as [Hp ND].
  destruct (String.eqb (IANAToken p) name) eqn:E.
  - apply String.eqb_eq in E. subst name. exact Hp.
  - apply String.eqb_neq in E. simpl. intros [H|H]; [congruence|]. exact (IH ND H).
Qed.

Lemma SetProperty_names props name value x :
  In x (List.map IANAToken (SetProperty props name value)) ->
  x = name \/ In x (List.map IANAToken props).
Proof.
  induction props as [|p r IH]; simpl.
  - intros [<-|[]]. left. reflexivity.
  - destruct (String.eqb (IANAToken p) name); simpl; [tauto|].
    intros [H|H]; [tauto|]. destruct (IH H); tauto.
Qed.

Lemma NoDup_SetProperty props name value :
  List.NoDup (List.map IANAToken props) ->
  List.NoDup (List.map IANAToken (SetProperty props name value)).
Proof.
  induction props as [|p r IH]; simpl; intros ND.
  - repeat constructor. tauto.
  - apply NoDup_cons_iff in ND as [Hp ND].
    destruct (String.eqb (IANAToken p) name) eqn:E; simpl.
    + constructor; assumption.
    + apply String.eqb_neq in E. constructor; [|exact (IH ND)].
      intros H. destruct (SetProperty_names _ _ _ _ H); [congruence|tauto].
Qed.

Lemma removeProperty_incl props name :
  incl (List.map IANAToken (removeProperty props name)) (List.map IANAToken props).
Proof.
  induction props as [|p r IH]; simpl; [apply incl_refl|].
  destruct (String.eqb (IANAToken p) name); [apply incl_tl, incl_refl|].
  simpl. apply incl_cons; [left; reflexivity|apply incl_tl; exact IH].
Qed.

Lemma NoDup_removeProperty props name :
  List.NoDup (List.map IANAToken props) ->
  List.NoDup (List.map IANAToken (removeProperty props name)).
Proof.
  induction props as [|p r IH]; simpl; intros ND; [exact ND|].
  apply NoDup_cons_iff in ND as [Hp ND].
  destruct (String.eqb (IANAToken p) name); [exact ND|].
  simpl. constructor; [|exact (IH ND)].
  intros H. apply Hp. exact (removeProperty_incl r name _ H).
Qed.

Lemma NoDup_setPropertyIfNotEmpty props name value :
  List.NoDup (List.map IANAToken props) ->
  List.NoDup (List.map IANAToken (setPropertyIfNotEmpty props name value)).
Proof.
  intros ND. unfold setPropertyIfNotEmpty.
  destruct (negb _); [apply NoDup_SetProperty|apply NoDup_removeProperty]; exact ND.
Qed.

Lemma GetProperty_setPropertyIfNotEmpty_ne props name value other :
  other <> name ->
  GetProperty (setPropertyIfNotEmpty props name value) other = GetProperty props other.
Proof.
  intros Hne. unfold setPropertyIfNotEmpty.
  destruct (negb _);
    [apply GetProperty_SetProperty_ne|apply GetProperty_removeProperty_ne]; exact Hne.
Qed.

(** The value a managed property has after it was written: the field when
    it is not empty, no property otherwise. *)
Lemma GetProperty_setPropertyIfNotEmpty_eq props name value :
  List.NoDup (List.map IANAToken props) ->
  Value <$> GetProperty (setPropertyIfNotEmpty props name value) name
  = if String.eqb value "" then None else Some value.
Proof.
  intros ND. unfold setPropertyIfNotEmpty.
  destruct (String.eqb value ""); simpl.
  - rewrite GetProperty_removeProperty_eq by exact ND. reflexivity.
  - apply GetProperty_SetProperty_eq.
Qed.


Lemma serialize_nonempty t : String.eqb (serialize t) "" = false.
Proof.
  pose proof (serialize_suffix t) as H.
  destruct (serialize t); [discriminate H|reflexivity].
Qed.

Lemma GetProperty_cond_ne (b : bool) props name value other :
  other <> name ->
  GetProperty (if b then setPropertyIfNotEmpty props name value
               else removeProperty props name) other
  = GetProperty props other.
Proof.
  intros Hne.
  destruct b; [apply GetProperty_setPropertyIfNotEmpty_ne|apply GetProperty_removeProperty_ne];
    exact Hne.
Qed.

Lemma GetProperty_cond_eq (b : bool) props name value :
  List.NoDup (List.map IANAToken props) ->
  Value <$> GetProperty (if b then setPropertyIfNotEmpty props name value
                         else removeProperty props name) name
  = if b && negb (String.eqb value "") then Some value else None.
Proof.
  intros ND. destruct b; simpl.
  - rewrite GetProperty_setPropertyIfNotEmpty_eq by exact ND.
    destruct (String.eqb value ""); reflexivity.
  - rewrite GetProperty_removeProperty_eq by exact ND. reflexivity.
Qed.

Lemma NoDup_cond (b : bool) props name value :
  List.NoDup (List.map IANAToken props) ->
  List.NoDup (List.map IANAToken (if b then setPropertyIfNotEmpty props name value
                                  else removeProperty props name)).
Proof.
  intros ND. destruct b; [apply NoDup_setPropertyIfNotEmpty|apply NoDup_removeProperty];
    exact ND.
Qed.

Lemma GetProperty_unless_ne props name value other :
  other <> name ->
  GetProperty (match GetProperty props name with
               | None => setPropertyIfNotEmpty props name value
               | Some _ => props
               end) other
  = GetProperty props other.
Proof.
  intros Hne. destruct (GetProperty props name); [reflexivity|].
  apply GetProperty_setPropertyIfNotEmpty_ne. exact Hne.
Qed.

Lemma GetProperty_unless_eq props name value :
  List.NoDup (List.map IANAToken props) ->
  Value <$> GetProperty (match GetProperty props name with
                         | None => setPropertyIfNotEmpty props name value
                         | Some _ => props
                         end) name
  = match GetProperty props name with
    | Some p => Some (Value p)
    | None => if String.eqb value "" then None else Some value
    end.
Proof.
  intros ND. destruct (GetProperty props name) as [p|] eqn:E.
  - rewrite E. reflexivity.
  - apply GetProperty_setPropertyIfNotEmpty_eq. exact ND.
Qed.

Ltac names_distinct := compute; discriminate.

Ltac unique_names ND :=
  repeat first
    [ exact ND
    | apply NoDup_cond
    | apply NoDup_setPropertyIfNotEmpty ].

Ltac peel :=
  repeat first
    [ rewrite GetProperty_unless_ne by names_distinct
    | rewrite GetProperty_cond_ne by names_distinct
    | rewrite GetProperty_setPropertyIfNotEmpty_ne by names_distinct ].

(** What [writeFields] leaves in a VTODO whose property names are unique:
    each managed property holds the field when the field is set and is
    absent otherwise; CREATED is written only when the VTODO has none. *)
Lemma writeFields_values todo vtodo :
  List.NoDup (List.map IANAToken vtodo) ->
  let v := writeFields todo vtodo in
  Value <$> GetProperty v ComponentPropertySummary
  = (if String.eqb (Summary todo) "" then None else Some (Summary todo)) /\
  Value <$> GetProperty v ComponentPropertyDescription
  = (if String.eqb (Description todo) "" then None else Some (Description todo)) /\
  Value <$> GetProperty v ComponentPropertyStatus
  = (if String.eqb (Status todo) "" then None else Some (Status todo)) /\
  Value <$> GetProperty v ComponentPropertyLastModified = Some (serialize (LastMod todo)) /\
  Value <$> GetProperty v ComponentPropertyDtStart
  = (if IsZero (StartDate todo) then None else Some (serialize (StartDate todo))) /\
  Value <$> GetProperty v ComponentPropertyDue
  = (if IsZero (DueDate todo) then None else Some (serialize (DueDate todo))) /\
  Value <$> GetProperty v ComponentPropertyPriority
  = (if (0 <? Priority todo)%Z && negb (String.eqb (GoStrconv.Itoa (Priority todo)) "")
     then Some (GoStrconv.Itoa (Priority todo)) else None) /\
  Value <$> GetProperty v ComponentPropertyCategories
  = (if (0 <? length (Categories todo))%nat
        && negb (String.eqb (GoStrings.Join (Categories todo) ",") "")
     then Some (GoStrings.Join (Categories todo) ",") else None) /\
  Value <$> GetProperty v ComponentPropertyCreated
  = match GetProperty vtodo ComponentPropertyCreated with
    | Some created => Some (Value created)
    | None => Some (serialize (Created todo))
    end.
Proof.
  intros ND v. subst v. unfold writeFields. cbv zeta.
  repeat split.
  - peel. apply GetProperty_setPropertyIfNotEmpty_eq. exact ND.
  - peel. apply GetProperty_setPropertyIfNotEmpty_eq. unique_names ND.
  - peel. apply GetProperty_setPropertyIfNotEmpty_eq. unique_names ND.
  - peel. rewrite GetProperty_setPropertyIfNotEmpty_eq by unique_names ND.
    rewrite serialize_nonempty. reflexivity.
  - peel. rewrite GetProperty_cond_eq by unique_names ND.
    rewrite serialize_nonempty. destruct (IsZero _); reflexivity.
  - peel. rewrite GetProperty_cond_eq by unique_names ND.
    rewrite serialize_nonempty. destruct (IsZero _); reflexivity.
  - peel. apply GetProperty_cond_eq. unique_names ND.
  - peel. apply GetProperty_cond_eq. unique_names ND.
  - rewrite GetProperty_unless_eq by unique_names ND.
    peel. rewrite serialize_nonempty. reflexivity.
Qed.


(** ** Decimal numbers and comma-separated lists read back *)














(** ** Saving a task and loading it again *)





(** ** Saving a store *)

Lemma saveLoop_clean dirPath ps :
  forall w,
    Forall (fun q => exists t, heap w !! q = Some t /\ Modified t = false) ps ->
    saveLoop dirPath ps w = Returns None w.
Proof.
  induction ps as [|p rest IH]; intros w H; [reflexivity|].
  apply Forall_cons_iff in H as [(t & Hp & Hm) Hrest].
  cbn [saveLoop]. unfold bind, deref. rewrite Hp, Hm. cbn [negb].
  apply IH. exact Hrest.
Qed.

Lemma Modified_step {A} (o : option A) (g : A -> Todo) (t : Todo) :
  (forall a, Modified (g a) = Modified t) ->
  Modified (match o with Some a => g a | None => t end) = Modified t.
Proof. intros H. destruct o; [apply H|reflexivity]. Qed.

(** A task that was just loaded is not dirty. *)
Lemma convert_clean vtodo : Modified (convertVTodoToTodo vtodo) = false.
Proof.
  unfold convertVTodoToTodo. cbv zeta.
  repeat (rewrite Modified_step by (intros; reflexivity)).
  destruct (GetProperty vtodo ComponentPropertyStatus); cbn [Modified setStatus].
  all: repeat (rewrite Modified_step by (intros; reflexivity)).
  all: reflexivity.
Qed.

Lemma loadedTodos_clean fs dirPath names :
  Forall (fun t => Modified t = false) (loadedTodos fs dirPath names).
Proof.
  unfold loadedTodos. apply Forall_concat. apply Forall_forall. intros l Hl.
  apply list_elem_of_In, in_map_iff in Hl as (name & <- & _).
  destruct (GoStrings.HasSuffix name ".ics"); [|constructor].
  destruct (loadICSFile fs (dirPath, name)) as [cal|]; [|constructor].
  unfold todosOf. induction (Components cal) as [|c r IH]; [constructor|].
  cbn [omap list_omap]. destruct c; [|exact IH].
  constructor; [apply convert_clean|exact IH].
Qed.

(** X3.  Loading dirties nothing: a save that follows a load at once
    reports no error, writes no file and changes no task. *)
Theorem load_then_save_writes_nothing (dirPath saveDir : string) (w w1 : World) :
  loadTodos dirPath w = Returns false w1 ->
  saveTodos saveDir w1 = Returns None w1.
Proof.
  unfold loadTodos. destruct (os_ReadDir (disk w) dirPath) as [names|]; [|discriminate].
  intros [= <-]. unfold saveTodos. cbn [Todos setTodos setHeap].
  apply saveLoop_clean. cbn [heap setTodos setHeap].
  pose proof (loadedTodos_clean (disk w) dirPath names) as C.
  apply Forall_forall. intros q Hq.
  apply list_elem_of_In, in_seq in Hq.
  destruct (lookup_lt_is_Some_2 (loadedTodos (disk w) dirPath names) (q - length (heap w)))
    as [t Ht]; [lia|].
  exists t. split.
  - rewrite lookup_app_r by lia. exact Ht.
  - rewrite Forall_forall in C. apply C. eapply list_elem_of_lookup_2. exact Ht.
Qed.

(** X4.  After a save without error a second save has nothing to do: it
    reports no error and leaves the tasks and the disk as they are. *)
Theorem save_twice (dirPath : string) (w w' : World) :
  wfStore w ->
  saveTodos dirPath w = Returns None w' ->
  saveTodos dirPath w' = Returns None w'.
Proof.
  intros Hwf E. unfold saveTodos in *.
  destruct (saveLoop_spec dirPath (Todos w) w Hwf) as (e & w2 & E2 & ST & _ & _ & _ & _ & SS).
  rewrite E in E2. injection E2 as <- <-.
  rewrite ST. apply saveLoop_clean.
  apply Forall_forall. intros q Hq. apply list_elem_of_In in Hq.
  unfold wfStore in Hwf. rewrite Forall_forall in Hwf.
  destruct (Hwf q) as [t Ht]; [apply list_elem_of_In; exact Hq|].
  exists (setModified false t). split; [|reflexivity].
  apply SS; [reflexivity|exact Hq|exact Ht].
Qed.



(** ** The menu: sorting *)

Lemma insertLeft_Permutation {A} (lt : A -> A -> bool) x l :
  Permutation (insertLeft lt x l) (x :: l).
Proof.
  induction l as [|y r IH]; simpl; [reflexivity|].
  destruct (lt x y); [|reflexivity].
  rewrite IH. apply perm_swap.
Qed.

Lemma sortSlice_Permutation {A} (lt : A -> A -> bool) l :
  Permutation (sortSlice lt l) l.
Proof.
  unfold sortSlice.
  assert (G : forall acc, Permutation
                (fold_left (fun rprefix x => insertLeft lt x rprefix) l acc) (l ++ acc)).
  { induction l as [|x r IH]; intros acc; simpl; [reflexivity|].
    rewrite IH, insertLeft_Permutation. symmetry. apply Permutation_middle. }
  rewrite <- Permutation_rev. rewrite G, app_nil_r. reflexivity.
Qed.

Section Sorting.
Context {A : Type} (lt : A -> A -> bool) (ok : A -> Prop).
Hypothesis lt_asym : forall a b, ok a -> ok b -> lt a b = true -> lt b a = false.
Hypothesis lt_negtrans :
  forall a b c, ok a -> ok b -> ok c -> lt a b = false -> lt b c = false -> lt a c = false.

Lemma insertLeft_In x l y : In y (insertLeft lt x l) -> y = x \/ In y l.
Proof.
  intros H. apply (Permutation_in _ (insertLeft_Permutation lt x l)) in H.
  destruct H; auto.
Qed.

Lemma insertLeft_descending x l :
  ok x -> Forall ok l -> descending lt l -> descending lt (insertLeft lt x l).
Proof.
  intros Hx. induction l as [|y r IH]; intros Hl Hs.
  - simpl. split; [constructor|exact I].
  - apply Forall_cons_iff in Hl as [Hoy Hor]. destruct Hs as [Hy Hr].
    cbn [insertLeft]. destruct (lt x y) eqn:E.
    + split; [|apply IH; assumption].
      apply List.Forall_forall. intros z Hz.
      destruct (insertLeft_In _ _ _ Hz) as [->|Hz'].
      * apply lt_asym; assumption.
      * rewrite List.Forall_forall in Hy. apply Hy. exact Hz'.
    + split; [|split; assumption].
      constructor; [exact E|].
      apply List.Forall_forall. intros z Hz.
      rewrite List.Forall_forall in Hy.
      apply (lt_negtrans x y z); auto.
      rewrite Forall_forall in Hor. apply Hor. apply list_elem_of_In. exact Hz.
Qed.

Lemma fold_insertLeft_descending l :
  forall acc, Forall ok l -> Forall ok acc -> descending lt acc ->
              descending lt (fold_left (fun rprefix x => insertLeft lt x rprefix) l acc).
Proof.
  induction l as [|x r IH]; intros acc Hl Ha Hs; [exact Hs|].
  apply Forall_cons_iff in Hl as [Hx Hr]. simpl. apply IH; [exact Hr| |].
  - apply Forall_forall. intros z Hz. apply list_elem_of_In in Hz.
    destruct (insertLeft_In _ _ _ Hz) as [->|Hz']; [exact Hx|].
    rewrite Forall_forall in Ha. apply Ha. apply list_elem_of_In. exact Hz'.
  - apply insertLeft_descending; assumption.
Qed.

(** In the sorted slice no element is less than one that precedes it. *)
Lemma sortSlice_sorted l i j a b :
  Forall ok l ->
  sortSlice lt l !! i = Some a -> sortSlice lt l !! j = Some b -> i < j ->
  lt b a = false.
Proof.
  intros Hl Hi Hj Hij. unfold sortSlice in *.
  pose proof (fold_insertLeft_descending l [] Hl (Forall_nil_2 _) I) as D.
  set (r := fold_left _ l []) in *. clearbody r.
  assert (G : forall (r : list A), descending lt r ->
              forall i j a b, rev r !! i = Some a -> rev r !! j = Some b -> i < j ->
                              lt b a = false).
  { clear. intros r. induction r as [|y r IH]; intros D i j a b Hi Hj Hij.
    - simpl in Hi. rewrite lookup_nil in Hi. discriminate.
    - destruct D as [Hy Hr]. specialize (IH Hr). simpl in Hi, Hj.
      assert (Hlen : j < length (rev r ++ [y])) by (eapply lookup_lt_Some; exact Hj).
      rewrite length_app in Hlen. simpl in Hlen.
      destruct (decide (j < length (rev r))) as [Hlt|Hge].
      + rewrite lookup_app_l in Hi by lia. rewrite lookup_app_l in Hj by lia.
        eapply IH; eassumption.
      + assert (j = length (rev r)) by lia. subst j.
        rewrite lookup_app_l in Hi by lia.
        rewrite list_lookup_middle in Hj by reflexivity. injection Hj as <-.
        rewrite List.Forall_forall in Hy. apply Hy.
        apply in_rev. apply list_elem_of_In. eapply list_elem_of_lookup_2. exact Hi. }
  eapply G; eassumption.
Qed.

End Sorting.

Local Open Scope Z_scope.

Lemma Before_spec t u :
  Before t u = true <->
  wallSec t < wallSec u \/ (wallSec t = wallSec u /\ nsec t < nsec u).
Proof.
  unfold Before. rewrite orb_true_iff, andb_true_iff, !Z.ltb_lt, Z.eqb_eq. reflexivity.
Qed.

Lemma Before_asym t u : Before t u = true -> Before u t = false.
Proof.
  intros H. apply Before_spec in H. apply not_true_is_false. rewrite Before_spec. lia.
Qed.

Lemma Before_negtrans t u v :
  Before t u = false -> Before u v = false -> Before t v = false.
Proof.
  intros H1 H2. apply not_true_iff_false in H1, H2. rewrite Before_spec in H1, H2.
  apply not_true_is_false. rewrite Before_spec. lia.
Qed.

Lemma IsZero_Before t u : IsZero t = true -> IsZero u = true -> Before t u = false.
Proof.
  unfold IsZero. rewrite !andb_true_iff, !Z.eqb_eq. intros [A1 A2] [B1 B2].
  apply not_true_is_false. rewrite Before_spec. lia.
Qed.

(** Steps 3 and 4 of the comparator, for two tasks without due date. *)
Lemma less_undated a b :
  IsZero (DueDate a) = true -> IsZero (DueDate b) = true ->
  (less a b = true <->
   (Priority a <> Priority b /\ Priority a <> 0 /\ (Priority b = 0 \/ Priority a < Priority b))
   \/ (Priority a = Priority b /\ Before (Created b) (Created a) = true)).
Proof.
  intros Ha Hb. unfold less, After. rewrite Ha, Hb. cbn [negb andb].
  destruct (Z.eqb_spec (Priority a) (Priority b)); cbn [negb]; [intuition lia|].
  destruct (Z.eqb_spec (Priority a) 0); [intuition (try discriminate; lia)|].
  destruct (Z.eqb_spec (Priority b) 0); [intuition lia|].
  rewrite Z.ltb_lt. intuition lia.
Qed.

Lemma less_dated a b :
  IsZero (DueDate a) = false -> IsZero (DueDate b) = false ->
  less a b = Before (DueDate a) (DueDate b).
Proof. intros Ha Hb. unfold less. rewrite Ha, Hb. reflexivity. Qed.

Lemma less_dated_undated a b :
  IsZero (DueDate a) = false -> IsZero (DueDate b) = true ->
  less a b = true /\ less b a = false.
Proof. intros Ha Hb. unfold less. rewrite Ha, Hb. split; reflexivity. Qed.

(** The comparator is a strict weak order: it is asymmetric, and being not
    less is transitive. *)
Lemma less_asym a b : less a b = true -> less b a = false.
Proof.
  destruct (IsZero (DueDate a)) eqn:Ha, (IsZero (DueDate b)) eqn:Hb.
  - intros H. apply (less_undated a b Ha Hb) in H.
    apply not_true_is_false. rewrite (less_undated b a Hb Ha).
    intros [K|[K1 K2]]; destruct H as [H|[H1 H2]]; try lia.
    apply Before_asym in H2. congruence.
  - destruct (less_dated_undated b a Hb Ha). congruence.
  - destruct (less_dated_undated a b Ha Hb). congruence.
  - rewrite !less_dated by assumption. apply Before_asym.
Qed.

Lemma less_negtrans a b c : less a b = false -> less b c = false -> less a c = false.
Proof.
  destruct (IsZero (DueDate a)) eqn:Ha, (IsZero (DueDate b)) eqn:Hb,
           (IsZero (DueDate c)) eqn:Hc.
  - intros H1 H2. apply not_true_iff_false in H1, H2.
    rewrite (less_undated _ _ Ha Hb) in H1. rewrite (less_undated _ _ Hb Hc) in H2.
    apply not_true_is_false. rewrite (less_undated _ _ Ha Hc).
    destruct (Before (Created b) (Created a)) eqn:B1;
      destruct (Before (Created c) (Created b)) eqn:B2;
      destruct (Before (Created c) (Created a)) eqn:B3;
      try (intuition (try discriminate; lia)).
    destruct (Z.eq_dec (Priority a) (Priority b)); [|intuition (try discriminate; lia)].
    destruct (Z.eq_dec (Priority b) (Priority c)); [|intuition (try discriminate; lia)].
    pose proof (Before_negtrans _ _ _ B2 B1). congruence.
  - intros _ _. destruct (less_dated_undated c a Hc Ha). assumption.
  - intros _ H. destruct (less_dated_undated b c Hb Hc). congruence.
  - intros _ _. destruct (less_dated_undated c a Hc Ha). assumption.
  - intros H. destruct (less_dated_undated a b Ha Hb). congruence.
  - intros H. destruct (less_dated_undated a b Ha Hb). congruence.
  - intros _ H. destruct (less_dated_undated b c Hb Hc). congruence.
  - rewrite !less_dated by assumption. apply Before_negtrans.
Qed.

Local Close Scope Z_scope.

Lemma lessPtr_asym h p q :
  is_Some (h !! p) -> is_Some (h !! q) -> lessPtr h p q = true -> lessPtr h q p = false.
Proof.
  intros [a Ha] [b Hb]. unfold lessPtr. rewrite Ha, Hb. apply less_asym.
Qed.

Lemma lessPtr_negtrans h p q r :
  is_Some (h !! p) -> is_Some (h !! q) -> is_Some (h !! r) ->
  lessPtr h p q = false -> lessPtr h q r = false -> lessPtr h p r = false.
Proof.
  intros [a Ha] [b Hb] [c Hc]. unfold lessPtr. rewrite Ha, Hb, Hc. apply less_negtrans.
Qed.

Lemma createMenu_returns showCompleted w :
  createMenu showCompleted w
  = Returns
      (renderFrom showCompleted (toLocal (clock w (ticks w))) (heap w) 0
         (sortSlice (lessPtr (heap w)) (Todos w))
         (if negb showCompleted
          then "Add Item" +:+ nl +:+ "View Completed Items" +:+ nl
          else "Delete All Completed" +:+ nl, ∅))
      (mkWorld (heap w) (sortSlice (lessPtr (heap w)) (Todos w)) (disk w) (launcher w)
         (clock w) (S (ticks w))).
Proof. reflexivity. Qed.

(** X6.  [createMenu] sorts the store in place and touches nothing else:
    the slice afterwards is a permutation of the slice before, the tasks,
    the disk and the pending replies are unchanged, and no task stands
    behind a task that the comparator puts after it. *)
Theorem createMenu_sorts_in_place (showCompleted : bool) (w : World) :
  wfStore w ->
  exists menu w',
    createMenu showCompleted w = Returns menu w' /\
    Permutation (Todos w') (Todos w) /\
    heap w' = heap w /\ disk w' = disk w /\ launcher w' = launcher w /\
    forall i j p q a b,
      i < j -> Todos w' !! i = Some p -> Todos w' !! j = Some q ->
      heap w !! p = Some a -> heap w !! q = Some b ->
      less b a = false.
Proof.
  intros Hwf. rewrite createMenu_returns. eexists _, _. split; [reflexivity|].
  cbn [Todos heap disk launcher].
  split; [apply sortSlice_Permutation|]. do 3 (split; [reflexivity|]).
  intros i j p q a b Hij Hi Hj Ha Hb.
  pose proof (sortSlice_sorted (lessPtr (heap w)) (fun p => is_Some (heap w !! p))
                (lessPtr_asym (heap w)) (lessPtr_negtrans (heap w))
                (Todos w) i j p q Hwf Hi Hj Hij) as S.
  unfold lessPtr in S. rewrite Ha, Hb in S. exact S.
Qed.

(** ** The menu: lines and their tasks *)

Lemma renderFrom_sound showCompleted now h ps :
  forall i acc line k,
    (renderFrom showCompleted now h i ps acc).2 !! line = Some k ->
    acc.2 !! line = Some k \/
    exists p t, i <= k /\ ps !! (k - i) = Some p /\ h !! p = Some t /\
                renderLine t = line /\ shown showCompleted now t = true.
Proof.
  induction ps as [|p rest IH]; intros i acc line k H; [left; exact H|].
  cbn [renderFrom] in H. destruct (h !! p) as [todo|] eqn:Hp; [|left; exact H].
  apply IH in H. destruct H as [H|(q & t & Hk & Hq & Ht & Hl & Hs)].
  - destruct (shown showCompleted now todo) eqn:Hs; [|left; exact H].
    cbn [snd] in H. destruct (decide (renderLine todo = line)) as [E|E].
    + rewrite E, lookup_insert_eq in H. injection H as <-.
      right. exists p, todo. rewrite Nat.sub_diag. auto.
    + rewrite lookup_insert_ne in H by exact E. left. exact H.
  - right. exists q, t. split; [lia|].
    replace (k - i) with (S (k - S i)) by lia. auto.
Qed.

Lemma renderFrom_complete showCompleted now h ps :
  forall i acc,
    Forall (fun q => is_Some (h !! q)) ps ->
    (forall line, is_Some (acc.2 !! line) ->
                  is_Some ((renderFrom showCompleted now h i ps acc).2 !! line)) /\
    (forall p t, In p ps -> h !! p = Some t -> shown showCompleted now t = true ->
                 is_Some ((renderFrom showCompleted now h i ps acc).2 !! renderLine t)).
Proof.
  induction ps as [|p rest IH]; intros i acc Hwf.
  { split; [auto|]. intros p t []. }
  apply Forall_cons_iff in Hwf as [[todo Hp] Hrest].
  cbn [renderFrom]. rewrite Hp.
  set (acc' := if shown showCompleted now todo then _ else acc).
  destruct (IH (S i) acc' Hrest) as [K1 K2].
  assert (M : forall line, is_Some (acc.2 !! line) -> is_Some (acc'.2 !! line)).
  { intros line Hl. subst acc'. destruct (shown showCompleted now todo); [|exact Hl].
    cbn [snd]. destruct (decide (renderLine todo = line)) as [E|E].
    - rewrite E, lookup_insert_eq. eauto.
    - rewrite lookup_insert_ne by exact E. exact Hl. }
  split; [intros line Hl; apply K1, M, Hl|].
  intros q t [<-|Hin] Hq Hs; [|eapply K2; eassumption].
  rewrite Hp in Hq. injection Hq as <-. apply K1. subst acc'. rewrite Hs.
  cbn [snd]. rewrite lookup_insert_eq. eauto.
Qed.

(** X7.  The lookup table of a menu is sound and complete: a line of the
    table leads, through the index stored for it, to a task of the sorted
    store that is shown in this menu and is rendered as that very line, and
    this is the task [selectedTodo] hands to the editor; and every task of
    the store that is shown has its line in the table. *)
Theorem menu_line_selects_its_task (showCompleted : bool) (w w' : World)
  (text : string) (m : gmap string nat) :
  wfStore w ->
  createMenu showCompleted w = Returns (text, m) w' ->
  (forall line i,
     m !! line = Some i ->
     exists p t,
       Todos w' !! i = Some p /\ heap w' !! p = Some t /\ renderLine t = line /\
       shown showCompleted (toLocal (clock w (ticks w))) t = true /\
       selectedTodo m line w' = Returns p w') /\
  (forall p t,
     In p (Todos w) -> heap w !! p = Some t ->
     shown showCompleted (toLocal (clock w (ticks w))) t = true ->
     is_Some (m !! renderLine t)).
Proof.
  intros Hwf. rewrite createMenu_returns. intros [= E <-].
  set (r := renderFrom _ _ _ _ _ _) in E.
  assert (Em : m = r.2) by (rewrite E; reflexivity). clear E. subst m r.
  split.
  - intros line i H. pose proof H as H0. apply renderFrom_sound in H0.
    destruct H0 as [H0|(p & t & _ & Hi & Ht & Hl & Hs)].
    { cbn [snd] in H0. rewrite lookup_empty in H0. discriminate. }
    rewrite Nat.sub_0_r in Hi. exists p, t. cbn [Todos heap].
    do 4 (split; [assumption|]).
    unfold selectedTodo. cbn [Todos]. rewrite H. change (default 0 (Some i)) with i. rewrite Hi. reflexivity.
  - intros p t Hin Hp Hs.
    eapply renderFrom_complete; [| |exact Hp|exact Hs].
    + eapply Permutation_Forall; [symmetry; apply sortSlice_Permutation|exact Hwf].
    + eapply Permutation_in; [symmetry; apply sortSlice_Permutation|exact Hin].
Qed.

(** X8.  Text that is no line of the main menu is looked up in the table
    all the same: the missing key reads as index 0, so the editor opens on
    the first task of the sorted store, and on an empty store the index is
    out of range and the program stops. *)
Theorem unlisted_text_selects_first (fuel : nat) (w w1 : World)
  (text out : string) (m : gmap string nat) (rest : list Reply) :
  createMenu false w = Returns (text, m) w1 ->
  launcher w = Output out :: rest ->
  GoStrings.TrimRightNewlines out <> "Add Item"%string ->
  GoStrings.TrimRightNewlines out <> "View Completed Items"%string ->
  GoStrings.TrimRightNewlines out <> ""%string ->
  m !! GoStrings.TrimRightNewlines out = None ->
  mainLoop (S fuel) w
  = match Todos w1 with
    | [] => Exits
    | p :: _ => bind (editItem p) (fun _ => mainLoop fuel) (setLauncher rest w1)
    end.
Proof.
  intros Hc Hl H1 H2 H3 Hm.
  cbn [mainLoop]. unfold bind at 1. rewrite Hc.
  rewrite createMenu_returns in Hc. injection Hc as _ <-.
  unfold bind at 1. unfold display. cbn [launcher]. rewrite Hl.
  apply String.eqb_neq in H1, H2, H3. rewrite H1, H2, H3. cbn [negb].
  unfold bind at 1. unfold selectedTodo. cbn [Todos setLauncher]. rewrite Hm.
  change (default 0 None) with 0.
  destruct (sortSlice (lessPtr (heap w)) (Todos w)) as [|p l]; reflexivity.
Qed.

(** ** Deleting the completed tasks *)




(** ** Adding and editing *)

(** "Save item" ends the edit with the task dirty and its modification time
    read from the clock. *)
Lemma editItem_save p w todo sel rest :
  heap w !! p = Some todo ->
  launcher w = Output sel :: rest ->
  GoStrings.TrimRightNewlines sel = "Save item"%string ->
  editItem p w
  = Returns Saved
      (mkWorld (<[p := setLastMod (toLocal (clock w (ticks w))) (setModified true todo)]> (heap w))
               (Todos w) (disk w) rest (clock w) (S (ticks w))).
Proof.
  intros Hp Hl Hs. unfold editItem. rewrite Hl. cbn [length editLoop].
  unfold bind at 1. unfold deref at 1. rewrite Hp.
  unfold bind at 1. unfold deref at 1. rewrite Hp.
  unfold bind at 1. unfold display at 1. rewrite Hl, Hs.
  unfold bind at 1. unfold editAction.
  change (String.eqb "Save item" "Save item") with true. cbv iota.
  unfold bind at 1. unfold bind at 1. unfold time_Now at 1.
  unfold bind at 1. unfold update.
  cbn [heap Todos disk launcher clock ticks setLauncher]. rewrite Hp.
  reflexivity.
Qed.

(** X10.  A title followed by "Save item" adds one task at the end of the
    store: its UID is the decimal Unix time in nanoseconds read first, it
    carries the title, status NEEDS-ACTION and priority 0, it is dirty, and
    its creation time is the second reading of the clock; five readings are
    taken in all, the last one for the modification time.  The other tasks
    and the disk are untouched. *)
Theorem add_item_appends_dirty_task (w : World) (title sel : string) (rest : list Reply) :
  launcher w = Output title :: Output sel :: rest ->
  GoStrings.TrimRightNewlines title <> ""%string ->
  GoStrings.TrimRightNewlines sel = "Save item"%string ->
  addItem w
  = Returns tt
      (mkWorld
         (heap w ++
          [mkTodo (GoStrconv.Itoa (UnixNano (toLocal (clock w (ticks w)))))
                  (GoStrings.TrimRightNewlines title) "" [] "NEEDS-ACTION"
                  (toLocal (clock w (1 + ticks w)))
                  (toLocal (clock w (4 + ticks w)))
                  zeroTime 0 zeroTime true])
         (Todos w ++ [length (heap w)]) (disk w) rest (clock w) (5 + ticks w)).
Proof.
  intros Hl Ht Hs. apply String.eqb_neq in Ht.
  rewrite (addItem_begin w _ _ Hl). cbv zeta. rewrite Ht. cbn [negb].
  unfold afterTitle. set (t0 := setSummary _ _).
  set (w0 := mkWorld _ _ _ _ _ _).
  assert (H0 : heap w0 !! length (heap w) = Some t0).
  { subst w0. cbn [heap]. rewrite lookup_app_r by lia.
    rewrite Nat.sub_diag. reflexivity. }
  unfold bind at 1.
  rewrite (editItem_save _ _ t0 sel rest H0 eq_refl Hs).
  subst w0. cbn [heap Todos disk launcher clock ticks].
  rewrite (insert_app_r_alt (heap w)) by lia. rewrite Nat.sub_diag. cbn [list_insert insert].
  unfold bind at 1. unfold deref. cbn [heap].
  rewrite (lookup_app_r (heap w)) by lia. rewrite Nat.sub_diag. cbn [lookup list_lookup].
  subst t0. cbn [Summary Modified setSummary setLastMod setModified setStatus setCreated emptyTodo].
  rewrite Ht. cbn [negb andb].
  unfold bind, time_Now, update, getTodos, putTodos.
  cbn [heap Todos disk launcher clock ticks setHeap setTodos].
  rewrite (lookup_app_r (heap w)) by lia. rewrite Nat.sub_diag. cbn [lookup list_lookup].
  rewrite (insert_app_r_alt (heap w)) by lia. rewrite Nat.sub_diag. cbn [list_insert insert].
  reflexivity.
Qed.

(** X11.  A task without UID (a VTODO stored without one) counts as new in
    the editor, and for a new task cancelling the edit menu reverts nothing:
    a title entered before the cancel stays, and so does the dirty flag, so
    that the task is written at the next save. *)
Theorem cancel_keeps_edits_without_uid (p : nat) (w : World) (todo : Todo)
  (sel tn : string) (rest : list Reply) :
  heap w !! p = Some todo ->
  UID todo = ""%string ->
  launcher w = Output sel :: Output tn :: ExitStatus1 :: rest ->
  GoStrings.HasPrefix (GoStrings.TrimRightNewlines sel) "Title" = true ->
  editItem p w
  = Returns Cancelled
      (setHeap (<[p := setModified true (setSummary (GoStrings.TrimRightNewlines tn) todo)]>
                  (heap w))
               (setLauncher rest w)).
Proof.
  intros Hp Hu Hl Hs.
  assert (Hlt : p < length (heap w)) by (eapply lookup_lt_Some; exact Hp).
  assert (Hn : String.eqb (GoStrings.TrimRightNewlines sel) "Save item" = false).
  { apply String.eqb_neq. intros E. rewrite E in Hs. discriminate Hs. }
  unfold editItem. rewrite Hl. cbn [length editLoop]. run.
  rewrite Hu. change (String.eqb "" "") with true. run.
  unfold editAction. rewrite Hn, Hs. unfold editTitle. run.
  rewrite list_lookup_insert_eq by exact Hlt. run.
  reflexivity.
Qed.

(** ** Categories *)

Lemma descending_lookup {A} (lt : A -> A -> bool) l i j a b :
  descending lt l -> i < j -> l !! i = Some a -> l !! j = Some b -> lt a b = false.
Proof.
  revert i j. induction l as [|x r IH]; intros i j D Hij Hi Hj; [discriminate|].
  destruct D as [Hx Hr]. destruct j as [|j]; [lia|].
  destruct i as [|i].
  - injection Hi as <-. rewrite List.Forall_forall in Hx. apply Hx.
    apply list_elem_of_In. eapply list_elem_of_lookup_2. exact Hj.
  - apply (IH i j); [exact Hr|lia|exact Hi|exact Hj].
Qed.

Lemma string_leb_trans a b c :
  String.leb a b = true -> String.leb b c = true -> String.leb a c = true.
Proof.
  unfold String.leb. revert b c.
  induction a as [|x a IH]; intros [|y b] [|z c]; simpl; try (intros; reflexivity);
    try discriminate.
  unfold Ascii.compare.
  destruct (N.compare_spec (N_of_ascii x) (N_of_ascii y)) as [E1|E1|E1];
    destruct (N.compare_spec (N_of_ascii y) (N_of_ascii z)) as [E2|E2|E2];
    destruct (N.compare_spec (N_of_ascii x) (N_of_ascii z)) as [E3|E3|E3];
    try lia; try discriminate; try (intros; reflexivity).
  apply IH.
Qed.

Lemma insertString_Permutation x l : Permutation (insertString x l) (x :: l).
Proof.
  induction l as [|y r IH]; simpl; [reflexivity|].
  destruct (String.leb x y); [reflexivity|].
  rewrite IH. apply perm_swap.
Qed.

Lemma sortStrings_Permutation l : Permutation (sortStrings l) l.
Proof.
  unfold sortStrings. induction l as [|x r IH]; simpl; [reflexivity|].
  rewrite insertString_Permutation, IH. reflexivity.
Qed.

Lemma insertString_ascending x l :
  descending (fun a b => negb (String.leb a b)) l ->
  descending (fun a b => negb (String.leb a b)) (insertString x l).
Proof.
  induction l as [|y r IH]; intros D.
  - simpl. split; [constructor|exact I].
  - destruct D as [Hy Hr]. cbn [insertString].
    destruct (String.leb x y) eqn:E.
    + split; [|split; assumption].
      constructor; [rewrite E; reflexivity|].
      rewrite List.Forall_forall in Hy |- *. intros z Hz.
      specialize (Hy z Hz). apply negb_false_iff in Hy. apply negb_false_iff.
      eapply string_leb_trans; eassumption.
    + split; [|apply IH; exact Hr].
      rewrite List.Forall_forall in Hy |- *. intros z Hz.
      apply (Permutation_in _ (insertString_Permutation x r)) in Hz.
      destruct Hz as [<-|Hz]; [|apply Hy; exact Hz].
      apply negb_false_iff. destruct (String.leb_total x y); congruence.
Qed.

Lemma sortStrings_ascending l :
  descending (fun a b => negb (String.leb a b)) (sortStrings l).
Proof.
  unfold sortStrings. induction l as [|x r IH]; simpl; [exact I|].
  apply insertString_ascending. exact IH.
Qed.

(** X12.  The categories offered by the Categories sub-editor are exactly
    the categories of the tasks of the store, each once, in ascending byte
    order; reading them changes nothing. *)
Theorem existing_categories_exact (w : World) :
  exists cats,
    getExistingCategories w = Returns cats w /\
    List.NoDup cats /\
    (forall c, In c cats <->
               exists p t, In p (Todos w) /\ heap w !! p = Some t /\ In c (Categories t)) /\
    forall i j a b,
      i < j -> cats !! i = Some a -> cats !! j = Some b -> String.leb a b = true.
Proof.
  unfold getExistingCategories. eexists. split; [reflexivity|].
  set (all := concat _).
  pose proof (sortStrings_Permutation (elements (list_to_set (C := gset string) all))) as P.
  split; [|split].
  - apply NoDup_ListNoDup. rewrite P. apply NoDup_elements.
  - intros c. rewrite <- list_elem_of_In, P, elem_of_elements, elem_of_list_to_set.
    rewrite list_elem_of_In. subst all. rewrite in_concat. split.
    + intros (l & Hl & Hc). apply list_elem_of_In, list_elem_of_omap in Hl as (p & Hp & Hl).
      destruct (heap w !! p) as [t|] eqn:Ht; [|discriminate].
      injection Hl as <-. exists p, t.
      split; [apply list_elem_of_In; exact Hp|]. split; [exact Ht|exact Hc].
    + intros (p & t & Hp & Ht & Hc). exists (Categories t). split; [|exact Hc].
      apply list_elem_of_In, list_elem_of_omap. exists p.
      split; [apply list_elem_of_In; exact Hp|]. rewrite Ht. reflexivity.
  - intros i j a b Hij Hi Hj.
    pose proof (descending_lookup _ _ i j a b (sortStrings_ascending _) Hij Hi Hj) as H.
    apply negb_false_iff in H. exact H.
Qed.








(** ** Input the editor rejects *)

Local Open Scope Z_scope.


(** ** The date and time prompts *)

(** What was formatted with "2006-01-02" parses to the same day at
    midnight. *)
Lemma parse_format_date c :
  wellFormedCivil c -> 0 <= cYear c <= 9999 ->
  parseCivil layoutDate (formatItems c layoutDate)
  = Some (mkCivil (cYear c) (cMonth c) (cDay c) 0 0 0 0).
Proof.
  intros (V & _) Hy. destruct V as [Vm Vd].
  assert (Hd : 0 <= cDay c < 100) by (unfold daysIn in Vd; repeat destruct (_ : bool) in Vd; lia).
  assert (B1 : (1 <=? cMonth c) && (cMonth c <=? 12) = true)
    by (apply andb_true_iff; split; apply Z.leb_le; lia).
  assert (B2 : (1 <=? cDay c) && (cDay c <=? daysIn (cMonth c) (cYear c)) = true)
    by (apply andb_true_iff; split; apply Z.leb_le; lia).
  unfold parseCivil, layoutDate. simpl.
  rewrite getyear_appendInt by exact Hy. cbv beta iota delta [String.append]. simpl.
  rewrite getnum_appendInt by lia. rewrite B1. simpl.
  cbv beta iota delta [String.append]. simpl.
  fold String.append.
  rewrite getnum_appendInt by lia. simpl. rewrite B2. reflexivity.
Qed.

Lemma formatDate_parses t :
  IsZero t = false -> 0 <= Year t <= 9999 ->
  parseCivil layoutDate (formatDate t) = Some (mkCivil (Year t) (Month t) (Day t) 0 0 0 0).
Proof.
  intros Hz Hy. unfold formatDate, Format, Year, Month, Day in *. rewrite Hz.
  pose proof (civilOf_wellFormed t) as W.
  generalize dependent (civilOf t). intros c Hy W.
  exact (parse_format_date c W Hy).
Qed.

Lemma scan_clock_table :
  forallb (fun n : nat =>
             match scanTime (formatItems (mkCivil 0 1 1 (Z.of_nat n / 60) (Z.of_nat n mod 60) 0 0)
                               layoutClock) with
             | Some (h, m) => (h =? Z.of_nat n / 60) && (m =? Z.of_nat n mod 60)
             | None => false
             end) (seq 0 1440) = true.
Proof. vm_compute. reflexivity. Qed.

Lemma scan_clock h m :
  0 <= h < 24 -> 0 <= m < 60 ->
  scanTime (formatItems (mkCivil 0 1 1 h m 0 0) layoutClock) = Some (h, m).
Proof.
  intros Hh Hm.
  pose proof scan_clock_table as T. rewrite forallb_forall in T.
  specialize (T (Z.to_nat (60 * h + m))).
  rewrite Z2Nat.id in T by lia.
  replace ((60 * h + m) / 60) with h in T by zlia.
  replace ((60 * h + m) mod 60) with m in T by zlia.
  destruct (scanTime _) as [[h' m']|].
  - assert (K : (h' =? h) && (m' =? m) = true) by (apply T, in_seq; lia).
    apply andb_true_iff in K as [K1 K2]. apply Z.eqb_eq in K1, K2. congruence.
  - assert (K : false = true) by (apply T, in_seq; lia). discriminate K.
Qed.

(** The text "15:04" of a time of day scans as its hour and minute. *)
Lemma formatTime_scans t :
  IsZero t = false -> scanTime (formatTime t) = Some (Hour t, Minute t).
Proof.
  intros Hz. unfold formatTime, Format. rewrite Hz.
  destruct (civilOf_wellFormed t) as (_ & Hh & Hm & _).
  unfold Hour, Minute. generalize dependent (civilOf t). intros c Hh Hm.
  assert (E : formatItems c layoutClock
              = formatItems (mkCivil 0 1 1 (cHour c) (cMin c) 0 0) layoutClock)
    by reflexivity.
  rewrite E. exact (scan_clock (cHour c) (cMin c) Hh Hm).
Qed.

Lemma clock_range t : 0 <= Hour t < 24 /\ 0 <= Minute t < 60.
Proof.
  destruct (civilOf_wellFormed t) as (_ & Hh & Hm & _). split; assumption.
Qed.

Lemma date_valid t : validDate (Year t) (Month t) (Day t).
Proof. destruct (civilOf_wellFormed t) as (V & _). exact V. Qed.

(** X15.  The other two cases of the shared start timestamp: a time set
    while a date exists keeps the day and does not read the clock, and a
    date set while the timestamp is zero is midnight of that day; both are
    local times and mark the task dirty. *)
Theorem start_time_keeps_date (p : nat) (w : World) (todo : Todo) :
  heap w !! p = Some todo ->
  (forall timeStr hour min,
     scanTime timeStr = Some (hour, min) ->
     0 <= hour < 24 -> 0 <= min < 60 ->
     IsZero (StartDate todo) = false ->
     exists t',
       updateStartTime p timeStr w = Returns tt (setHeap (<[p := t']> (heap w)) w) /\
       civilOf (StartDate t')
       = mkCivil (Year (StartDate todo)) (Month (StartDate todo)) (Day (StartDate todo))
                 hour min 0 0 /\
       loc (StartDate t') = LocalZone /\ Modified t' = true) /\
  (forall dateStr c,
     parseCivil layoutDate dateStr = Some c ->
     IsZero (StartDate todo) = true ->
     exists t',
       updateStartDate p dateStr w = Returns tt (setHeap (<[p := t']> (heap w)) w) /\
       civilOf (StartDate t') = mkCivil (cYear c) (cMonth c) (cDay c) 0 0 0 0 /\
       loc (StartDate t') = LocalZone /\ Modified t' = true).
Proof.
  intros Hp. split.
  - intros timeStr hour min Sc Hh Hm Hz.
    unfold updateStartTime. rewrite (scanned_nonempty _ _ Sc), Sc, in_range_true by assumption.
    run. rewrite Hz. run.
    eexists. split; [reflexivity|]. cbn [StartDate setStartDate setModified Modified].
    split; [|split; reflexivity].
    destruct (civilOf_wellFormed (StartDate todo)) as (V & _).
    apply civilOf_time_Date; [exact V|exact Hh|exact Hm|lia..].
  - intros dateStr c P Hz.
    destruct (civilOf_parsed_date dateStr c P) as [Pd Cd].
    unfold updateStartDate. rewrite (parsed_nonempty _ _ P), Pd. run.
    eexists. split; [reflexivity|]. rewrite Hz.
    cbn [negb StartDate setStartDate setModified Modified].
    split; [exact Cd|split; reflexivity].
Qed.

(** X16.  Accepting the text a date or time prompt is seeded with is not a
    no-op.  The due date becomes midnight, local time, of the day shown; the
    start timestamp keeps its day, hour and minute and loses its seconds;
    and in each case the task is marked dirty. *)
Theorem prefilled_answer_truncates (p : nat) (w : World) (todo : Todo)
  (out tdd : string) (rest : list Reply) :
  heap w !! p = Some todo ->
  launcher w = Output out :: rest ->
  let done t := Returns tt (setHeap (<[p := t]> (heap w)) (setLauncher rest w)) in
  (IsZero (DueDate todo) = false -> 0 <= Year (DueDate todo) <= 9999 ->
   GoStrings.TrimRightNewlines out = Format (DueDate todo) layoutDate ->
   exists t',
     editDueDate p tdd w = done t' /\ Modified t' = true /\
     civilOf (DueDate t')
     = mkCivil (Year (DueDate todo)) (Month (DueDate todo)) (Day (DueDate todo)) 0 0 0 0) /\
  (IsZero (StartDate todo) = false ->
   (0 <= Year (StartDate todo) <= 9999 /\
    GoStrings.TrimRightNewlines out = formatDate (StartDate todo) ->
    exists t', editStartDate p w = done t' /\ Modified t' = true /\
               civilOf (StartDate t')
               = mkCivil (Year (StartDate todo)) (Month (StartDate todo))
                         (Day (StartDate todo)) (Hour (StartDate todo))
                         (Minute (StartDate todo)) 0 0) /\
   (GoStrings.TrimRightNewlines out = formatTime (StartDate todo) ->
    exists t', editStartTime p w = done t' /\ Modified t' = true /\
               civilOf (StartDate t')
               = mkCivil (Year (StartDate todo)) (Month (StartDate todo))
                         (Day (StartDate todo)) (Hour (StartDate todo))
                         (Minute (StartDate todo)) 0 0)).
Proof.
  intros Hp Hl done. subst done.
  assert (Hlt : (p < length (heap w))%nat) by (eapply lookup_lt_Some; exact Hp).
  split.
  - intros Hz Hy Ho.
    pose proof (formatDate_parses (DueDate todo) Hz Hy) as P.
    unfold formatDate in P. rewrite Hz, <- Ho in P. clear Ho Hy.
    remember (mkCivil (Year (DueDate todo)) (Month (DueDate todo)) (Day (DueDate todo)) 0 0 0 0)
      as c eqn:Ec.
    destruct (civilOf_parsed_date _ _ P) as [Pd Cd].
    unfold editDueDate. run. rewrite (parsed_nonempty _ _ P), Pd. run.
    eexists. split; [reflexivity|]. split; [reflexivity|].
    cbn [DueDate setDueDate setModified]. rewrite Cd, Ec. reflexivity.
  - intros Hz. split.
    + intros [Hy Ho].
      pose proof (formatDate_parses (StartDate todo) Hz Hy) as P. rewrite <- Ho in P.
      destruct (clock_range (StartDate todo)) as [Hh Hm].
      clear Ho Hy.
      remember (mkCivil (Year (StartDate todo)) (Month (StartDate todo))
                        (Day (StartDate todo)) 0 0 0 0) as c eqn:Ec.
      destruct (parseCivil_layoutDate _ _ P) as (V & _).
      destruct (civilOf_parsed_date _ _ P) as [Pd Cd].
      unfold editStartDate. run. unfold updateStartDate.
      rewrite (parsed_nonempty _ _ P), Pd. run.
      eexists. split; [reflexivity|]. rewrite Hz.
      cbn [negb StartDate setStartDate setModified Modified]. split; [reflexivity|].
      unfold Year at 1, Month at 1, Day at 1. rewrite Cd. cbn [cYear cMonth cDay].
      rewrite civilOf_time_Date by (first [exact V|exact Hh|exact Hm|lia]).
      rewrite Ec. reflexivity.
    + intros Ho.
      pose proof (formatTime_scans (StartDate todo) Hz) as Sc. rewrite <- Ho in Sc.
      destruct (clock_range (StartDate todo)) as [Hh Hm].
      pose proof (date_valid (StartDate todo)) as V.
      unfold editStartTime. run. unfold updateStartTime.
      rewrite (scanned_nonempty _ _ Sc), Sc.
      rewrite in_range_true by assumption. run. rewrite Hz. run.
      eexists. split; [reflexivity|].
      cbn [StartDate setStartDate setModified Modified]. split; [reflexivity|].
      apply civilOf_time_Date; [exact V|exact Hh|exact Hm|lia..].
Qed.

Local Close Scope Z_scope.

(** ** The whole program *)

Lemma mainLoop_quit fuel w r rest :
  launcher w = r :: rest ->
  r = ExitStatus1 \/ (exists out, r = Output out /\ GoStrings.TrimRightNewlines out = ""%string) ->
  mainLoop (S fuel) w
  = Returns tt (mkWorld (heap w) (sortSlice (lessPtr (heap w)) (Todos w)) (disk w) rest
                        (clock w) (S (ticks w))).
Proof.
  intros Hl Hr. cbn [mainLoop]. unfold bind at 1. rewrite createMenu_returns.
  set (menu := renderFrom _ _ _ _ _ _). destruct menu as [text m].
  unfold bind at 1. unfold display. cbn [launcher]. rewrite Hl.
  destruct Hr as [->|(out & -> & Ho)]; [reflexivity|]. rewrite Ho. reflexivity.
Qed.

(** X17.  Leaving the main menu at once (escape, or an empty selection)
    ends the program without touching a file: the tasks that were loaded
    are not dirty, so the final save writes nothing.  The todo directory
    exists afterwards. *)
Theorem quit_at_once_writes_nothing (w : World) (r : Reply) (rest : list Reply) :
  launcher w = r :: rest ->
  r = ExitStatus1 \/ (exists out, r = Output out /\ GoStrings.TrimRightNewlines out = ""%string) ->
  exists w',
    main w = Returns tt w' /\
    files (disk w') = files (disk w) /\ locked (disk w') = locked (disk w) /\
    dirs (disk w') = {[todoPtr]} ∪ dirs (disk w) /\
    launcher w' = rest.
Proof.
  intros Hl Hr. unfold main.
  set (w0 := setDisk _ w).
  assert (Hd : os_ReadDir (disk w0) todoPtr <> None).
  { unfold os_ReadDir. subst w0. cbn [disk setDisk dirs].
    rewrite bool_decide_eq_true_2 by (apply elem_of_union_l, elem_of_singleton; reflexivity).
    discriminate. }
  unfold bind at 1. unfold loadTodos.
  destruct (os_ReadDir (disk w0) todoPtr) as [names|] eqn:Er; [|congruence].
  set (ts := loadedTodos (disk w0) todoPtr names).
  set (w1 := setTodos _ _).
  assert (Hc : Forall (fun q => exists t, heap w1 !! q = Some t /\ Modified t = false)
                 (Todos w1)).
  { pose proof (loadedTodos_clean (disk w0) todoPtr names) as C. fold ts in C.
    subst w1. cbn [Todos heap setTodos setHeap].
    apply Forall_forall. intros q Hq. apply list_elem_of_In, in_seq in Hq.
    destruct (lookup_lt_is_Some_2 ts (q - length (heap w0))) as [t Ht]; [lia|].
    exists t. split.
    - rewrite lookup_app_r by lia. exact Ht.
    - rewrite Forall_forall in C. apply C. eapply list_elem_of_lookup_2. exact Ht. }
  cbv iota. unfold bind at 1.
  rewrite (mainLoop_quit _ w1 r rest Hl Hr).
  unfold bind at 1. unfold saveTodos. cbn [Todos].
  rewrite saveLoop_clean.
  - eexists. split; [reflexivity|]. cbn [disk]. repeat split.
  - cbn [heap]. eapply Permutation_Forall; [symmetry; apply sortSlice_Permutation|exact Hc].
Qed.

(** ** Timestamps a load cannot read *)

(** X18.  [parseDateTime] never fails: a value in none of its three forms
    (no "Z" at the end, no "TZID=", neither 8 nor 15 bytes long) is read as
    the zero time, and so is a value ending in "Z" that the layout rejects.
    A due date or start date read as zero counts as unset, so that, once the
    task is dirty, the save removes the DUE or DTSTART property from a
    VTODO with unique property names: the stored value is lost. *)
Theorem unreadable_timestamp_is_dropped (value : string) :
  (GoStrings.HasSuffix value "Z" = false ->
   GoStrings.Contains value "TZID=" = false ->
   String.length value <> 8 -> String.length value <> 15 ->
   parseDateTime value = zeroTime) /\
  (GoStrings.HasSuffix value "Z" = true ->
   parseCivil layoutStampZ value = None ->
   parseDateTime value = zeroTime) /\
  (parseDateTime value = zeroTime ->
   forall vtodo todo,
     List.NoDup (List.map IANAToken vtodo) ->
     (forall due,
        GetProperty vtodo ComponentPropertyDue = Some due -> Value due = value ->
      DueDate (convertVTodoToTodo vtodo) = zeroTime /\
      (DueDate todo = DueDate (convertVTodoToTodo vtodo) ->
       GetProperty (writeFields todo vtodo) ComponentPropertyDue = None)) /\
     (forall start,
        GetProperty vtodo ComponentPropertyDtStart = Some start -> Value start = value ->
      StartDate (convertVTodoToTodo vtodo) = zeroTime /\
      (StartDate todo = StartDate (convertVTodoToTodo vtodo) ->
       GetProperty (writeFields todo vtodo) ComponentPropertyDtStart = None))).
Proof.
  split; [|split].
  - intros Hz Ht H8 H15. unfold parseDateTime. rewrite Hz, Ht.
    apply Nat.eqb_neq in H8, H15. rewrite H8, H15. reflexivity.
  - intros Hz Hp. unfold parseDateTime, time_Parse, time_ParseInLocation.
    rewrite Hz, Hp. reflexivity.
  - intros Hv vtodo todo ND.
    pose proof (writeFields_values todo vtodo ND) as V. cbv zeta in V.
    destruct V as (_ & _ & _ & _ & V5 & V6 & _).
    split.
    + intros due Hg Hval.
      assert (E : DueDate (convertVTodoToTodo vtodo) = zeroTime).
      { unfold convertVTodoToTodo. rewrite Hg, Hval.
        repeat match goal with
               | |- context [match ?o with Some _ => _ | None => _ end] => destruct o
               end; cbn [DueDate setDueDate setStartDate setCategories setPriority];
          exact Hv. }
      split; [exact E|]. intros Hd. rewrite Hd, E in V6.
      change (IsZero zeroTime) with true in V6. cbv iota in V6.
      destruct (GetProperty (writeFields todo vtodo) ComponentPropertyDue);
        [discriminate V6|reflexivity].
    + intros start Hg Hval.
      assert (E : StartDate (convertVTodoToTodo vtodo) = zeroTime).
      { unfold convertVTodoToTodo. rewrite Hg, Hval. cbn [StartDate setStartDate]. exact Hv. }
      split; [exact E|]. intros Hd. rewrite Hd, E in V5.
      change (IsZero zeroTime) with true in V5. cbv iota in V5.
      destruct (GetProperty (writeFields todo vtodo) ComponentPropertyDtStart);
        [discriminate V5|reflexivity].
Qed.

Lemma digit_not_letter c d r :
  GoStrconv.digit_of c = Some d ->
  String.prefix "TZID=" (String c r) = false /\ String.prefix "Z" (String c r) = false.
Proof.
  intros H. cbn [String.prefix].
  destruct (ascii_dec "T" c) as [<-|_]; [discriminate H|].
  destruct (ascii_dec "Z" c) as [<-|_]; [discriminate H|].
  split; reflexivity.
Qed.

Lemma getnum_fixed s n r :
  getnum s true = Some (n, r) ->
  exists a b x y, s = String a (String b r) /\
                  GoStrconv.digit_of a = Some x /\ GoStrconv.digit_of b = Some y.
Proof.
  unfold getnum. destruct s as [|a [|b r']]; try discriminate.
  - destruct (GoStrconv.digit_of a); discriminate.
  - destruct (GoStrconv.digit_of a) as [x|] eqn:Ea; [|discriminate].
    destruct (GoStrconv.digit_of b) as [y|] eqn:Eb; [|discriminate].
    intros [= _ <-]. exists a, b, x, y. auto.
Qed.

(** X19.  A value of the form YYYYMMDD is read as midnight, local time, of
    that day. *)
Theorem date_only_value_is_local_midnight (value : string) (c : Civil) :
  parseCivil layoutCompactDate value = Some c ->
  parseDateTime value = time_Date (cYear c) (cMonth c) (cDay c) 0 0 0 0 LocalZone /\
  civilOf (parseDateTime value) = mkCivil (cYear c) (cMonth c) (cDay c) 0 0 0 0 /\
  loc (parseDateTime value) = LocalZone.
Proof.
  intros P.
  assert (S : exists c1 c2 c3 c4 c5 c6 c7 c8 d1 d2 d3 d4 d5 d6 d7 d8,
             value = String c1 (String c2 (String c3 (String c4 (String c5 (String c6
                       (String c7 (String c8 EmptyString))))))) /\
             GoStrconv.digit_of c1 = Some d1 /\ GoStrconv.digit_of c2 = Some d2 /\
             GoStrconv.digit_of c3 = Some d3 /\ GoStrconv.digit_of c4 = Some d4 /\
             GoStrconv.digit_of c5 = Some d5 /\ GoStrconv.digit_of c6 = Some d6 /\
             GoStrconv.digit_of c7 = Some d7 /\ GoStrconv.digit_of c8 = Some d8).
  { revert P. unfold parseCivil, layoutCompactDate. cbn [parseItems parseItem].
    destruct (getyear value) as [[y r1]|] eqn:Ey; [|discriminate].
    destruct (getnum r1 true) as [[m r2]|] eqn:Em; [|discriminate].
    destruct ((1 <=? m)%Z && (m <=? 12)%Z); [|discriminate].
    destruct (getnum r2 true) as [[d r3]|] eqn:Ed; [|discriminate].
    destruct r3; [|discriminate]. intros _.
    destruct (getnum_fixed _ _ _ Em) as (c5 & c6 & d5 & d6 & -> & H5 & H6).
    destruct (getnum_fixed _ _ _ Ed) as (c7 & c8 & d7 & d8 & -> & H7 & H8).
    unfold getyear in Ey. destruct value as [|c1 [|c2 [|c3 [|c4 r]]]]; try discriminate.
    destruct (GoStrconv.digit_of c1) as [d1|] eqn:H1; [|discriminate].
    destruct (GoStrconv.digit_of c2) as [d2|] eqn:H2; [|discriminate].
    destruct (GoStrconv.digit_of c3) as [d3|] eqn:H3; [|discriminate].
    destruct (GoStrconv.digit_of c4) as [d4|] eqn:H4; [|discriminate].
    injection Ey as _ ->.
    exists c1, c2, c3, c4, c5, c6, c7, c8, d1, d2, d3, d4, d5, d6, d7, d8.
    repeat split; assumption. }
  destruct S as (c1 & c2 & c3 & c4 & c5 & c6 & c7 & c8 & d1 & d2 & d3 & d4 & d5 & d6 & d7 & d8
                 & Ev & H1 & H2 & H3 & H4 & H5 & H6 & H7 & H8).
  assert (Hz : GoStrings.HasSuffix value "Z" = false).
  { rewrite Ev. unfold GoStrings.HasSuffix, GoStrings.reverse. cbn [GoStrings.rev_string].
    apply (digit_not_letter c8 d8 _ H8). }
  assert (Ht : GoStrings.Contains value "TZID=" = false).
  { rewrite Ev. cbn [GoStrings.Contains].
    rewrite (proj1 (digit_not_letter c1 d1 _ H1)), (proj1 (digit_not_letter c2 d2 _ H2)),
      (proj1 (digit_not_letter c3 d3 _ H3)), (proj1 (digit_not_letter c4 d4 _ H4)),
      (proj1 (digit_not_letter c5 d5 _ H5)), (proj1 (digit_not_letter c6 d6 _ H6)),
      (proj1 (digit_not_letter c7 d7 _ H7)), (proj1 (digit_not_letter c8 d8 _ H8)).
    reflexivity. }
  assert (Hl : String.length value = 8) by (rewrite Ev; reflexivity).
  assert (Hc : cHour c = 0%Z /\ cMin c = 0%Z /\ cSec c = 0%Z /\ cNsec c = 0%Z /\
               validDate (cYear c) (cMonth c) (cDay c)).
  { revert P. unfold parseCivil, layoutCompactDate. cbn [parseItems parseItem].
    destruct (getyear value) as [[y r1]|]; [|discriminate].
    destruct (getnum r1 true) as [[m r2]|]; [|discriminate].
    destruct ((1 <=? m)%Z && (m <=? 12)%Z) eqn:Bm; [|discriminate].
    destruct (getnum r2 true) as [[d r3]|]; [|discriminate].
    destruct r3; [|discriminate]. cbn [cYear cMonth cDay cHour cMin cSec cNsec].
    destruct ((1 <=? d)%Z && (d <=? daysIn m y)%Z) eqn:Bd; [|discriminate].
    intros [= <-]. cbn [cYear cMonth cDay cHour cMin cSec cNsec].
    apply andb_true_iff in Bm as [B1 B2]. apply andb_true_iff in Bd as [B3 B4].
    unfold validDate. repeat split; lia. }
  destruct Hc as (Eh & Emi & Es & En & V).
  assert (E : parseDateTime value
              = time_Date (cYear c) (cMonth c) (cDay c) 0 0 0 0 LocalZone).
  { unfold parseDateTime. rewrite Hz, Ht, Hl. cbn [Nat.eqb].
    unfold time_ParseInLocation. rewrite P, Eh, Emi, Es, En. reflexivity. }
  rewrite E. split; [reflexivity|]. split; [|reflexivity].
  apply civilOf_time_Date; [exact V|lia..].
Qed.

(** ** Deleting from the editor *)

Lemma prefix_Delete out :
  String.prefix "Delete item" out = true ->
  exists r, out = String "D" (String "e" (String "l" r)).
Proof.
  destruct out as [|a [|b [|c r]]]; cbn [String.prefix]; try discriminate.
  - destruct (ascii_dec "D" a); discriminate.
  - destruct (ascii_dec "D" a); [|discriminate]. destruct (ascii_dec "e" b); discriminate.
  - destruct (ascii_dec "D" a) as [<-|]; [|discriminate].
    destruct (ascii_dec "e" b) as [<-|]; [|discriminate].
    destruct (ascii_dec "l" c) as [<-|]; [|discriminate].
    intros _. exists r. reflexivity.
Qed.

Lemma editAction_Delete p tdd out :
  GoStrings.HasPrefix out "Delete item" = true -> editAction p tdd out = editDelete p.
Proof.
  intros H. unfold editAction. rewrite H.
  destruct (prefix_Delete out H) as [r ->]. reflexivity.
Qed.

(** X20.  "Delete item" answered with y or Y, when the file can be removed,
    ends the edit: the file is gone, the other files are as they were, the
    first entry of the store with the task's UID has left it and the tasks
    themselves are unchanged.  After any other answer the switch of the
    edit loop has changed nothing, and the loop goes on. *)
Theorem confirmed_delete_removes_task (p : nat) (w : World) (todo : Todo)
  (sel confirm : string) (rest : list Reply) (fs' : FS) :
  heap w !! p = Some todo ->
  launcher w = Output sel :: Output confirm :: rest ->
  GoStrings.HasPrefix (GoStrings.TrimRightNewlines sel) "Delete item" = true ->
  os_Remove (disk w) (todoPath todoPtr todo) = Some fs' ->
  (String.eqb (GoStrings.ToLower (GoStrings.TrimRightNewlines confirm)) "y" = true ->
   editItem p w
   = Returns Deleted
       (mkWorld (heap w) (removeUID (heap w) (UID todo) (Todos w)) fs' rest
                (clock w) (ticks w)) /\
   files fs' !! todoPath todoPtr todo = None /\
   forall path, path <> todoPath todoPtr todo -> files fs' !! path = files (disk w) !! path) /\
  (String.eqb (GoStrings.ToLower (GoStrings.TrimRightNewlines confirm)) "y" = false ->
   forall tdd,
     editAction p tdd (GoStrings.TrimRightNewlines sel) (setLauncher (Output confirm :: rest) w)
     = Returns Continue (setLauncher rest w)).
Proof.
  intros Hp Hl Hs Hrm. split.
  - intros Hy. split; [|split].
    + unfold editItem. rewrite Hl. cbn [length editLoop]. run.
      rewrite (editAction_Delete _ _ _ Hs). unfold editDelete. run.
      rewrite Hy. unfold deleteTodo. run. rewrite Hrm. reflexivity.
    + revert Hrm. unfold os_Remove.
      destruct (files (disk w) !! todoPath todoPtr todo); [|discriminate].
      destruct (bool_decide _); [discriminate|].
      intros [= <-]. cbn [files]. apply lookup_delete_eq.
    + intros path Hne. revert Hrm. unfold os_Remove.
      destruct (files (disk w) !! todoPath todoPtr todo); [|discriminate].
      destruct (bool_decide _); [discriminate|].
      intros [= <-]. cbn [files]. apply lookup_delete_ne. congruence.
  - intros Hn tdd. rewrite (editAction_Delete _ _ _ Hs). unfold editDelete. run.
    rewrite Hn. reflexivity.
Qed.

(** ** More on saving, adding and UIDs *)


(** X22.  A new task whose edit menu is cancelled is not added: the store
    and the disk are as before. *)
Theorem add_cancelled_in_editor (w : World) (title : string) (rest : list Reply) :
  launcher w = Output title :: ExitStatus1 :: rest ->
  GoStrings.TrimRightNewlines title <> ""%string ->
  exists w',
    addItem w = Returns tt w' /\
    Todos w' = Todos w /\ disk w' = disk w /\ launcher w' = rest /\
    forall q t, heap w !! q = Some t -> heap w' !! q = Some t.
Proof.
  intros Hl Ht. apply String.eqb_neq in Ht.
  rewrite (addItem_begin w _ _ Hl). cbv zeta. rewrite Ht. cbn [negb].
  unfold afterTitle. set (t0 := setSummary _ _).
  set (w0 := mkWorld _ _ _ _ _ _).
  assert (H0 : heap w0 !! length (heap w) = Some t0).
  { subst w0. cbn [heap]. rewrite lookup_app_r by lia.
    rewrite Nat.sub_diag. reflexivity. }
  assert (E : editItem (length (heap w)) w0
              = Returns Cancelled
                  (mkWorld (heap w ++ [t0]) (Todos w) (disk w) rest (clock w)
                           (S (S (S (ticks w)))))).
  { unfold editItem. subst w0. cbn [launcher length editLoop]. run.
    rewrite (lookup_app_r (heap w)) by lia. rewrite Nat.sub_diag. cbn [lookup list_lookup].
    run. rewrite (lookup_app_r (heap w)) by lia. rewrite Nat.sub_diag. cbn [lookup list_lookup].
    subst t0. cbn [UID setSummary setStatus setLastMod setCreated emptyTodo].
    destruct (String.eqb (GoStrconv.Itoa _) "") eqn:Eu.
    - reflexivity.
    - run. rewrite (lookup_app_r (heap w)) by lia. rewrite Nat.sub_diag.
      cbn [lookup list_lookup]. rewrite (insert_app_r_alt (heap w)) by lia.
      rewrite Nat.sub_diag. reflexivity. }
  unfold bind at 1. rewrite E.
  unfold bind at 1. unfold deref. cbn [heap].
  rewrite (lookup_app_r (heap w)) by lia. rewrite Nat.sub_diag. cbn [lookup list_lookup].
  subst t0. cbn [Summary Modified setSummary setStatus setLastMod setCreated emptyTodo].
  rewrite andb_false_r. eexists. split; [reflexivity|].
  cbn [Todos disk launcher heap]. repeat split.
  intros q t Hq. apply lookup_app_l_Some. exact Hq.
Qed.




End Properties.

(** * The theorems at concrete inputs *)

#[local] Existing Instance exEnv.

Local Open Scope string_scope.



(** C2 at [exTask], whose file does not exist: the deletion fails and the
    store is empty afterwards. *)
Lemma delete_failure_witness :
  heap (exWorld []) !! 0 = Some exTask /\
  In 0 (Todos (exWorld [])) /\
  os_Remove (disk (exWorld [])) (todoPath todoPtr exTask) = None /\
  exists w', deleteTodo 0 (exWorld []) = Returns false w' /\ Todos w' = [].
Proof.
  split; [reflexivity|]. split; [left; reflexivity|]. split; [reflexivity|].
  destruct (delete_failure_drops_entry 0 (exWorld []) exTask eq_refl (or_introl eq_refl) eq_refl)
    as (w' & E & _ & T & _).
  exists w'. split; [exact E|]. rewrite T. reflexivity.
Defined.

(** C3 at two tasks due the same day: the comparator separates them in
    neither direction, the sort leaves them as they stood, and the menu
    shows priority 5 above priority 1.  The four tasks of the sort example
    come out as A, B, priority 1, priority 0 from every initial order. *)
Lemma equal_due_dates_witness :
  IsZero (DueDate exFive) = false /\ DueDate exOne = DueDate exFive /\
  less exFive exOne = false /\ less exOne exFive = false /\
  sortSlice less [exFive; exOne] = [exFive; exOne] /\
  menuText (createMenu false (mkWorld [exFive; exOne] [0; 1] exEmptyDisk [] exClock 0))
  = Some ("Add Item" +:+ nl +:+ "View Completed Items" +:+ nl
          +:+ "(5) 2024-09-15 five due:2024-10-02" +:+ nl
          +:+ "(1) 2024-09-15 one due:2024-10-02" +:+ nl) /\
  Forall (fun l => sortSlice (lessPtr exSortHeap) l = [0; 1; 2; 3])
         (permutations [0; 1; 2; 3]).
Proof.
  split; [reflexivity|]. split; [reflexivity|].
  destruct (proj2 (proj2 (proj2 (equal_due_dates_ignore_priority exFive exOne)))
              eq_refl eq_refl) as [L R].
  split; [exact L|]. split; [exact R|].
  split; [reflexivity|].
  split; [vm_compute; reflexivity|].
  vm_compute. repeat constructor.
Defined.



(** The same save, evaluated: no error, and both tasks clean afterwards. *)
Lemma saveTodos_example :
  match saveTodos "todos" exWorld2 with
  | Returns e w' => Some (e, heap w')
  | _ => None
  end = Some (None, [exTask; setModified false exDirty]).
Proof. vm_compute. reflexivity. Qed.

(** C6: the priority prompt answers 7 for [exTask]; the stored component of
    [exCalendar] is loaded. *)
Lemma priority_after_prompt_and_load_witness :
  heap (exWorld [Output "7"]) !! 0 = Some exTask /\
  editPriority 0 (exWorld [Output "7"])
  = Returns tt (setHeap [setModified true (setPriority 7 exTask)] (exWorld [])) /\
  (0 <= Priority exTask <= 9)%Z /\
  exists todo',
    heap (setHeap [setModified true (setPriority 7 exTask)] (exWorld [])) !! 0 = Some todo' /\
    (0 <= Priority todo' <= 9)%Z.
Proof.
  assert (R : (0 <= Priority exTask <= 9)%Z) by (cbn; lia).
  split; [reflexivity|]. split; [reflexivity|]. split; [exact R|].
  destruct (proj1 priority_after_prompt_and_load 0 (exWorld [Output "7"]) exTask _
              eq_refl eq_refl) as (todo' & H & _ & P).
  exists todo'. split; [exact H|exact (P R)].
Defined.

(** C6, where the claim fails: a stored PRIORITY of 42 is loaded as 42. *)
Lemma loaded_priority_out_of_range :
  Priority <$> taskAfter (loadTodos "todos" (mkWorld [] [] exDisk [] exClock 0)) 0 = Some 42%Z /\
  (42 <=? 9)%Z = false.
Proof. split; [vm_compute; reflexivity|reflexivity]. Qed.

(** C7: 2024-09-18 16:00:00 local time. *)
Lemma serialize_round_trip_witness :
  nsec (mkTime 63862297200 0 LocalZone) = 0%Z /\
  (0 <= Year (toUTC (mkTime 63862297200 0 LocalZone)) <= 9999)%Z /\
  serialize (mkTime 63862297200 0 LocalZone) = "20240918T230000Z" /\
  parseDateTime (serialize (mkTime 63862297200 0 LocalZone)) = mkTime 63862297200 0 LocalZone.
Proof.
  assert (Y : (0 <= Year (toUTC (mkTime 63862297200 0 LocalZone)) <= 9999)%Z)
    by (vm_compute; split; discriminate).
  split; [reflexivity|]. split; [exact Y|]. split; [vm_compute; reflexivity|].
  exact (proj1 (proj2 (serialize_round_trip (mkTime 63862297200 0 LocalZone)) eq_refl Y)).
Defined.

(** C7, where the claim fails: half a second is lost on the way to the
    stored form and back, and the first instant of the year 10000 is stored
    as a string that is read back as the zero time. *)
Lemma nanoseconds_lost :
  serialize (mkTime 63862297200 500000000 LocalZone) = "20240918T230000Z" /\
  parseDateTime (serialize (mkTime 63862297200 500000000 LocalZone))
  = mkTime 63862297200 0 LocalZone /\
  Year (mkTime 315537897600 0 UTC) = 10000%Z /\
  serialize (mkTime 315537897600 0 UTC) = "100000101T000000Z" /\
  parseDateTime (serialize (mkTime 315537897600 0 UTC)) = zeroTime.
Proof. repeat split; vm_compute; reflexivity. Qed.

(** C8: the start date of [exTask] (2024-10-02 01:00:30) is moved to
    2024-10-03. *)
Lemma start_date_time_edits_witness :
  heap (exWorld []) !! 0 = Some exTask /\
  GoCalendar.parseCivil GoCalendar.layoutDate "2024-10-03"
  = Some (GoCalendar.mkCivil 2024 10 3 0 0 0 0) /\
  IsZero (StartDate exTask) = false /\
  (exists t',
     updateStartDate 0 "2024-10-03" (exWorld []) = Returns tt (setHeap [t'] (exWorld [])) /\
     civilOf (StartDate t') = GoCalendar.mkCivil 2024 10 3 1 0 0 0 /\
     Modified t' = true) /\
  updateStartDate 0 "" (exWorld [])
  = Returns tt (setHeap [setStartDate zeroTime exTask] (exWorld [])) /\
  updateStartTime 0 "" (exWorld []) = Returns tt (exWorld []).
Proof.
  split; [reflexivity|]. split; [reflexivity|]. split; [reflexivity|].
  destruct (start_date_time_edits 0 (exWorld []) exTask eq_refl) as (D & _ & Z & N).
  split; [|split; [exact Z|exact N]].
  exact (D "2024-10-03" (GoCalendar.mkCivil 2024 10 3 0 0 0 0) eq_refl eq_refl).
Defined.

(** C8, where the claim fails: the time of day 01:00:30 is 01:00:00 after
    the date is set. *)
Lemma seconds_reset :
  civilOf (StartDate exTask) = GoCalendar.mkCivil 2024 10 2 1 0 30 0 /\
  (StartDate <$> taskAfter (updateStartDate 0 "2024-10-03" (exWorld [])) 0)
  = Some (mkTime 63863539200 0 LocalZone) /\
  civilOf (mkTime 63863539200 0 LocalZone) = GoCalendar.mkCivil 2024 10 3 1 0 0 0.
Proof. repeat split; vm_compute; reflexivity. Qed.

(** C9: the title prompt of an add is cancelled. *)
Lemma add_needs_title_witness :
  launcher (exWorld [ExitStatus1]) = [ExitStatus1] /\
  exists w',
    addItem (exWorld [ExitStatus1]) = Returns tt w' /\
    Todos w' = [0] /\ disk w' = exEmptyDisk /\
    saveOutcome "todos" w' = saveOutcome "todos" (exWorld [ExitStatus1]).
Proof.
  split; [reflexivity|].
  destruct (proj1 (add_needs_title (exWorld [ExitStatus1])) ExitStatus1 [] eq_refl
              (or_introl eq_refl)) as (w' & E & T & D & S).
  exists w'. split; [exact E|]. split; [exact T|]. split; [exact D|].
  apply S. repeat constructor. eexists. reflexivity.
Defined.

(** C10: "<Enter new category>" is chosen for [exTask] and the entry prompt
    cancelled. *)
Lemma cancelled_new_category_clears_witness :
  heap (exWorld [Output ("<Enter new category>" +:+ nl); ExitStatus1]) !! 0 = Some exTask /\
  GoStrings.TrimRightNewlines ("<Enter new category>" +:+ nl) = "<Enter new category>" /\
  editCategories 0 (exWorld [Output ("<Enter new category>" +:+ nl); ExitStatus1])
  = Returns tt (setHeap [setModified true (setCategories [] exTask)] (exWorld [])) /\
  editCategories 0 (exWorld [Output ("<Enter new category>" +:+ nl); Output ""])
  = editCategories 0 (exWorld [Output ("<Enter new category>" +:+ nl); ExitStatus1]).
Proof.
  split; [reflexivity|]. split; [reflexivity|].
  exact (cancelled_new_category_clears 0
           (exWorld [Output ("<Enter new category>" +:+ nl); ExitStatus1]) exTask
           ("<Enter new category>" +:+ nl) [] eq_refl eq_refl eq_refl).
Defined.


Lemma load_then_save_writes_nothing_witness :
  loadTodos "todos" (mkWorld [] [] exDisk3 [] exClock 0)
  = Returns false (mkWorld [convertVTodoToTodo (exStoredOf exCalendar)] [0] exDisk3 [] exClock 0) /\
  saveTodos "todos" (mkWorld [convertVTodoToTodo (exStoredOf exCalendar)] [0] exDisk3 [] exClock 0)
  = Returns None (mkWorld [convertVTodoToTodo (exStoredOf exCalendar)] [0] exDisk3 [] exClock 0).
Proof.
  assert (E : loadTodos "todos" (mkWorld [] [] exDisk3 [] exClock 0)
              = Returns false (mkWorld [convertVTodoToTodo (exStoredOf exCalendar)] [0]
                                       exDisk3 [] exClock 0))
    by (vm_compute; reflexivity).
  split; [exact E|].
  exact (load_then_save_writes_nothing "todos" "todos" _ _ E).
Defined.

Lemma save_twice_witness :
  wfStore exWorld2 /\
  saveTodos "todos" exWorld2 = Returns None (worldOf (saveTodos "todos" exWorld2) exWorld2) /\
  saveTodos "todos" (worldOf (saveTodos "todos" exWorld2) exWorld2)
  = Returns None (worldOf (saveTodos "todos" exWorld2) exWorld2).
Proof.
  assert (W : wfStore exWorld2) by (repeat constructor; eexists; reflexivity).
  assert (E : saveTodos "todos" exWorld2
              = Returns None (worldOf (saveTodos "todos" exWorld2) exWorld2))
    by (vm_compute; reflexivity).
  split; [exact W|]. split; [exact E|].
  exact (save_twice "todos" exWorld2 _ W E).
Defined.


Lemma createMenu_sorts_in_place_witness :
  wfStore exWorld2 /\
  exists menu w',
    createMenu false exWorld2 = Returns menu w' /\
    Permutation (Todos w') (Todos exWorld2) /\
    heap w' = heap exWorld2 /\ disk w' = disk exWorld2 /\ launcher w' = launcher exWorld2 /\
    forall i j p q a b,
      i < j -> Todos w' !! i = Some p -> Todos w' !! j = Some q ->
      heap exWorld2 !! p = Some a -> heap exWorld2 !! q = Some b ->
      less b a = false.
Proof.
  assert (W : wfStore exWorld2) by (repeat constructor; eexists; reflexivity).
  split; [exact W|]. exact (createMenu_sorts_in_place false exWorld2 W).
Defined.

Lemma menu_line_selects_its_task_witness :
  wfStore (exWorld []) /\
  createMenu false (exWorld [])
  = Returns ("Add Item" +:+ nl +:+ "View Completed Items" +:+ nl
             +:+ "(3) 2024-09-15 Buy milk @home due:2024-10-02" +:+ nl,
             {["(3) 2024-09-15 Buy milk @home due:2024-10-02" := 0]})
            (mkWorld [exTask] [0] exEmptyDisk [] exClock 1) /\
  exists p t,
    [0] !! 0 = Some p /\ [exTask] !! p = Some t /\
    renderLine t = "(3) 2024-09-15 Buy milk @home due:2024-10-02" /\
    shown false (toLocal (exClock 0)) t = true /\
    selectedTodo {["(3) 2024-09-15 Buy milk @home due:2024-10-02" := 0]}
      "(3) 2024-09-15 Buy milk @home due:2024-10-02"
      (mkWorld [exTask] [0] exEmptyDisk [] exClock 1)
    = Returns p (mkWorld [exTask] [0] exEmptyDisk [] exClock 1).
Proof.
  assert (W : wfStore (exWorld [])) by (repeat constructor; eexists; reflexivity).
  assert (E : createMenu false (exWorld [])
              = Returns ("Add Item" +:+ nl +:+ "View Completed Items" +:+ nl
                         +:+ "(3) 2024-09-15 Buy milk @home due:2024-10-02" +:+ nl,
                         {["(3) 2024-09-15 Buy milk @home due:2024-10-02" := 0]})
                        (mkWorld [exTask] [0] exEmptyDisk [] exClock 1))
    by (vm_compute; reflexivity).
  split; [exact W|]. split; [exact E|].
  exact (proj1 (menu_line_selects_its_task false (exWorld []) _ _ _ W E) _ 0
           (lookup_singleton_eq _ _)).
Defined.

Lemma unlisted_text_selects_first_witness :
  createMenu false (mkWorld [] [] exEmptyDisk [Output "foo"] exClock 0)
  = Returns ("Add Item" +:+ nl +:+ "View Completed Items" +:+ nl, ∅)
            (mkWorld [] [] exEmptyDisk [Output "foo"] exClock 1) /\
  mainLoop 1 (mkWorld [] [] exEmptyDisk [Output "foo"] exClock 0) = Exits.
Proof.
  assert (E : createMenu false (mkWorld [] [] exEmptyDisk [Output "foo"] exClock 0)
              = Returns ("Add Item" +:+ nl +:+ "View Completed Items" +:+ nl, ∅)
                        (mkWorld [] [] exEmptyDisk [Output "foo"] exClock 1))
    by reflexivity.
  split; [exact E|].
  refine (unlisted_text_selects_first 0 _ _ _ "foo" _ [] E eq_refl _ _ _ eq_refl);
    vm_compute; discriminate.
Defined.


Lemma add_item_appends_dirty_task_witness :
  addItem (exWorld [Output "Water plants"; Output "Save item"])
  = Returns tt
      (mkWorld
         [exTask;
          mkTodo (GoStrconv.Itoa (UnixNano (toLocal (exClock 0))))
                 "Water plants" "" [] "NEEDS-ACTION"
                 (toLocal (exClock 1)) (toLocal (exClock 4)) zeroTime 0 zeroTime true]
         [0; 1] exEmptyDisk [] exClock 5).
Proof.
  refine (add_item_appends_dirty_task
            (exWorld [Output "Water plants"; Output "Save item"])
            "Water plants" "Save item" [] eq_refl _ eq_refl).
  vm_compute. discriminate.
Defined.

Lemma cancel_keeps_edits_without_uid_witness :
  editItem 0 (mkWorld [exAnonymous] [0] exEmptyDisk
                [Output "Title: Old title"; Output "New title"; ExitStatus1] exClock 0)
  = Returns Cancelled
      (mkWorld [setModified true (setSummary "New title" exAnonymous)] [0]
               exEmptyDisk [] exClock 0).
Proof.
  exact (cancel_keeps_edits_without_uid 0
           (mkWorld [exAnonymous] [0] exEmptyDisk
              [Output "Title: Old title"; Output "New title"; ExitStatus1] exClock 0)
           exAnonymous "Title: Old title" "New title" [] eq_refl eq_refl eq_refl eq_refl).
Defined.


Lemma start_time_keeps_date_witness :
  exists t',
    updateStartTime 0 "07:45" (exWorld [])
    = Returns tt (setHeap (<[0 := t']> [exTask]) (exWorld [])) /\
    civilOf (StartDate t') = GoCalendar.mkCivil 2024 10 2 7 45 0 0 /\
    loc (StartDate t') = LocalZone /\ Modified t' = true.
Proof.
  refine (proj1 (start_time_keeps_date 0 (exWorld []) exTask eq_refl)
                "07:45" 7%Z 45%Z eq_refl _ _ eq_refl); lia.
Defined.

Lemma prefilled_answer_truncates_witness :
  exists t',
    editDueDate 0 "" (exWorld [Output "2024-10-02"])
    = Returns tt (setHeap (<[0 := t']> [exTask]) (exWorld [])) /\
    Modified t' = true /\
    civilOf (DueDate t') = GoCalendar.mkCivil 2024 10 2 0 0 0 0.
Proof.
  refine (proj1 (prefilled_answer_truncates 0 (exWorld [Output "2024-10-02"])
                   exTask "2024-10-02" "" [] eq_refl eq_refl) eq_refl _ eq_refl).
  vm_compute. split; discriminate.
Defined.

Lemma quit_at_once_writes_nothing_witness :
  exists w',
    main (mkWorld [] [] exDisk3 [ExitStatus1] exClock 0) = Returns tt w' /\
    files (disk w') = files exDisk3 /\ locked (disk w') = locked exDisk3 /\
    dirs (disk w') = {["todos"]} ∪ dirs exDisk3 /\
    launcher w' = [].
Proof.
  exact (quit_at_once_writes_nothing (mkWorld [] [] exDisk3 [ExitStatus1] exClock 0)
           ExitStatus1 [] eq_refl (or_introl eq_refl)).
Defined.

Lemma date_only_value_is_local_midnight_witness :
  parseDateTime "20240918"
  = time_Date 2024 9 18 0 0 0 0 LocalZone /\
  civilOf (parseDateTime "20240918") = GoCalendar.mkCivil 2024 9 18 0 0 0 0 /\
  loc (parseDateTime "20240918") = LocalZone.
Proof.
  exact (date_only_value_is_local_midnight "20240918"
           (GoCalendar.mkCivil 2024 9 18 0 0 0 0) eq_refl).
Defined.

Lemma confirmed_delete_removes_task_witness :
  editItem 1 (exWorld3 [Output "Delete item"; Output "y"])
  = Returns Deleted
      (mkWorld [exTask; exDone] [0]
         (mkFS {["todos"]} {[("todos", "u1.ics") := Ics exCalendar]} ∅) [] exClock 0) /\
  files (mkFS {["todos"]} {[("todos", "u1.ics") := Ics exCalendar]} ∅)
    !! todoPath "todos" exDone = None /\
  forall path, path <> todoPath "todos" exDone ->
    files (mkFS {["todos"]} {[("todos", "u1.ics") := Ics exCalendar]} ∅) !! path
    = files exDisk3 !! path.
Proof.
  assert (R : os_Remove exDisk3 (todoPath "todos" exDone)
              = Some (mkFS {["todos"]} {[("todos", "u1.ics") := Ics exCalendar]} ∅))
    by (vm_compute; reflexivity).
  exact (proj1 (confirmed_delete_removes_task 1 (exWorld3 [Output "Delete item"; Output "y"])
                  exDone "Delete item" "y" [] _ eq_refl eq_refl eq_refl R) eq_refl).
Defined.


Lemma add_cancelled_in_editor_witness :
  exists w',
    addItem (exWorld [Output "Water plants"; ExitStatus1]) = Returns tt w' /\
    Todos w' = [0] /\ disk w' = exEmptyDisk /\ launcher w' = [] /\
    forall q t, [exTask] !! q = Some t -> heap w' !! q = Some t.
Proof.
  refine (add_cancelled_in_editor (exWorld [Output "Water plants"; ExitStatus1])
            "Water plants" [] eq_refl _).
  vm_compute. discriminate.
Defined.




Lemma unreadable_timestamp_is_dropped_witness :
  parseDateTime "2024-09-18" = zeroTime /\
  DueDate (convertVTodoToTodo exStored) = zeroTime /\
  GetProperty (writeFields exDirty exStored) "DUE" = None.
Proof.
  assert (Z0 : parseDateTime "2024-09-18" = zeroTime).
  { refine (proj1 (unreadable_timestamp_is_dropped "2024-09-18") eq_refl eq_refl _ _);
      vm_compute; discriminate. }
  assert (ND : List.NoDup (List.map IANAToken exStored))
    by (repeat constructor; simpl; intuition discriminate).
  destruct (proj1 (proj2 (proj2 (unreadable_timestamp_is_dropped "2024-09-18"))
                     Z0 exStored exDirty ND)
                  (mkProperty "DUE" [] "2024-09-18") eq_refl eq_refl) as [D1 D2].
  split; [exact Z0|]. split; [exact D1|]. exact (D2 eq_refl).
Defined.

